(** * Tahlia: the context capture / restore stack of [tahlia_core.py] and
      [tahlia_bridge.py]

    The two Python classes [TahliaCore] and [TahliaBridge] keep a bounded
    stack of snapshots of the Blender context and offer
    [capture_context], [restore_context], [push_context], [pop_context],
    [clear_context_stack] and [preserve_context].  Both talk to the
    ambient [bpy] module.  This development embeds

    - [bpy]: the part of Blender's state the two classes read and write,
      as a record, with every API member they touch as a function that
      can raise;
    - the Python control flow ([try] / [except], [for], attribute
      assignment) in a small state-and-exception monad;
    - the two classes, method by method, in [Module TahliaCore] and
      [Module TahliaBridge]: the context methods, and the import
      methods ([import_asset_blender], [_perform_import] and the five
      importers they dispatch to, [import_asset], and the batch imports
      [import_assets_grid], [import_assets_circle] and
      [import_assets_line]).  The import methods are embedded over a
      record [Env] of the calls they make outside the repository (the
      file system, [pathlib], Blender's operators and data API, [float]
      arithmetic), of which nothing is assumed.

    The material methods ([create_material], [create_pbr_material] and
    [material_utils.py]) parse floats out of strings and edit node
    graphs; they are not embedded.

    An exception is represented by its message [str(e)].  Only exceptions
    deriving from [Exception] are modelled: those are the ones the
    handlers [except Exception] and the bare [except:] of the source
    both catch.  Calls to [logger] have no effect on the state that is
    modelled and are left out. *)

From Stdlib Require Import List String ZArith Bool Lia DecimalString.
Import ListNotations.
Open Scope string_scope.

Set Implicit Arguments.

(* keep error messages folded in goals *)
Arguments String.append : simpl never.

(** ** Exceptions and state *)

Definition exn := string.

Inductive outcome (A : Type) : Type :=
| Returned (a : A)
| Raised (e : exn).
Arguments Returned {A} a.
Arguments Raised {A} e.

(** A Python statement run in state [S]: it returns or raises, and the
    state it has reached is kept either way. *)
Definition M (S A : Type) : Type := S -> outcome A * S.

Definition ret {S A} (a : A) : M S A := fun s => (Returned a, s).

Definition raise {S A} (e : exn) : M S A := fun s => (Raised e, s).

Definition bind {S A B} (c : M S A) (k : A -> M S B) : M S B :=
  fun s => match c s with
           | (Returned a, s') => k a s'
           | (Raised e, s') => (Raised e, s')
           end.

(** [try: body except Exception as e: handler(e)] *)
Definition try_except {S A} (body : M S A) (handler : exn -> M S A) : M S A :=
  fun s => match body s with
           | (Returned a, s') => (Returned a, s')
           | (Raised e, s') => handler e s'
           end.

Definition get {S} : M S S := fun s => (Returned s, s).

Definition modify {S} (f : S -> S) : M S unit := fun s => (Returned tt, f s).

Declare Scope py_scope.
Delimit Scope py_scope with py.
Notation "x <- c ;; k" := (bind c (fun x => k))
  (at level 61, c at next level, right associativity) : py_scope.
Notation "c ;; k" := (bind c (fun _ => k))
  (at level 61, right associativity) : py_scope.
Open Scope py_scope.

(** [for x in l: body(x)] *)
Fixpoint for_each {S A} (l : list A) (body : A -> M S unit) : M S unit :=
  match l with
  | [] => ret tt
  | x :: l' => body x ;; for_each l' body
  end.

(** [if c: body] with no [else] *)
Definition when {S} (c : bool) (body : M S unit) : M S unit :=
  if c then body else ret tt.

(** [x in l] on a list of strings *)
Definition str_in (x : string) (l : list string) : bool :=
  existsb (String.eqb x) l.

(** [str(n)] for a Python [int] *)
Definition str_of_int (n : Z) : string :=
  NilEmpty.string_of_int (Z.to_int n).

(** ** The host: what the classes see of [bpy]

    [bpy] is Blender's Python API; the repository only calls it.  The
    record [bpy.t] holds what those calls read and write: the objects
    with their select flag, the active object, the child collections
    with their [hide_viewport] flag, the space's shading and overlay,
    and a few scene attributes.  Each member does what Blender documents
    for it, unless the host is in a state where it raises: [faults]
    lists those members.  The list is fixed: no call changes which
    members raise.  What Blender makes depend on an earlier call (an
    operator whose poll depends on the mode a [mode_set] has set, an
    object that cannot be selected once its collection is hidden) is
    outside the model. *)

Module bpy.

(** An entry of [bpy.data.objects]. *)
Record Object := { ob_name : string; ob_select : bool }.

(** An entry of [bpy.context.scene.collection.children]. *)
Record Collection := { col_name : string; hide_viewport : bool }.

(** The API members the two classes use.  Each of them can be made to
    raise by the host (a missing context member, an operator whose
    poll fails, a read-only property). *)
Inductive Api :=
| SelectedObjects   (* bpy.context.selected_objects *)
| ActiveObject      (* bpy.context.active_object *)
| ViewLayerName     (* bpy.context.view_layer.name *)
| Mode              (* bpy.context.mode *)
| ShadingType       (* bpy.context.space_data.shading.type *)
| ShowWireframes    (* bpy.context.space_data.overlay.show_wireframes *)
| Children          (* bpy.context.scene.collection.children *)
| IsRendering       (* bpy.context.scene.render.is_rendering *)
| SceneName         (* bpy.context.scene.name *)
| FrameCurrent      (* bpy.context.scene.frame_current *)
| RenderEngine      (* bpy.context.scene.render.engine *)
| DataObjects       (* bpy.data.objects *)
| SetActive         (* bpy.context.view_layer.objects.active = ... *)
| SelectAll         (* bpy.ops.object.select_all *)
| SelectSet         (* Object.select_set *)
| ModeSet           (* bpy.ops.object.mode_set *)
| SetShadingType    (* bpy.context.space_data.shading.type = ... *)
| SetHideViewport.  (* Collection.hide_viewport = ... *)

Definition Api_eqb (a b : Api) : bool :=
  match a, b with
  | SelectedObjects, SelectedObjects | ActiveObject, ActiveObject
  | ViewLayerName, ViewLayerName | Mode, Mode | ShadingType, ShadingType
  | ShowWireframes, ShowWireframes | Children, Children
  | IsRendering, IsRendering | SceneName, SceneName
  | FrameCurrent, FrameCurrent | RenderEngine, RenderEngine
  | DataObjects, DataObjects | SetActive, SetActive
  | SelectAll, SelectAll | SelectSet, SelectSet | ModeSet, ModeSet
  | SetShadingType, SetShadingType | SetHideViewport, SetHideViewport => true
  | _, _ => false
  end.

Record t := {
  data_objects : list Object;
  active : option string;          (* name of the active object, if any *)
  view_layer_name : string;
  mode : string;
  shading_type : option string;    (* None: space_data has no 'shading' *)
  show_wireframes : option bool;   (* None: space_data has no 'overlay' *)
  children : list Collection;
  is_rendering : bool;
  scene_name : string;
  frame_current : Z;
  render_engine : string;
  faults : list (Api * exn)        (* the members that raise, and with what *)
}.

Definition with_data_objects (l : list Object) (b : t) : t :=
  {| data_objects := l; active := active b;
     view_layer_name := view_layer_name b; mode := mode b;
     shading_type := shading_type b; show_wireframes := show_wireframes b;
     children := children b; is_rendering := is_rendering b;
     scene_name := scene_name b; frame_current := frame_current b;
     render_engine := render_engine b; faults := faults b |}.

Definition with_active (a : option string) (b : t) : t :=
  {| data_objects := data_objects b; active := a;
     view_layer_name := view_layer_name b; mode := mode b;
     shading_type := shading_type b; show_wireframes := show_wireframes b;
     children := children b; is_rendering := is_rendering b;
     scene_name := scene_name b; frame_current := frame_current b;
     render_engine := render_engine b; faults := faults b |}.

Definition with_mode (m : string) (b : t) : t :=
  {| data_objects := data_objects b; active := active b;
     view_layer_name := view_layer_name b; mode := m;
     shading_type := shading_type b; show_wireframes := show_wireframes b;
     children := children b; is_rendering := is_rendering b;
     scene_name := scene_name b; frame_current := frame_current b;
     render_engine := render_engine b; faults := faults b |}.

Definition with_shading_type (s : option string) (b : t) : t :=
  {| data_objects := data_objects b; active := active b;
     view_layer_name := view_layer_name b; mode := mode b;
     shading_type := s; show_wireframes := show_wireframes b;
     children := children b; is_rendering := is_rendering b;
     scene_name := scene_name b; frame_current := frame_current b;
     render_engine := render_engine b; faults := faults b |}.

Definition with_children (l : list Collection) (b : t) : t :=
  {| data_objects := data_objects b; active := active b;
     view_layer_name := view_layer_name b; mode := mode b;
     shading_type := shading_type b; show_wireframes := show_wireframes b;
     children := l; is_rendering := is_rendering b;
     scene_name := scene_name b; frame_current := frame_current b;
     render_engine := render_engine b; faults := faults b |}.

(** The exception the host raises on member [c], if it does. *)
Fixpoint lookup_fault (c : Api) (l : list (Api * exn)) : option exn :=
  match l with
  | [] => None
  | (c', e) :: l' => if Api_eqb c c' then Some e else lookup_fault c l'
  end.

Definition fault (c : Api) (b : t) : option exn := lookup_fault c (faults b).

(** A read of member [c]. *)
Definition read {A} (c : Api) (f : t -> A) : M t A :=
  fun b => match fault c b with
           | Some e => (Raised e, b)
           | None => (Returned (f b), b)
           end.

(** A write through member [c]. *)
Definition write (c : Api) (f : t -> t) : M t unit :=
  fun b => match fault c b with
           | Some e => (Raised e, b)
           | None => (Returned tt, f b)
           end.

(** [[obj.name for obj in bpy.context.selected_objects]] *)
Definition names_selected (l : list Object) : list string :=
  map ob_name (filter ob_select l).

Definition selected_names (b : t) : list string :=
  names_selected (data_objects b).

Definition selected_objects : M t (list string) :=
  read SelectedObjects selected_names.

Definition active_object : M t (option string) := read ActiveObject active.

Definition get_view_layer_name : M t string :=
  read ViewLayerName view_layer_name.

Definition get_mode : M t string := read Mode mode.

(** [hasattr(bpy.context.space_data, 'shading')] *)
Definition hasattr_shading : M t bool :=
  fun b => (Returned (match shading_type b with Some _ => true | None => false end), b).

(** [hasattr(bpy.context.space_data, 'overlay')] *)
Definition hasattr_overlay : M t bool :=
  fun b => (Returned (match show_wireframes b with Some _ => true | None => false end), b).

Definition attribute_error (attr : string) : exn :=
  "object has no attribute '" ++ attr ++ "'".

(** [bpy.context.space_data.shading.type] *)
Definition get_shading_type : M t string :=
  bind (read ShadingType shading_type)
       (fun o => match o with
                 | Some s => ret s
                 | None => raise (attribute_error "shading")
                 end).

(** [bpy.context.space_data.overlay.show_wireframes] *)
Definition get_show_wireframes : M t bool :=
  bind (read ShowWireframes show_wireframes)
       (fun o => match o with
                 | Some w => ret w
                 | None => raise (attribute_error "overlay")
                 end).

Definition get_children : M t (list Collection) := read Children children.

Definition get_is_rendering : M t bool := read IsRendering is_rendering.

Definition get_scene_name : M t string := read SceneName scene_name.

Definition get_frame_current : M t Z := read FrameCurrent frame_current.

Definition get_render_engine : M t string := read RenderEngine render_engine.

(** [name in bpy.data.objects] *)
Definition has_name (n : string) (l : list Object) : bool :=
  existsb (fun o => String.eqb n (ob_name o)) l.

Definition has_object (n : string) (b : t) : bool :=
  has_name n (data_objects b).

Definition data_objects_contains (n : string) : M t bool :=
  read DataObjects (has_object n).

(** [bpy.context.view_layer.objects.active = bpy.data.objects[n]] *)
Definition set_active (n : string) : M t unit :=
  write SetActive (with_active (Some n)).

(** [bpy.ops.object.select_all(action='DESELECT')] *)
Definition deselect_all (l : list Object) : list Object :=
  map (fun o => {| ob_name := ob_name o; ob_select := false |}) l.

Definition select_all_DESELECT : M t unit :=
  write SelectAll (fun b => with_data_objects (deselect_all (data_objects b)) b).

(** [bpy.data.objects[n].select_set(True)]: the entry the key [n]
    designates is the first one of that name. *)
Fixpoint select_named (n : string) (l : list Object) : list Object :=
  match l with
  | [] => []
  | o :: l' =>
      if String.eqb n (ob_name o)
      then {| ob_name := ob_name o; ob_select := true |} :: l'
      else o :: select_named n l'
  end.

Definition select_set_True (n : string) : M t unit :=
  write SelectSet (fun b => with_data_objects (select_named n (data_objects b)) b).

(** [bpy.ops.object.mode_set(mode=m)] *)
Definition mode_set (m : string) : M t unit := write ModeSet (with_mode m).

(** [bpy.context.space_data.shading.type = s] *)
Definition set_shading_type (s : string) : M t unit :=
  write SetShadingType (with_shading_type (Some s)).

(** [col.hide_viewport = v] for the [i]-th child collection *)
Fixpoint set_hide_at (i : nat) (v : bool) (l : list Collection) : list Collection :=
  match l, i with
  | [], _ => []
  | c :: l', O => {| col_name := col_name c; hide_viewport := v |} :: l'
  | c :: l', S i' => c :: set_hide_at i' v l'
  end.

Definition set_hide_viewport (i : nat) (v : bool) : M t unit :=
  write SetHideViewport (fun b => with_children (set_hide_at i v (children b)) b).

(** The observable visible-collection set. *)
Definition names_visible (l : list Collection) : list string :=
  map col_name (filter (fun c => negb (hide_viewport c)) l).

Definition visible_names (b : t) : list string :=
  names_visible (children b).

End bpy.

(** ** Snapshots: the dictionaries [capture_context] builds

    A key of the dictionary is a field; [None] is a key that is absent,
    so that [context.get(k)] is the field itself. *)

Record ViewportSettings := {
  shading : option string;
  overlay : option string
}.

Record Context := {
  selected_objects : option (list string);
  active_object : option string;
  view_layer : option string;
  mode : option string;
  viewport_settings : option ViewportSettings;
  visible_collections : option (list string);
  is_rendering : option bool;
  custom_state : option (list (string * string))
}.

(** [{}] *)
Definition empty_settings : ViewportSettings :=
  {| shading := None; overlay := None |}.

Definition empty_context : Context :=
  {| selected_objects := None; active_object := None; view_layer := None;
     mode := None; viewport_settings := None; visible_collections := None;
     is_rendering := None; custom_state := None |}.

(** Truth value of [context.get(k)] for a string, a list and a dictionary
    of viewport settings. *)
Definition truthy_str (o : option string) : bool :=
  match o with
  | Some s => negb (String.eqb s "")
  | None => false
  end.

Definition truthy_list {A} (o : option (list A)) : bool :=
  match o with
  | Some (_ :: _) => true
  | _ => false
  end.

Definition truthy_settings (o : option ViewportSettings) : bool :=
  match o with
  | Some s => match shading s, overlay s with
              | None, None => false
              | _, _ => true
              end
  | None => false
  end.

(** [context.get(k, default)] *)
Definition get_or {A} (o : option A) (default : A) : A :=
  match o with
  | Some a => a
  | None => default
  end.

(** ** An instance of a class next to the host *)

Record World (Self : Type) := {
  self : Self;
  host : bpy.t
}.

Definition with_self {Self} (f : Self -> Self) (w : World Self) : World Self :=
  {| self := f (self w); host := host w |}.

(** Run a host call in the world. *)
Definition api {Self A} (c : M bpy.t A) : M (World Self) A :=
  fun w => match c (host w) with
           | (r, b) => (r, {| self := self w; host := b |})
           end.

(** ** The steps the two [restore_context] share

    The blocks under [# Restore active object] and [# Restore mode]
    read the same in both classes. *)

(** [if context.get('active_object'):
        if context['active_object'] in bpy.data.objects:
            bpy.context.view_layer.objects.active = ...] *)
Definition restore_active_object {Self} (context : Context) : M (World Self) unit :=
  when (truthy_str (active_object context))
    (let n := get_or (active_object context) "" in
     found <- api (bpy.data_objects_contains n) ;;
     when found (api (bpy.set_active n))).

(** [if context.get('mode') and bpy.context.active_object:
        try: bpy.ops.object.mode_set(mode=context['mode'])
        except: pass] *)
Definition restore_mode {Self} (context : Context) : M (World Self) unit :=
  when (truthy_str (mode context))
    (act <- api bpy.active_object ;;
     match act with
     | Some _ =>
         try_except (api (bpy.mode_set (get_or (mode context) "")))
                    (fun _ => ret tt)
     | None => ret tt
     end).

(** [for obj_name in context['selected_objects']:
        if obj_name in bpy.data.objects:
            bpy.data.objects[obj_name].select_set(True)] *)
Definition select_loop {Self} (names : list string) : M (World Self) unit :=
  for_each names
    (fun obj_name =>
       found <- api (bpy.data_objects_contains obj_name) ;;
       when found (api (bpy.select_set_True obj_name))).

(** ** Results, options and the host calls of the import methods *)

(** The dictionary an import method returns: its four keys. *)
Record Result := {
  success : bool;
  message : string;
  data : list (string * string);
  list_data : list string
}.

(** [options: Dict[str, str]], in insertion order. *)
Definition Options := list (string * string).

(** [d.get(k, default)] *)
Fixpoint dict_get (k : string) (d : list (string * string)) (default : string)
  : string :=
  match d with
  | [] => default
  | (k', v) :: d' => if String.eqb k k' then v else dict_get k d' default
  end.

(** [sep.join(l)] *)
Fixpoint join (sep : string) (l : list string) : string :=
  match l with
  | [] => ""
  | x :: l' =>
      match l' with
      | [] => x
      | _ :: _ => x ++ sep ++ join sep l'
      end
  end.

(** A statement that does not touch the state. *)
Definition pure {S A} (r : outcome A) : M S A := fun s => (r, s).

(** A component of a location: the [int] literal [0] or a [float]. *)
Inductive Number (F : Type) : Type :=
| Int (z : Z)
| Float (x : F).
Arguments Int {F} z.
Arguments Float {F} x.

(** What the import methods call outside the repository: the file
    system, [pathlib], [str.lower], Blender's import operators, its
    library loader, its material and node API, and [float] arithmetic.
    Nothing is assumed of them: an operator is any statement on the
    host, which may raise; an arithmetic operation returns or raises
    and leaves the host alone. *)
Record Env := {
  os_path_exists : string -> M bpy.t bool;     (* os.path.exists(p) *)
  Path_suffix : string -> string;              (* Path(p).suffix *)
  Path_stem : string -> string;                (* Path(p).stem *)
  str_lower : string -> string;                (* s.lower() *)
  import_scene_obj : string -> M bpy.t unit;   (* bpy.ops.import_scene.obj(filepath=p, ...) *)
  import_scene_fbx : string -> M bpy.t unit;   (* bpy.ops.import_scene.fbx(filepath=p) *)
  wm_collada_import : string -> M bpy.t unit;  (* bpy.ops.wm.collada_import(filepath=p) *)
  (* with bpy.data.libraries.load(p, link=l) as (data_from, data_to):
         data_to.objects = data_from.objects
     and then the entries of data_to.objects: the name of the object
     loaded, or None *)
  libraries_load : string -> bool -> M bpy.t (list (option string));
  (* bpy.context.scene.collection.objects.link(obj), obj by its name *)
  collection_objects_link : string -> M bpy.t unit;
  Material : Type;
  Node : Type;
  Image : Type;
  Socket : Type;
  LinksNew : Type;
  materials_new : string -> M bpy.t Material;          (* bpy.data.materials.new(name=n) *)
  set_use_nodes : Material -> bool -> M bpy.t unit;    (* material.use_nodes = v *)
  nodes_get : Material -> string -> M bpy.t (option Node); (* material.node_tree.nodes.get(k) *)
  node_bool : Node -> M bpy.t bool;                    (* the truth value of a node *)
  nodes_new : Material -> string -> M bpy.t Node;      (* material.node_tree.nodes.new(t) *)
  images_load : string -> M bpy.t Image;               (* bpy.data.images.load(p) *)
  set_image : Node -> Image -> M bpy.t unit;           (* node.image = img *)
  node_tree_links_new : Material -> M bpy.t LinksNew;  (* material.node_tree.links.new *)
  outputs_getitem : Node -> string -> M bpy.t Socket;  (* node.outputs[k] *)
  inputs_getitem : Node -> string -> M bpy.t Socket;   (* node.inputs[k] *)
  call_links_new : LinksNew -> Socket -> Socket -> M bpy.t unit;
  float : Type;
  float_3_14159 : float;                               (* the literal 3.14159 *)
  int_mul_float : Z -> float -> outcome float;         (* i * x *)
  float_mul_int : float -> Z -> outcome float;         (* x * i *)
  float_div_int : float -> Z -> outcome float;         (* x / n *)
  float_mul : float -> float -> outcome float;         (* x * y *)
  math_cos : float -> outcome float;
  math_sin : float -> outcome float;
  (* bpy.data.objects[n].location = (x, y, z) *)
  set_location : string -> Number float * Number float * Number float
                 -> M bpy.t unit
}.

(** [file_ext in ['.png', '.jpg', ...]] of the two dispatchers *)
Definition texture_extensions : list string :=
  [".png"; ".jpg"; ".jpeg"; ".tga"; ".tiff"; ".bmp"; ".exr"; ".hdr"].

(** [for obj in data_to.objects:
        if obj is not None:
            bpy.context.scene.collection.objects.link(obj)
            imported_objects.append(obj.name)]
    with [imported_objects] as it is after the loop. *)
Fixpoint link_loaded {Self} (env : Env) (objs : list (option string))
  : M (World Self) (list string) :=
  match objs with
  | [] => ret []
  | None :: objs' => link_loaded env objs'
  | Some n :: objs' =>
      api (collection_objects_link env n) ;;
      imported_objects <- link_loaded env objs' ;;
      ret (n :: imported_objects)
  end.

(** [principled = material.node_tree.nodes.get('Principled BSDF')
     if principled:
         texture_node = material.node_tree.nodes.new('ShaderNodeTexImage')
         texture_node.image = bpy.data.images.load(asset_path)
         material.node_tree.links.new(texture_node.outputs['Color'],
                                      principled.inputs['Base Color'])] *)
Definition connect_texture {Self} (env : Env) (material : Material env)
           (asset_path : string) : M (World Self) unit :=
  principled <- api (nodes_get env material "Principled BSDF") ;;
  match principled with
  | None => ret tt
  | Some node =>
      truth <- api (node_bool env node) ;;
      when truth
        (texture_node <- api (nodes_new env material "ShaderNodeTexImage") ;;
         image <- api (images_load env asset_path) ;;
         api (set_image env texture_node image) ;;
         new <- api (node_tree_links_new env material) ;;
         color <- api (outputs_getitem env texture_node "Color") ;;
         base <- api (inputs_getitem env node "Base Color") ;;
         api (call_links_new env new color base))
  end.

(** [for obj_name in result['list_data']:
        if obj_name in bpy.data.objects:
            obj = bpy.data.objects[obj_name]
            obj.location = location] *)
Definition place_objects {Self} (env : Env) (names : list string)
           (location : Number (float env) * Number (float env) * Number (float env))
  : M (World Self) unit :=
  for_each names
    (fun obj_name =>
       found <- api (bpy.data_objects_contains obj_name) ;;
       when found (api (set_location env obj_name location))).

(** *** A nested function that shares a local with its method

    [import_assets_grid] and its two siblings hand [preserve_context] a
    nested function that appends to the list [results] of the method.
    Such a function runs in the world together with that local. *)

(** A statement of the world, run next to the local. *)
Definition outer {S L A} (c : M S A) : M (S * L) A :=
  fun sl => match c (fst sl) with
            | (r, s') => (r, (s', snd sl))
            end.

(** [results.append(x)] *)
Definition local_append {S A} (x : A) : M (S * list A) unit :=
  fun sl => (Returned tt, (fst sl, (snd sl ++ [x])%list)).

(** [return results] *)
Definition local_get {S L} : M (S * L) L :=
  fun sl => (Returned (snd sl), sl).

(** The body of a method that starts with [results = l0]. *)
Definition with_local {S L A} (l0 : L) (c : M (S * L) A) : M S A :=
  fun s => match c (s, l0) with
           | (r, sl) => (r, fst sl)
           end.

(** [a // b] and [a % b] on [int] *)
Definition ZeroDivisionError : exn := "integer division or modulo by zero".

Definition floordiv {S} (a b : Z) : M S Z :=
  if (b =? 0)%Z then raise ZeroDivisionError else ret (a / b)%Z.

Definition modulo {S} (a b : Z) : M S Z :=
  if (b =? 0)%Z then raise ZeroDivisionError else ret (a mod b)%Z.

(** The names bound at the top level of [tahlia_core.py]: its imports
    and what it defines.  Loading any other name that is not a builtin
    raises [NameError]. *)
Definition tahlia_core_globals : list string :=
  ["bpy"; "bmesh"; "mathutils"; "json"; "os"; "sys";
   "Dict"; "List"; "Optional"; "Tuple"; "Any"; "Path"; "logging";
   "logger"; "TahliaCore"; "tahlia";
   "import_asset"; "import_assets_grid"; "import_assets_circle";
   "import_assets_line"; "create_material"; "create_pbr_material";
   "get_supported_formats"; "__version__"; "__author__"].

Definition NameError (n : string) : exn := "name '" ++ n ++ "' is not defined".

Definition load_global {S} (n : string) : M S unit :=
  if str_in n tahlia_core_globals then ret tt else raise (NameError n).

(** ** [class TahliaBridge] *)

Module TahliaBridge.

Record t := {
  context_stack : list Context;
  debug_mode : bool;
  context_preservation : bool;
  max_context_stack_size : Z;
  last_error : string
}.

(** [__init__] *)
Definition init : t :=
  {| context_stack := []; debug_mode := false; context_preservation := true;
     max_context_stack_size := 10; last_error := "" |}.

Definition with_context_stack (l : list Context) (b : t) : t :=
  {| context_stack := l; debug_mode := debug_mode b;
     context_preservation := context_preservation b;
     max_context_stack_size := max_context_stack_size b;
     last_error := last_error b |}.

Definition with_debug_mode (v : bool) (b : t) : t :=
  {| context_stack := context_stack b; debug_mode := v;
     context_preservation := context_preservation b;
     max_context_stack_size := max_context_stack_size b;
     last_error := last_error b |}.

Definition with_context_preservation (v : bool) (b : t) : t :=
  {| context_stack := context_stack b; debug_mode := debug_mode b;
     context_preservation := v;
     max_context_stack_size := max_context_stack_size b;
     last_error := last_error b |}.

Definition with_max_context_stack_size (n : Z) (b : t) : t :=
  {| context_stack := context_stack b; debug_mode := debug_mode b;
     context_preservation := context_preservation b;
     max_context_stack_size := n;
     last_error := last_error b |}.

Definition with_last_error (e : string) (b : t) : t :=
  {| context_stack := context_stack b; debug_mode := debug_mode b;
     context_preservation := context_preservation b;
     max_context_stack_size := max_context_stack_size b;
     last_error := e |}.

Definition W := World t.

(** [self.last_error = msg] *)
Definition set_last_error (msg : string) : M W unit :=
  modify (with_self (with_last_error msg)).

(** The dictionary under construction is what the function returns
    when a read raises: the bare [except: pass] falls through to
    [return settings]. *)
Definition _capture_viewport_settings : M W ViewportSettings :=
  let settings := empty_settings in
  try_except
    (has_shading <- api bpy.hasattr_shading ;;
     settings1 <- (if has_shading : bool
                   then ty <- api bpy.get_shading_type ;;
                        ret {| shading := Some ty; overlay := overlay settings |}
                   else ret settings) ;;
     try_except
       (has_overlay <- api bpy.hasattr_overlay ;;
        if has_overlay : bool
        then w <- api bpy.get_show_wireframes ;;
             ret {| shading := shading settings1;
                    overlay := Some (if w : bool then "WIREFRAME" else "SOLID") |}
        else ret settings1)
       (fun _ => ret settings1))
    (fun _ => ret settings).

Definition _capture_visible_collections : M W (list string) :=
  try_except
    (cols <- api bpy.get_children ;;
     ret (map bpy.col_name
              (filter (fun col => negb (bpy.hide_viewport col)) cols)))
    (fun _ => ret []).

Definition _capture_custom_state : M W (list (string * string)) :=
  try_except
    (name <- api bpy.get_scene_name ;;
     frame <- api bpy.get_frame_current ;;
     engine <- api bpy.get_render_engine ;;
     ret [("scene_name", name); ("frame_current", str_of_int frame);
          ("render_engine", engine)])
    (fun _ => ret []).

Definition capture_context : M W Context :=
  try_except
    (sel <- api bpy.selected_objects ;;
     act <- api bpy.active_object ;;
     layer <- api bpy.get_view_layer_name ;;
     md <- api bpy.get_mode ;;
     settings <- _capture_viewport_settings ;;
     cols <- _capture_visible_collections ;;
     rendering <- api bpy.get_is_rendering ;;
     custom <- _capture_custom_state ;;
     ret {| selected_objects := Some sel;
            active_object := Some (match act with Some n => n | None => "" end);
            view_layer := Some layer;
            mode := Some md;
            viewport_settings := Some settings;
            visible_collections := Some cols;
            is_rendering := Some rendering;
            custom_state := Some custom |})
    (fun e => set_last_error ("Failed to capture context: " ++ e) ;;
              ret empty_context).

Definition _restore_viewport_settings (settings : ViewportSettings) : M W unit :=
  try_except
    (has_shading <- api bpy.hasattr_shading ;;
     match has_shading, shading settings with
     | true, Some s => api (bpy.set_shading_type s)
     | _, _ => ret tt
     end)
    (fun _ => ret tt).

(** The loop assigns to the children in turn; [i] is the position of
    the child [col] being visited. *)
Fixpoint hide_loop (i : nat) (cols : list bpy.Collection)
         (collections : list string) : M W unit :=
  match cols with
  | [] => ret tt
  | col :: cols' =>
      api (bpy.set_hide_viewport i (negb (str_in (bpy.col_name col) collections))) ;;
      hide_loop (S i) cols' collections
  end.

Definition _restore_visible_collections (collections : list string) : M W unit :=
  try_except
    (cols <- api bpy.get_children ;;
     hide_loop 0 cols collections)
    (fun _ => ret tt).

(** [if context.get('selected_objects'):
        bpy.ops.object.select_all(action='DESELECT')
        for obj_name in context['selected_objects']: ...] *)
Definition restore_selected_objects (context : Context) : M W unit :=
  when (truthy_list (selected_objects context))
    (api bpy.select_all_DESELECT ;;
     select_loop (get_or (selected_objects context) [])).

Definition restore_context (context : Context) : M W bool :=
  try_except
    (restore_active_object context ;;
     restore_selected_objects context ;;
     restore_mode context ;;
     (* Restore viewport settings *)
     _restore_viewport_settings
       (get_or (viewport_settings context) empty_settings) ;;
     (* Restore visible collections *)
     _restore_visible_collections (get_or (visible_collections context) []) ;;
     ret true)
    (fun e => set_last_error ("Failed to restore context: " ++ e) ;;
              ret false).

Definition push_context : M W bool :=
  w <- get ;;
  if (Z.of_nat (List.length (context_stack (self w)))
      <? max_context_stack_size (self w))%Z
  then context <- capture_context ;;
       modify (with_self (fun b =>
                 with_context_stack (context_stack b ++ [context]) b)) ;;
       ret true
  else ret false.

Definition pop_context : M W bool :=
  w <- get ;;
  match rev (context_stack (self w)) with
  | context :: rest =>
      modify (with_self (with_context_stack (rev rest))) ;;
      restore_context context
  | [] => ret false
  end.

Definition clear_context_stack : M W unit :=
  modify (with_self (with_context_stack [])).

Definition get_context_stack_size : M W Z :=
  w <- get ;; ret (Z.of_nat (List.length (context_stack (self w)))).

Definition preserve_context (operation : M W unit) : M W bool :=
  w <- get ;;
  if negb (context_preservation (self w))
  then try_except
         (operation ;; ret true)
         (fun e => set_last_error ("Operation failed: " ++ e) ;; ret false)
  else saved_context <- capture_context ;;
       try_except
         (operation ;; restore_context saved_context)
         (fun e => set_last_error ("Operation failed: " ++ e) ;;
                   restore_context saved_context ;;
                   ret false).

Definition set_context_preservation (enable : bool) : M W unit :=
  modify (with_self (with_context_preservation enable)).

Definition set_max_context_stack_size (max_size : Z) : M W unit :=
  modify (with_self (with_max_context_stack_size max_size)).

Definition get_last_error : M W string :=
  w <- get ;; ret (last_error (self w)).

Definition clear_last_error : M W unit :=
  modify (with_self (with_last_error "")).

(** *** The import methods *)

Definition _create_success_result (message : string)
           (data : list (string * string)) (list_data : list string) : Result :=
  {| success := true; message := message; data := data;
     list_data := list_data |}.

Definition _create_error_result (message : string) : Result :=
  {| success := false; message := message; data := []; list_data := [] |}.

Definition _import_blend_file_blender (env : Env) (asset_path : string)
           (options : Options) : M W Result :=
  try_except
    (let link :=
       String.eqb (str_lower env (dict_get "link" options "False")) "true" in
     objs <- api (libraries_load env asset_path link) ;;
     imported_objects <- link_loaded env objs ;;
     ret (_create_success_result
            ("Imported " ++ str_of_int (Z.of_nat (List.length imported_objects))
             ++ " objects from " ++ asset_path)
            [("imported_objects", join "," imported_objects);
             ("file_path", asset_path);
             ("file_type", "blend")]
            imported_objects))
    (fun e => ret (_create_error_result ("Failed to import blend file: " ++ e))).

Definition _import_obj_file_blender (env : Env) (asset_path : string)
           (options : Options) : M W Result :=
  try_except
    (api (import_scene_obj env asset_path) ;;
     imported_objects <- api bpy.selected_objects ;;
     ret (_create_success_result
            ("Imported OBJ file: " ++ asset_path)
            [("imported_objects", join "," imported_objects);
             ("file_path", asset_path);
             ("file_type", "obj")]
            imported_objects))
    (fun e => ret (_create_error_result ("Failed to import OBJ file: " ++ e))).

Definition _import_fbx_file_blender (env : Env) (asset_path : string)
           (options : Options) : M W Result :=
  try_except
    (api (import_scene_fbx env asset_path) ;;
     imported_objects <- api bpy.selected_objects ;;
     ret (_create_success_result
            ("Imported FBX file: " ++ asset_path)
            [("imported_objects", join "," imported_objects);
             ("file_path", asset_path);
             ("file_type", "fbx")]
            imported_objects))
    (fun e => ret (_create_error_result ("Failed to import FBX file: " ++ e))).

Definition _import_dae_file_blender (env : Env) (asset_path : string)
           (options : Options) : M W Result :=
  try_except
    (api (wm_collada_import env asset_path) ;;
     imported_objects <- api bpy.selected_objects ;;
     ret (_create_success_result
            ("Imported Collada file: " ++ asset_path)
            [("imported_objects", join "," imported_objects);
             ("file_path", asset_path);
             ("file_type", "dae")]
            imported_objects))
    (fun e => ret (_create_error_result ("Failed to import Collada file: " ++ e))).

Definition _import_texture_blender (env : Env) (asset_path : string)
           (options : Options) : M W Result :=
  try_except
    (let material_name :=
       dict_get "material_name" options (Path_stem env asset_path) in
     material <- api (materials_new env material_name) ;;
     api (set_use_nodes env material true) ;;
     connect_texture env material asset_path ;;
     ret (_create_success_result
            ("Imported texture: " ++ asset_path)
            [("material_name", material_name);
             ("file_path", asset_path);
             ("file_type", "texture")]
            [material_name]))
    (fun e => ret (_create_error_result ("Failed to import texture: " ++ e))).

Definition import_asset_blender (env : Env) (asset_path : string)
           (options : Options) : M W Result :=
  try_except
    (found <- api (os_path_exists env asset_path) ;;
     if negb found
     then ret (_create_error_result ("Asset file not found: " ++ asset_path))
     else
       let file_ext := str_lower env (Path_suffix env asset_path) in
       if String.eqb file_ext ".blend"
       then _import_blend_file_blender env asset_path options
       else if String.eqb file_ext ".obj"
       then _import_obj_file_blender env asset_path options
       else if String.eqb file_ext ".fbx"
       then _import_fbx_file_blender env asset_path options
       else if String.eqb file_ext ".dae"
       then _import_dae_file_blender env asset_path options
       else if str_in file_ext texture_extensions
       then _import_texture_blender env asset_path options
       else ret (_create_error_result ("Unsupported file format: " ++ file_ext)))
    (fun e => ret (_create_error_result ("Import failed: " ++ e))).

Definition get_supported_formats_blender : list (string * list string) :=
  [("models", [".blend"; ".obj"; ".fbx"; ".dae"; ".3ds"; ".stl"; ".ply"]);
   ("textures", [".png"; ".jpg"; ".jpeg"; ".tga"; ".tiff"; ".bmp"; ".exr"; ".hdr"]);
   ("audio", [".mp3"; ".wav"; ".flac"; ".aac"; ".ogg"; ".wma"; ".m4a"]);
   ("video", [".mp4"; ".avi"; ".mov"; ".wmv"; ".flv"; ".webm"; ".mkv"])].

End TahliaBridge.

(** ** [class TahliaCore] *)

Module TahliaCore.

(** The attributes of [__init__] the context methods use; the four
    manager handles (all [None]) and the table [supported_formats]
    play no part in them. *)
Record t := {
  context_stack : list Context;
  debug_mode : bool;
  context_preservation : bool;
  max_context_stack_size : Z
}.

Definition init : t :=
  {| context_stack := []; debug_mode := false; context_preservation := true;
     max_context_stack_size := 10 |}.

Definition with_context_stack (l : list Context) (b : t) : t :=
  {| context_stack := l; debug_mode := debug_mode b;
     context_preservation := context_preservation b;
     max_context_stack_size := max_context_stack_size b |}.

Definition with_context_preservation (v : bool) (b : t) : t :=
  {| context_stack := context_stack b; debug_mode := debug_mode b;
     context_preservation := v;
     max_context_stack_size := max_context_stack_size b |}.

Definition with_max_context_stack_size (n : Z) (b : t) : t :=
  {| context_stack := context_stack b; debug_mode := debug_mode b;
     context_preservation := context_preservation b;
     max_context_stack_size := n |}.

Definition W := World t.

Definition capture_context : M W Context :=
  try_except
    (sel <- api bpy.selected_objects ;;
     act <- api bpy.active_object ;;
     layer <- api bpy.get_view_layer_name ;;
     md <- api bpy.get_mode ;;
     has_shading <- api bpy.hasattr_shading ;;
     shade <- (if has_shading : bool then api bpy.get_shading_type
               else ret "SOLID") ;;
     w <- api bpy.get_show_wireframes ;;
     cols <- api bpy.get_children ;;
     rendering <- api bpy.get_is_rendering ;;
     ret {| selected_objects := Some sel;
            active_object := Some (match act with Some n => n | None => "" end);
            view_layer := Some layer;
            mode := Some md;
            viewport_settings :=
              Some {| shading := Some shade;
                      overlay := Some (if w : bool then "WIREFRAME" else "SOLID") |};
            visible_collections :=
              Some (map bpy.col_name
                        (filter (fun col => Bool.eqb (bpy.hide_viewport col) false)
                                cols));
            is_rendering := Some rendering;
            custom_state := Some [] |})
    (fun _ => ret empty_context).

(** [if context.get('selected_objects'):
        for obj_name in context['selected_objects']: ...]
    No call clears the selection here. *)
Definition restore_selected_objects (context : Context) : M W unit :=
  when (truthy_list (selected_objects context))
    (select_loop (get_or (selected_objects context) [])).

(** [if hasattr(bpy.context.space_data, 'shading')
       and context.get('viewport_settings'):
        settings = context['viewport_settings']
        if 'shading' in settings:
            bpy.context.space_data.shading.type = settings['shading']] *)
Definition restore_viewport_settings (context : Context) : M W unit :=
  has_shading <- api bpy.hasattr_shading ;;
  when (has_shading && truthy_settings (viewport_settings context))
    (let settings := get_or (viewport_settings context) empty_settings in
     match shading settings with
     | Some s => api (bpy.set_shading_type s)
     | None => ret tt
     end).

Definition restore_context (context : Context) : M W bool :=
  try_except
    (restore_active_object context ;;
     restore_selected_objects context ;;
     restore_mode context ;;
     restore_viewport_settings context ;;
     ret true)
    (fun _ => ret false).

Definition push_context : M W bool :=
  w <- get ;;
  if (Z.of_nat (List.length (context_stack (self w)))
      <? max_context_stack_size (self w))%Z
  then context <- capture_context ;;
       modify (with_self (fun b =>
                 with_context_stack (context_stack b ++ [context]) b)) ;;
       ret true
  else ret false.

Definition pop_context : M W bool :=
  w <- get ;;
  match rev (context_stack (self w)) with
  | context :: rest =>
      modify (with_self (with_context_stack (rev rest))) ;;
      restore_context context
  | [] => ret false
  end.

Definition clear_context_stack : M W unit :=
  modify (with_self (with_context_stack [])).

Definition preserve_context (operation : M W unit) : M W bool :=
  w <- get ;;
  if negb (context_preservation (self w))
  then operation ;; ret true
  else saved_context <- capture_context ;;
       try_except
         (operation ;; restore_context saved_context)
         (fun _ => restore_context saved_context ;; ret false).

Definition set_context_preservation (enable : bool) : M W unit :=
  modify (with_self (with_context_preservation enable)).

Definition set_max_context_stack_size (max_size : Z) : M W unit :=
  modify (with_self (with_max_context_stack_size max_size)).

(** *** The import methods *)

Definition _import_blend_file (env : Env) (asset_path : string)
           (options : Options) : M W Result :=
  try_except
    (let link :=
       String.eqb (str_lower env (dict_get "link" options "False")) "true" in
     objs <- api (libraries_load env asset_path link) ;;
     imported_objects <- link_loaded env objs ;;
     ret {| success := true;
            message := "Imported "
                       ++ str_of_int (Z.of_nat (List.length imported_objects))
                       ++ " objects from " ++ asset_path;
            data := [("imported_objects", join "," imported_objects);
                     ("file_path", asset_path);
                     ("file_type", "blend")];
            list_data := imported_objects |})
    (fun e => ret {| success := false;
                     message := "Failed to import blend file: " ++ e;
                     data := []; list_data := [] |}).

Definition _import_obj_file (env : Env) (asset_path : string)
           (options : Options) : M W Result :=
  try_except
    (api (import_scene_obj env asset_path) ;;
     imported_objects <- api bpy.selected_objects ;;
     ret {| success := true;
            message := "Imported OBJ file: " ++ asset_path;
            data := [("imported_objects", join "," imported_objects);
                     ("file_path", asset_path);
                     ("file_type", "obj")];
            list_data := imported_objects |})
    (fun e => ret {| success := false;
                     message := "Failed to import OBJ file: " ++ e;
                     data := []; list_data := [] |}).

Definition _import_fbx_file (env : Env) (asset_path : string)
           (options : Options) : M W Result :=
  try_except
    (api (import_scene_fbx env asset_path) ;;
     imported_objects <- api bpy.selected_objects ;;
     ret {| success := true;
            message := "Imported FBX file: " ++ asset_path;
            data := [("imported_objects", join "," imported_objects);
                     ("file_path", asset_path);
                     ("file_type", "fbx")];
            list_data := imported_objects |})
    (fun e => ret {| success := false;
                     message := "Failed to import FBX file: " ++ e;
                     data := []; list_data := [] |}).

Definition _import_dae_file (env : Env) (asset_path : string)
           (options : Options) : M W Result :=
  try_except
    (api (wm_collada_import env asset_path) ;;
     imported_objects <- api bpy.selected_objects ;;
     ret {| success := true;
            message := "Imported Collada file: " ++ asset_path;
            data := [("imported_objects", join "," imported_objects);
                     ("file_path", asset_path);
                     ("file_type", "dae")];
            list_data := imported_objects |})
    (fun e => ret {| success := false;
                     message := "Failed to import Collada file: " ++ e;
                     data := []; list_data := [] |}).

Definition _import_texture (env : Env) (asset_path : string)
           (options : Options) : M W Result :=
  try_except
    (let material_name :=
       dict_get "material_name" options (Path_stem env asset_path) in
     material <- api (materials_new env material_name) ;;
     api (set_use_nodes env material true) ;;
     connect_texture env material asset_path ;;
     ret {| success := true;
            message := "Imported texture: " ++ asset_path;
            data := [("material_name", material_name);
                     ("file_path", asset_path);
                     ("file_type", "texture")];
            list_data := [material_name] |})
    (fun e => ret {| success := false;
                     message := "Failed to import texture: " ++ e;
                     data := []; list_data := [] |}).

Definition _perform_import (env : Env) (asset_path : string)
           (options : Options) : M W Result :=
  try_except
    (found <- api (os_path_exists env asset_path) ;;
     if negb found
     then ret {| success := false;
                 message := "Asset file not found: " ++ asset_path;
                 data := []; list_data := [] |}
     else
       let file_ext := str_lower env (Path_suffix env asset_path) in
       if String.eqb file_ext ".blend"
       then _import_blend_file env asset_path options
       else if String.eqb file_ext ".obj"
       then _import_obj_file env asset_path options
       else if String.eqb file_ext ".fbx"
       then _import_fbx_file env asset_path options
       else if String.eqb file_ext ".dae"
       then _import_dae_file env asset_path options
       else if str_in file_ext texture_extensions
       then _import_texture env asset_path options
       else ret {| success := false;
                   message := "Unsupported file format: " ++ file_ext;
                   data := []; list_data := [] |})
    (fun e => ret {| success := false;
                     message := "Import failed: " ++ e;
                     data := []; list_data := [] |}).

(** [def import_operation(): return self._perform_import(asset_path, options)
     return self.preserve_context(import_operation)]: what the import
    returns is dropped by [preserve_context]. *)
Definition import_asset (env : Env) (asset_path : string)
           (options : option Options) : M W bool :=
  let options := get_or options [] in
  preserve_context (_perform_import env asset_path options ;; ret tt).

(** [self.preserve_context(operation)] for a nested function that
    shares the local [results] with the calling method: the context
    methods run in the world and leave the local alone. *)
Definition preserve_context_closure {L} (operation : M (W * L) unit)
  : M (W * L) bool :=
  w <- outer get ;;
  if negb (context_preservation (self w))
  then operation ;; ret true
  else saved_context <- outer capture_context ;;
       try_except
         (operation ;; outer (restore_context saved_context))
         (fun _ => outer (restore_context saved_context) ;; ret false).

(** [for i, asset_path in enumerate(asset_paths):] of [grid_operation],
    from index [i] on. *)
Fixpoint grid_loop (env : Env) (options : Options) (rows cols : Z)
         (spacing : float env) (i : Z) (asset_paths : list string)
  : M (W * list Result) unit :=
  match asset_paths with
  | [] => ret tt
  | asset_path :: rest =>
      if (i >=? rows * cols)%Z
      then ret tt
      else
        row <- floordiv i cols ;;
        col <- modulo i cols ;;
        x <- pure (int_mul_float env col spacing) ;;
        y <- pure (int_mul_float env row spacing) ;;
        result <- outer (_perform_import env asset_path options) ;;
        when (success result)
          (outer (place_objects env (list_data result) (Float x, Float y, Int 0))) ;;
        local_append result ;;
        grid_loop env options rows cols spacing (i + 1) rest
  end.

Definition import_assets_grid (env : Env) (asset_paths : list string)
           (options : option Options) (rows cols : Z) (spacing : float env)
  : M W (list Result) :=
  let options := get_or options [] in
  with_local []
    (preserve_context_closure
       (grid_loop env options rows cols spacing 0 asset_paths) ;;
     local_get).

(** [for i, asset_path in enumerate(asset_paths):] of
    [circle_operation], from index [i] on; [n] is [len(asset_paths)].
    The module does not import [math]. *)
Fixpoint circle_loop (env : Env) (options : Options) (radius : float env)
         (n : Z) (i : Z) (asset_paths : list string)
  : M (W * list Result) unit :=
  match asset_paths with
  | [] => ret tt
  | asset_path :: rest =>
      two_pi <- pure (int_mul_float env 2 (float_3_14159 env)) ;;
      two_pi_i <- pure (float_mul_int env two_pi i) ;;
      angle <- pure (float_div_int env two_pi_i n) ;;
      load_global "math" ;;
      c <- pure (math_cos env angle) ;;
      x <- pure (float_mul env radius c) ;;
      load_global "math" ;;
      s <- pure (math_sin env angle) ;;
      y <- pure (float_mul env radius s) ;;
      result <- outer (_perform_import env asset_path options) ;;
      when (success result)
        (outer (place_objects env (list_data result) (Float x, Float y, Int 0))) ;;
      local_append result ;;
      circle_loop env options radius n (i + 1) rest
  end.

Definition import_assets_circle (env : Env) (asset_paths : list string)
           (options : option Options) (radius : float env)
  : M W (list Result) :=
  let options := get_or options [] in
  with_local []
    (preserve_context_closure
       (circle_loop env options radius
          (Z.of_nat (List.length asset_paths)) 0 asset_paths) ;;
     local_get).

(** [for i, asset_path in enumerate(asset_paths):] of [line_operation],
    from index [i] on. *)
Fixpoint line_loop (env : Env) (options : Options) (spacing : float env)
         (i : Z) (asset_paths : list string) : M (W * list Result) unit :=
  match asset_paths with
  | [] => ret tt
  | asset_path :: rest =>
      x <- pure (int_mul_float env i spacing) ;;
      result <- outer (_perform_import env asset_path options) ;;
      when (success result)
        (outer (place_objects env (list_data result) (Float x, Int 0, Int 0))) ;;
      local_append result ;;
      line_loop env options spacing (i + 1) rest
  end.

Definition import_assets_line (env : Env) (asset_paths : list string)
           (options : option Options) (spacing : float env)
  : M W (list Result) :=
  let options := get_or options [] in
  with_local []
    (preserve_context_closure (line_loop env options spacing 0 asset_paths) ;;
     local_get).

End TahliaCore.

(** ** Calling a method several times *)

(** [n] calls of [push] in a row, with their results in order. *)
Fixpoint push_many {S} (push : M S bool) (n : nat) : M S (list bool) :=
  match n with
  | O => ret []
  | S n' => b <- push ;; bs <- push_many push n' ;; ret (b :: bs)
  end.

(** ** Sample hosts *)

Definition scene (objs : list bpy.Object) (act : option string)
           (cols : list bpy.Collection) (fl : list (bpy.Api * exn)) : bpy.t :=
  {| bpy.data_objects := objs; bpy.active := act;
     bpy.view_layer_name := "ViewLayer"; bpy.mode := "OBJECT";
     bpy.shading_type := Some "SOLID"; bpy.show_wireframes := Some false;
     bpy.children := cols; bpy.is_rendering := false;
     bpy.scene_name := "Scene"; bpy.frame_current := 1%Z;
     bpy.render_engine := "CYCLES"; bpy.faults := fl |}.

Definition ob (n : string) (sel : bool) : bpy.Object :=
  {| bpy.ob_name := n; bpy.ob_select := sel |}.

Definition coll (n : string) (hidden : bool) : bpy.Collection :=
  {| bpy.col_name := n; bpy.hide_viewport := hidden |}.

Definition bridge_world (b : bpy.t) : TahliaBridge.W :=
  {| self := TahliaBridge.init; host := b |}.

Definition core_world (b : bpy.t) : TahliaCore.W :=
  {| self := TahliaCore.init; host := b |}.

(** * Vocabulary of the statements *)

(** A statement that never raises. *)
Definition returns {S A} (c : M S A) : Prop :=
  forall s, exists a s', c s = (Returned a, s').

(** What [preserve_context operation] does from [w] when preservation is
    on: [capture] and [restore] are the class's [capture_context] and
    [restore_context], [on_error e] what the handler does before it
    restores. *)
Definition preserved_run {Self}
    (capture : M (World Self) Context)
    (restore : Context -> M (World Self) bool)
    (on_error : exn -> World Self -> World Self)
    (preserve : M (World Self) unit -> M (World Self) bool)
    (operation : M (World Self) unit) (w : World Self) : Prop :=
  exists saved w1,
    capture w = (Returned saved, w1) /\
    (* the operation returns: the result is that of the restore *)
    (forall w2, operation w1 = (Returned tt, w2) ->
                preserve operation w = restore saved w2) /\
    (* the operation raises: the snapshot is restored all the same, and
       the result is False whatever the restore returned *)
    (forall e w2, operation w1 = (Raised e, w2) ->
                  exists b w3,
                    restore saved (on_error e w2) = (Returned b, w3) /\
                    preserve operation w = (Returned false, w3)) /\
    (* True exactly when the operation returned and the restore said True *)
    (forall w3, preserve operation w = (Returned true, w3) <->
                exists w2, operation w1 = (Returned tt, w2) /\
                           restore saved w2 = (Returned true, w3)).

(** Whatever [c] does, returning or raising, the observation [f] of the
    world is the same afterwards. *)
Definition keeps {Self X A} (f : World Self -> X) (c : M (World Self) A) : Prop :=
  forall w r w', c w = (r, w') -> f w' = f w.

(** A host call that only reads. *)
Definition pure_call {A} (c : M bpy.t A) : Prop :=
  forall b r b', c b = (r, b') -> b' = b.

(** The observations used below. *)
Definition objects_of {Self} (w : World Self) := bpy.data_objects (host w).
Definition active_of {Self} (w : World Self) := bpy.active (host w).
Definition children_of {Self} (w : World Self) := bpy.children (host w).
Definition faults_of {Self} (w : World Self) := bpy.faults (host w).

(** All of a [TahliaBridge] but [last_error]. *)
Definition bridge_config (w : TahliaBridge.W) : TahliaBridge.t :=
  TahliaBridge.with_last_error "" (self w).

(** Changing the world by [g] before [c] or after it comes to the same. *)
Definition commutes {Self A} (g : World Self -> World Self)
           (c : M (World Self) A) : Prop :=
  forall w, c (g w) = let (r, w') := c w in (r, g w').

Definition bridge_depth (w : TahliaBridge.W) : Z :=
  Z.of_nat (List.length (TahliaBridge.context_stack (self w))).

Definition core_depth (w : TahliaCore.W) : Z :=
  Z.of_nat (List.length (TahliaCore.context_stack (self w))).

Definition bridge_limit (w : TahliaBridge.W) : Z :=
  TahliaBridge.max_context_stack_size (self w).

Definition core_limit (w : TahliaCore.W) : Z :=
  TahliaCore.max_context_stack_size (self w).

(** An operation that selects the object "C" only, makes it active, and
    then fails. *)
Definition select_C_then_fail {Self} : M (World Self) unit :=
  api bpy.select_all_DESELECT ;;
  api (bpy.select_set_True "C") ;;
  api (bpy.set_active "C") ;;
  raise "import failed".

(** "A" and "B" selected, "A" active, one collection shown and one
    hidden. *)
Definition two_selected : bpy.t :=
  scene [ob "A" true; ob "B" true; ob "C" false] (Some "A")
        [coll "Props" false; coll "Hidden" true] [].

Definition core_off (b : bpy.t) : TahliaCore.W :=
  {| self := TahliaCore.with_context_preservation false TahliaCore.init;
     host := b |}.

Definition bridge_off (b : bpy.t) : TahliaBridge.W :=
  {| self := TahliaBridge.with_context_preservation false TahliaBridge.init;
     host := b |}.

(** A snapshot that has "A" and "B" selected and "A" active. *)
Definition snap_AB : Context :=
  {| selected_objects := Some ["A"; "B"]; active_object := Some "A";
     view_layer := Some "ViewLayer"; mode := Some "OBJECT";
     viewport_settings := Some {| shading := Some "SOLID"; overlay := Some "SOLID" |};
     visible_collections := Some ["Props"]; is_rendering := Some false;
     custom_state := Some [] |}.

Definition bridge_with_stack (l : list Context) (b : bpy.t) : TahliaBridge.W :=
  {| self := TahliaBridge.with_context_stack l TahliaBridge.init; host := b |}.

Definition core_with_stack (l : list Context) (b : bpy.t) : TahliaCore.W :=
  {| self := TahliaCore.with_context_stack l TahliaCore.init; host := b |}.

(** The first of [l] the host raises on, with its exception. *)
Fixpoint first_fault (l : list bpy.Api) (b : bpy.t) : option exn :=
  match l with
  | [] => None
  | m :: l' => match bpy.fault m b with
               | Some e => Some e
               | None => first_fault l' b
               end
  end.

(** The reads [TahliaBridge.capture_context] makes outside its helpers. *)
Definition bridge_plain_reads : list bpy.Api :=
  [bpy.SelectedObjects; bpy.ActiveObject; bpy.ViewLayerName; bpy.Mode;
   bpy.IsRendering].

Definition overlay_tag (w : bool) : string :=
  if w then "WIREFRAME" else "SOLID".

(** What [_capture_viewport_settings] returns on host [b]. *)
Definition bridge_settings_of (b : bpy.t) : ViewportSettings :=
  let with_overlay (sh : option string) :=
    match bpy.show_wireframes b, bpy.fault bpy.ShowWireframes b with
    | Some w, None => {| shading := sh; overlay := Some (overlay_tag w) |}
    | _, _ => {| shading := sh; overlay := None |}
    end in
  match bpy.shading_type b, bpy.fault bpy.ShadingType b with
  | Some ty, None => with_overlay (Some ty)
  | Some _, Some _ => empty_settings
  | None, _ => with_overlay None
  end.

(** What [_capture_visible_collections] returns on host [b]. *)
Definition bridge_visible_of (b : bpy.t) : list string :=
  match bpy.fault bpy.Children b with
  | Some _ => []
  | None => bpy.visible_names b
  end.

(** What [_capture_custom_state] returns on host [b]. *)
Definition bridge_custom_of (b : bpy.t) : list (string * string) :=
  match first_fault [bpy.SceneName; bpy.FrameCurrent; bpy.RenderEngine] b with
  | Some _ => []
  | None => [("scene_name", bpy.scene_name b);
             ("frame_current", str_of_int (bpy.frame_current b));
             ("render_engine", bpy.render_engine b)]
  end.

Definition active_name (b : bpy.t) : string :=
  match bpy.active b with
  | Some n => n
  | None => ""
  end.

Definition bridge_snapshot_of (b : bpy.t) : Context :=
  {| selected_objects := Some (bpy.selected_names b);
     active_object := Some (active_name b);
     view_layer := Some (bpy.view_layer_name b);
     mode := Some (bpy.mode b);
     viewport_settings := Some (bridge_settings_of b);
     visible_collections := Some (bridge_visible_of b);
     is_rendering := Some (bpy.is_rendering b);
     custom_state := Some (bridge_custom_of b) |}.

(** The first read of [TahliaCore.capture_context] that raises on [b]:
    every read of the dictionary display, in its order. *)
Definition core_fault (b : bpy.t) : option exn :=
  match first_fault [bpy.SelectedObjects; bpy.ActiveObject; bpy.ViewLayerName;
                     bpy.Mode] b with
  | Some e => Some e
  | None =>
      match (match bpy.shading_type b with
             | Some _ => bpy.fault bpy.ShadingType b
             | None => None
             end) with
      | Some e => Some e
      | None =>
          match bpy.fault bpy.ShowWireframes b, bpy.show_wireframes b with
          | Some e, _ => Some e
          | None, None => Some (bpy.attribute_error "overlay")
          | None, Some _ => first_fault [bpy.Children; bpy.IsRendering] b
          end
      end
  end.

Definition core_snapshot_of (b : bpy.t) : Context :=
  {| selected_objects := Some (bpy.selected_names b);
     active_object := Some (active_name b);
     view_layer := Some (bpy.view_layer_name b);
     mode := Some (bpy.mode b);
     viewport_settings :=
       Some {| shading := Some (match bpy.shading_type b with
                                | Some ty => ty
                                | None => "SOLID"
                                end);
               overlay := Some (overlay_tag (match bpy.show_wireframes b with
                                             | Some w => w
                                             | None => false
                                             end)) |};
     visible_collections := Some (bpy.visible_names b);
     is_rendering := Some (bpy.is_rendering b);
     custom_state := Some [] |}.

(** A context that has no [selected_objects] member, everything else
    being readable. *)
Definition no_selected_objects : bpy.t :=
  scene [ob "A" true; ob "B" false] (Some "A") [coll "Props" false]
        [(bpy.SelectedObjects, "'Context' object has no attribute 'selected_objects'")].

(** A space that is not a 3D viewport: no [shading], no [overlay]. *)
Definition no_viewport : bpy.t :=
  {| bpy.data_objects := [ob "A" true; ob "B" false]; bpy.active := Some "A";
     bpy.view_layer_name := "ViewLayer"; bpy.mode := "OBJECT";
     bpy.shading_type := None; bpy.show_wireframes := None;
     bpy.children := [coll "Props" false]; bpy.is_rendering := false;
     bpy.scene_name := "Scene"; bpy.frame_current := 1%Z;
     bpy.render_engine := "CYCLES"; bpy.faults := [] |}.

(** The same space, and no active object. *)
Definition no_viewport_no_active : bpy.t := bpy.with_active None no_viewport.

(** [for n in names: select n], on the list of objects. *)
Definition select_all_named (names : list string) (l : list bpy.Object)
  : list bpy.Object :=
  fold_left (fun l n => bpy.select_named n l) names l.

(** One object after [select_set(True)] on the name [n], when names are
    keys. *)
Definition mark (n : string) (o : bpy.Object) : bpy.Object :=
  if String.eqb n (bpy.ob_name o)
  then {| bpy.ob_name := bpy.ob_name o; bpy.ob_select := true |}
  else o.

Definition mark_all (names : list string) (o : bpy.Object) : bpy.Object :=
  if str_in (bpy.ob_name o) names
  then {| bpy.ob_name := bpy.ob_name o; bpy.ob_select := true |}
  else o.

(** A collection after the assignment of [_restore_visible_collections]. *)
Definition restore_hidden (collections : list string) (col : bpy.Collection)
  : bpy.Collection :=
  {| bpy.col_name := bpy.col_name col;
     bpy.hide_viewport := negb (str_in (bpy.col_name col) collections) |}.

(** The host members a raise of which ends [restore_context] with
    [False]; a raise of the others is caught on the spot. *)
Definition restore_steps : list bpy.Api :=
  [bpy.DataObjects; bpy.SetActive; bpy.SelectAll; bpy.SelectSet;
   bpy.ActiveObject].

(** A host with "A" and "B", of which only "B" is selected, and a
    snapshot taken when nothing was selected. *)
Definition only_B_selected : bpy.t :=
  scene [ob "A" false; ob "B" true] (Some "B") [coll "Props" false] [].

Definition snap_nothing_selected : Context :=
  {| selected_objects := Some []; active_object := Some "";
     view_layer := Some "ViewLayer"; mode := Some "OBJECT";
     viewport_settings := Some {| shading := Some "SOLID"; overlay := Some "SOLID" |};
     visible_collections := Some ["Props"]; is_rendering := Some false;
     custom_state := Some [] |}.

(** "Props" is shown and "Hidden" is not; the snapshot was taken when it
    was the other way round. *)
Definition props_shown : bpy.t :=
  scene [ob "A" true] (Some "A") [coll "Props" false; coll "Hidden" true] [].

Definition snap_hidden_shown : Context :=
  {| selected_objects := Some ["A"]; active_object := Some "A";
     view_layer := Some "ViewLayer"; mode := Some "OBJECT";
     viewport_settings := Some {| shading := Some "SOLID"; overlay := Some "SOLID" |};
     visible_collections := Some ["Hidden"]; is_rendering := Some false;
     custom_state := Some [] |}.

(** The host members a capture followed by a restore of
    [TahliaBridge] relies on. *)
Definition roundtrip_calls : list bpy.Api :=
  (bridge_plain_reads ++ restore_steps ++ [bpy.Children; bpy.SetHideViewport])%list.

(** The selected names, the active object and the visible collections of
    [b'] are those of [b]. *)
Definition same_observables (b b' : bpy.t) : Prop :=
  bpy.selected_names b' = bpy.selected_names b /\
  bpy.active b' = bpy.active b /\
  bpy.visible_names b' = bpy.visible_names b.

(** * Vocabulary of the further properties *)

(** ** What [restore_context] makes of the host, step by step *)

Definition no_fault (m : bpy.Api) (b : bpy.t) : bool :=
  match bpy.fault m b with
  | None => true
  | Some _ => false
  end.

(** The active object after the block [# Restore active object]. *)
Definition restored_active (c : Context) (b : bpy.t) : option string :=
  if truthy_str (active_object c)
     && bpy.has_object (get_or (active_object c) "") b
  then Some (get_or (active_object c) "")
  else bpy.active b.

(** The objects after the block [# Restore selected objects] of the
    bridge. *)
Definition restored_objects (c : Context) (l : list bpy.Object)
  : list bpy.Object :=
  if truthy_list (selected_objects c)
  then select_all_named (get_or (selected_objects c) []) (bpy.deselect_all l)
  else l.

(** The objects after the same block of the core, which clears nothing. *)
Definition core_restored_objects (c : Context) (l : list bpy.Object)
  : list bpy.Object :=
  if truthy_list (selected_objects c)
  then select_all_named (get_or (selected_objects c) []) l
  else l.

(** The mode after the block [# Restore mode], [act] being the active
    object at that point. *)
Definition restored_mode (c : Context) (b : bpy.t) (act : option string)
  : string :=
  match act with
  | Some _ =>
      if truthy_str (mode c) && no_fault bpy.ModeSet b
      then get_or (mode c) ""
      else bpy.mode b
  | None => bpy.mode b
  end.

(** The shading after [_restore_viewport_settings]. *)
Definition restored_shading (c : Context) (b : bpy.t) : option string :=
  match bpy.shading_type b,
        shading (get_or (viewport_settings c) empty_settings),
        bpy.fault bpy.SetShadingType b with
  | Some _, Some s, None => Some s
  | _, _, _ => bpy.shading_type b
  end.

(** The collections after [_restore_visible_collections]. *)
Definition restored_children (c : Context) (b : bpy.t)
  : list bpy.Collection :=
  match bpy.fault bpy.Children b, bpy.fault bpy.SetHideViewport b with
  | None, None =>
      map (restore_hidden (get_or (visible_collections c) [])) (bpy.children b)
  | _, _ => bpy.children b
  end.

(** The host after a [TahliaBridge.restore_context] that returned
    [True]. *)
Definition bridge_restored (c : Context) (b : bpy.t) : bpy.t :=
  {| bpy.data_objects := restored_objects c (bpy.data_objects b);
     bpy.active := restored_active c b;
     bpy.view_layer_name := bpy.view_layer_name b;
     bpy.mode := restored_mode c b (restored_active c b);
     bpy.shading_type := restored_shading c b;
     bpy.show_wireframes := bpy.show_wireframes b;
     bpy.children := restored_children c b;
     bpy.is_rendering := bpy.is_rendering b;
     bpy.scene_name := bpy.scene_name b;
     bpy.frame_current := bpy.frame_current b;
     bpy.render_engine := bpy.render_engine b;
     bpy.faults := bpy.faults b |}.

(** ** When a step of [restore_context] raises *)

(** The block [# Restore active object] raises on none of its calls. *)
Definition active_step_ok (c : Context) (b : bpy.t) : bool :=
  negb (truthy_str (active_object c))
  || (no_fault bpy.DataObjects b
      && (negb (bpy.has_object (get_or (active_object c) "") b)
          || no_fault bpy.SetActive b)).

(** The selection loop over [names] raises on none of its calls. *)
Definition select_loop_ok (names : list string) (b : bpy.t) : bool :=
  match names with
  | [] => true
  | _ :: _ =>
      no_fault bpy.DataObjects b
      && (negb (existsb (fun n => bpy.has_object n b) names)
          || no_fault bpy.SelectSet b)
  end.

Definition bridge_select_step_ok (c : Context) (b : bpy.t) : bool :=
  negb (truthy_list (selected_objects c))
  || (no_fault bpy.SelectAll b
      && select_loop_ok (get_or (selected_objects c) []) b).

(** The block [# Restore mode] raises outside its own [try]. *)
Definition mode_step_ok (c : Context) (b : bpy.t) : bool :=
  negb (truthy_str (mode c)) || no_fault bpy.ActiveObject b.

Definition bridge_restore_ok (c : Context) (b : bpy.t) : bool :=
  active_step_ok c b && bridge_select_step_ok c b && mode_step_ok c b.

(** [hasattr(bpy.context.space_data, 'shading')], as a function of the
    host. *)
Definition has_shading_attr (b : bpy.t) : bool :=
  match bpy.shading_type b with
  | Some _ => true
  | None => false
  end.

(** The shading the core's block [# Restore viewport settings] assigns,
    if it assigns one. *)
Definition core_shading_to_set (c : Context) (b : bpy.t) : option string :=
  if has_shading_attr b && truthy_settings (viewport_settings c)
  then shading (get_or (viewport_settings c) empty_settings)
  else None.

Definition core_restored_shading (c : Context) (b : bpy.t) : option string :=
  match core_shading_to_set c b with
  | Some s => Some s
  | None => bpy.shading_type b
  end.

(** The host after a [TahliaCore.restore_context] that returned [True]. *)
Definition core_restored (c : Context) (b : bpy.t) : bpy.t :=
  {| bpy.data_objects := core_restored_objects c (bpy.data_objects b);
     bpy.active := restored_active c b;
     bpy.view_layer_name := bpy.view_layer_name b;
     bpy.mode := restored_mode c b (restored_active c b);
     bpy.shading_type := core_restored_shading c b;
     bpy.show_wireframes := bpy.show_wireframes b;
     bpy.children := bpy.children b;
     bpy.is_rendering := bpy.is_rendering b;
     bpy.scene_name := bpy.scene_name b;
     bpy.frame_current := bpy.frame_current b;
     bpy.render_engine := bpy.render_engine b;
     bpy.faults := bpy.faults b |}.

Definition core_select_step_ok (c : Context) (b : bpy.t) : bool :=
  negb (truthy_list (selected_objects c))
  || select_loop_ok (get_or (selected_objects c) []) b.

(** The core assigns the shading outside any inner [try]. *)
Definition core_viewport_step_ok (c : Context) (b : bpy.t) : bool :=
  match core_shading_to_set c b with
  | Some _ => no_fault bpy.SetShadingType b
  | None => true
  end.

Definition core_restore_ok (c : Context) (b : bpy.t) : bool :=
  active_step_ok c b && core_select_step_ok c b && mode_step_ok c b
  && core_viewport_step_ok c b.

(** ** Calls in sequence *)

(** Whether an outcome is a return. *)
Definition returned {A} (r : outcome A) : bool :=
  match r with
  | Returned _ => true
  | Raised _ => false
  end.

(** A call of one of the context methods; the operation handed to
    [preserve_context] is one that works on the host. *)
Inductive Call :=
| DoPush
| DoPop
| DoClear
| DoCapture
| DoRestore (c : Context)
| DoPreserve (o : M bpy.t unit).

Definition bridge_call (k : Call) : M TahliaBridge.W unit :=
  match k with
  | DoPush => TahliaBridge.push_context ;; ret tt
  | DoPop => TahliaBridge.pop_context ;; ret tt
  | DoClear => TahliaBridge.clear_context_stack
  | DoCapture => TahliaBridge.capture_context ;; ret tt
  | DoRestore c => TahliaBridge.restore_context c ;; ret tt
  | DoPreserve o => TahliaBridge.preserve_context (api o) ;; ret tt
  end.

Definition core_call (k : Call) : M TahliaCore.W unit :=
  match k with
  | DoPush => TahliaCore.push_context ;; ret tt
  | DoPop => TahliaCore.pop_context ;; ret tt
  | DoClear => TahliaCore.clear_context_stack
  | DoCapture => TahliaCore.capture_context ;; ret tt
  | DoRestore c => TahliaCore.restore_context c ;; ret tt
  | DoPreserve o => TahliaCore.preserve_context (api o) ;; ret tt
  end.

(** The limit is the same and the depth is at most the larger of the
    limit and the depth there was. *)
Definition bridge_bounded (w w' : TahliaBridge.W) : Prop :=
  bridge_limit w' = bridge_limit w /\
  (0 <= bridge_depth w' <= Z.max (bridge_depth w) (bridge_limit w))%Z.

Definition core_bounded (w w' : TahliaCore.W) : Prop :=
  core_limit w' = core_limit w /\
  (0 <= core_depth w' <= Z.max (core_depth w) (core_limit w))%Z.

(** * Vocabulary of the import properties *)

(** What a result says of itself: a failure carries no data and no
    names, a success records the path it was asked to import and one of
    the five kinds of file. *)
Definition well_formed (asset_path : string) (r : Result) : Prop :=
  if success r
  then dict_get "file_path" (data r) "" = asset_path /\
       In (dict_get "file_type" (data r) "")
          ["blend"; "obj"; "fbx"; "dae"; "texture"]
  else data r = [] /\ list_data r = [].

(** The dictionary of a failure. *)
Definition failure (msg : string) : Result :=
  {| success := false; message := msg; data := []; list_data := [] |}.

(** A statement that returns, and returns a value with property [P]. *)
Definition yields {S A} (c : M S A) (P : A -> Prop) : Prop :=
  forall s, exists a s', c s = (Returned a, s') /\ P a.

(** Whenever the statement returns, the value has property [P]. *)
Definition on_return {S A} (c : M S A) (P : A -> Prop) : Prop :=
  forall s a s', c s = (Returned a, s') -> P a.

(** A statement of [TahliaBridge] and one of [TahliaCore] that, run on
    the same host, have the same outcome and leave the same host. *)
Definition same_on_host {A} (cb : M TahliaBridge.W A) (cc : M TahliaCore.W A)
  : Prop :=
  forall wb wc, host wb = host wc ->
    fst (cb wb) = fst (cc wc) /\ host (snd (cb wb)) = host (snd (cc wc)).

(** The extensions the two dispatchers have a branch for. *)
Definition dispatched_extensions : list string :=
  [".blend"; ".obj"; ".fbx"; ".dae"] ++ texture_extensions.

(** The snapshot [TahliaCore.capture_context] returns on host [b]. *)
Definition core_captured (b : bpy.t) : Context :=
  match core_fault b with
  | Some _ => empty_context
  | None => core_snapshot_of b
  end.

(** ** A sample of the host calls

    A small asset folder, the suffixes of its paths, an OBJ importer
    that adds a selected object "tree", no FBX importer, and numbers
    that are integers. *)

Definition sample_files : list string :=
  ["/assets/tree.obj"; "/assets/song.mp3"; "/assets/mesh.stl"].

Definition sample_suffix (p : string) : string :=
  dict_get p [("/assets/tree.obj", ".obj"); ("/assets/song.mp3", ".mp3");
              ("/assets/mesh.stl", ".stl"); ("/assets/missing.fbx", ".fbx")] "".

Definition add_selected (n : string) (b : bpy.t) : bpy.t :=
  bpy.with_data_objects (bpy.data_objects b ++ [ob n true])%list b.

Definition sample_env : Env :=
  {| os_path_exists := fun p => ret (str_in p sample_files);
     Path_suffix := sample_suffix;
     Path_stem := fun p => p;
     str_lower := fun s => s;
     import_scene_obj := fun _ => modify (add_selected "tree");
     import_scene_fbx := fun _ => raise "operator not found";
     wm_collada_import := fun _ => raise "operator not found";
     libraries_load := fun _ _ => ret [];
     collection_objects_link := fun _ => ret tt;
     Material := string;
     Node := unit;
     Image := unit;
     Socket := unit;
     LinksNew := unit;
     materials_new := fun n => ret n;
     set_use_nodes := fun _ _ => ret tt;
     nodes_get := fun _ _ => ret None;
     node_bool := fun _ => ret true;
     nodes_new := fun _ _ => ret tt;
     images_load := fun _ => ret tt;
     set_image := fun _ _ => ret tt;
     node_tree_links_new := fun _ => ret tt;
     outputs_getitem := fun _ _ => ret tt;
     inputs_getitem := fun _ _ => ret tt;
     call_links_new := fun _ _ _ => ret tt;
     float := Z;
     float_3_14159 := 3%Z;
     int_mul_float := fun i x => Returned (i * x)%Z;
     float_mul_int := fun x i => Returned (x * i)%Z;
     float_div_int := fun x n => Returned (x / n)%Z;
     float_mul := fun x y => Returned (x * y)%Z;
     math_cos := fun x => Returned x;
     math_sin := fun x => Returned x;
     set_location := fun _ _ => ret tt |}.

(** * Properties *)

(** ** Running the monad *)

Lemma returns_ret {S A} (a : A) : returns (@ret S A a).
Proof. intros s. exists a, s. reflexivity. Qed.

Lemma returns_modify {S} (f : S -> S) : returns (modify f).
Proof. intros s. exists tt, (f s). reflexivity. Qed.

Lemma returns_bind {S A B} (c : M S A) (k : A -> M S B) :
  returns c -> (forall a, returns (k a)) -> returns (bind c k).
Proof.
  intros Hc Hk s. unfold bind.
  destruct (Hc s) as (a & s1 & E). rewrite E. apply Hk.
Qed.

(** A [try] whose handler never raises never raises. *)
Lemma returns_try_except {S A} (body : M S A) (handler : exn -> M S A) :
  (forall e, returns (handler e)) -> returns (try_except body handler).
Proof.
  intros Hh s. unfold try_except.
  destruct (body s) as [[a | e] s1].
  - exists a, s1. reflexivity.
  - apply Hh.
Qed.

Lemma returns_when {S} (c : bool) (body : M S unit) :
  returns body -> returns (when c body).
Proof. intros Hb. destruct c; simpl; [exact Hb | apply returns_ret]. Qed.

Create HintDb returns_db.
#[export] Hint Resolve returns_ret returns_modify returns_bind
  returns_try_except returns_when : returns_db.

Lemma bridge_set_last_error_returns msg :
  returns (TahliaBridge.set_last_error msg).
Proof. apply returns_modify. Qed.
#[export] Hint Resolve bridge_set_last_error_returns : returns_db.

Lemma bridge_capture_context_returns : returns TahliaBridge.capture_context.
Proof. unfold TahliaBridge.capture_context. auto with returns_db. Qed.

Lemma bridge_restore_context_returns c :
  returns (TahliaBridge.restore_context c).
Proof. unfold TahliaBridge.restore_context. auto with returns_db. Qed.

Lemma core_capture_context_returns : returns TahliaCore.capture_context.
Proof. unfold TahliaCore.capture_context. auto with returns_db. Qed.

Lemma core_restore_context_returns c : returns (TahliaCore.restore_context c).
Proof. unfold TahliaCore.restore_context. auto with returns_db. Qed.

(** ** [preserve_context] *)

Lemma bridge_preserve_context_enabled operation w :
  TahliaBridge.context_preservation (self w) = true ->
  preserved_run TahliaBridge.capture_context TahliaBridge.restore_context
    (fun e => with_self (TahliaBridge.with_last_error ("Operation failed: " ++ e)))
    TahliaBridge.preserve_context operation w.
Proof.
  intros Hon.
  destruct (bridge_capture_context_returns w) as (saved & w1 & Hcap).
  exists saved, w1. split; [exact Hcap |].
  assert (Hrun : TahliaBridge.preserve_context operation w =
                 try_except
                   (operation ;; TahliaBridge.restore_context saved)
                   (fun e => TahliaBridge.set_last_error ("Operation failed: " ++ e) ;;
                             TahliaBridge.restore_context saved ;; ret false) w1).
  { unfold TahliaBridge.preserve_context at 1. unfold bind at 1, get.
    rewrite Hon. simpl. unfold bind at 1. rewrite Hcap. reflexivity. }
  rewrite Hrun. unfold try_except, bind.
  split; [| split].
  - intros w2 Hop. rewrite Hop.
    destruct (bridge_restore_context_returns saved w2) as (b & w3 & Hres).
    rewrite Hres. reflexivity.
  - intros e w2 Hop. rewrite Hop. simpl.
    destruct (bridge_restore_context_returns saved
                (with_self (TahliaBridge.with_last_error ("Operation failed: " ++ e)) w2))
      as (b & w3 & Hres).
    exists b, w3. split; [exact Hres |].
    unfold TahliaBridge.set_last_error, modify. rewrite Hres. reflexivity.
  - intros w3. destruct (operation w1) as [[[] | e] w2] eqn:Hop.
    + destruct (bridge_restore_context_returns saved w2) as (b & w3' & Hres).
      rewrite Hres. split.
      * intros E. inversion E; subst. exists w2. auto.
      * intros (w2' & E1 & E2). inversion E1; subst w2'.
        rewrite Hres in E2. exact E2.
    + unfold TahliaBridge.set_last_error, modify.
      destruct (bridge_restore_context_returns saved
                  (with_self (TahliaBridge.with_last_error ("Operation failed: " ++ e)) w2))
        as (b & w3' & Hres).
      rewrite Hres. simpl. split.
      * intros E. inversion E.
      * intros (w2' & E1 & _). inversion E1.
Qed.

Lemma core_preserve_context_enabled operation w :
  TahliaCore.context_preservation (self w) = true ->
  preserved_run TahliaCore.capture_context TahliaCore.restore_context
    (fun _ w2 => w2) TahliaCore.preserve_context operation w.
Proof.
  intros Hon.
  destruct (core_capture_context_returns w) as (saved & w1 & Hcap).
  exists saved, w1. split; [exact Hcap |].
  assert (Hrun : TahliaCore.preserve_context operation w =
                 try_except
                   (operation ;; TahliaCore.restore_context saved)
                   (fun _ => TahliaCore.restore_context saved ;; ret false) w1).
  { unfold TahliaCore.preserve_context at 1. unfold bind at 1, get.
    rewrite Hon. simpl. unfold bind at 1. rewrite Hcap. reflexivity. }
  rewrite Hrun. unfold try_except, bind.
  split; [| split].
  - intros w2 Hop. rewrite Hop.
    destruct (core_restore_context_returns saved w2) as (b & w3 & Hres).
    rewrite Hres. reflexivity.
  - intros e w2 Hop. rewrite Hop.
    destruct (core_restore_context_returns saved w2) as (b & w3 & Hres).
    exists b, w3. split; [exact Hres |]. rewrite Hres. reflexivity.
  - intros w3. destruct (operation w1) as [[[] | e] w2] eqn:Hop.
    + destruct (core_restore_context_returns saved w2) as (b & w3' & Hres).
      rewrite Hres. split.
      * intros E. inversion E; subst. exists w2. auto.
      * intros (w2' & E1 & E2). inversion E1; subst w2'.
        rewrite Hres in E2. exact E2.
    + destruct (core_restore_context_returns saved w2) as (b & w3' & Hres).
      rewrite Hres. simpl. split.
      * intros E. inversion E.
      * intros (w2' & E1 & _). inversion E1.
Qed.

(** ** What a statement leaves alone

    [keeps f c]: whatever [c] does, returning or raising, the
    observation [f] of the world is the same afterwards. *)

Lemma pure_read {A} (m : bpy.Api) (f : bpy.t -> A) : pure_call (bpy.read m f).
Proof.
  intros b r b'. unfold bpy.read. destruct (bpy.fault m b); intros E;
    inversion E; reflexivity.
Qed.

Lemma pure_get_shading_type : pure_call bpy.get_shading_type.
Proof.
  intros b r b'. unfold bpy.get_shading_type, bpy.read, bind, ret, raise.
  destruct (bpy.fault bpy.ShadingType b); [| destruct (bpy.shading_type b)];
    intros E; inversion E; reflexivity.
Qed.

Lemma pure_get_show_wireframes : pure_call bpy.get_show_wireframes.
Proof.
  intros b r b'. unfold bpy.get_show_wireframes, bpy.read, bind, ret, raise.
  destruct (bpy.fault bpy.ShowWireframes b); [| destruct (bpy.show_wireframes b)];
    intros E; inversion E; reflexivity.
Qed.

Lemma pure_hasattr_shading : pure_call bpy.hasattr_shading.
Proof. intros b r b' E. inversion E; reflexivity. Qed.

Lemma pure_hasattr_overlay : pure_call bpy.hasattr_overlay.
Proof. intros b r b' E. inversion E; reflexivity. Qed.

Create HintDb pure_db.
#[export] Hint Resolve pure_read pure_get_shading_type pure_get_show_wireframes
  pure_hasattr_shading pure_hasattr_overlay : pure_db.
#[export] Hint Unfold bpy.selected_objects bpy.active_object
  bpy.get_view_layer_name bpy.get_mode bpy.get_children bpy.get_is_rendering
  bpy.get_scene_name bpy.get_frame_current bpy.get_render_engine
  bpy.data_objects_contains : pure_db.

Section Keeps.

Context {Self X : Type} (f : World Self -> X).

Lemma keeps_ret {A} (a : A) : keeps f (ret a).
Proof. intros w r w' E. inversion E; reflexivity. Qed.

Lemma keeps_get : keeps f get.
Proof. intros w r w' E. inversion E; reflexivity. Qed.

Lemma keeps_bind {A B} (c : M (World Self) A) (k : A -> M (World Self) B) :
  keeps f c -> (forall a, keeps f (k a)) -> keeps f (bind c k).
Proof.
  intros Hc Hk w r w'. unfold bind.
  destruct (c w) as [[a | e] w1] eqn:E; intros E'.
  - rewrite (Hk a _ _ _ E'). exact (Hc _ _ _ E).
  - inversion E'; subst. exact (Hc _ _ _ E).
Qed.

Lemma keeps_try_except {A} (body : M (World Self) A) handler :
  keeps f body -> (forall e, keeps f (handler e)) ->
  keeps f (try_except body handler).
Proof.
  intros Hb Hh w r w'. unfold try_except.
  destruct (body w) as [[a | e] w1] eqn:E; intros E'.
  - inversion E'; subst. exact (Hb _ _ _ E).
  - rewrite (Hh e _ _ _ E'). exact (Hb _ _ _ E).
Qed.

Lemma keeps_when (c : bool) (body : M (World Self) unit) :
  keeps f body -> keeps f (when c body).
Proof. intros Hb. destruct c; simpl; [exact Hb | apply keeps_ret]. Qed.

Lemma keeps_for_each {A} (l : list A) (body : A -> M (World Self) unit) :
  (forall x, keeps f (body x)) -> keeps f (for_each l body).
Proof.
  intros Hb. induction l as [| x l IH]; simpl.
  - apply keeps_ret.
  - apply keeps_bind; [apply Hb | intros _; exact IH].
Qed.

Lemma keeps_api_pure {A} (c : M bpy.t A) : pure_call c -> keeps f (api c).
Proof.
  intros Hc w r w'. unfold api.
  destruct (c (host w)) as [r1 b] eqn:E. intros E'.
  inversion E'; subst. rewrite (Hc _ _ _ E). destruct w; reflexivity.
Qed.

Lemma keeps_api_write (m : bpy.Api) (g : bpy.t -> bpy.t) :
  (forall w, f {| self := self w; host := g (host w) |} = f w) ->
  keeps f (api (bpy.write m g)).
Proof.
  intros Hg w r w'. unfold api, bpy.write.
  destruct (bpy.fault m (host w)); intros E; inversion E; subst.
  - destruct w; reflexivity.
  - apply Hg.
Qed.

Lemma keeps_modify (g : World Self -> World Self) :
  (forall w, f (g w) = f w) -> keeps f (modify g).
Proof. intros Hg w r w' E. inversion E; subst. apply Hg. Qed.
End Keeps.

(** Goes through a method body statement by statement; what is left are
    the writes that do touch the observation. *)
Ltac keeps_step :=
  first
    [ apply keeps_ret | apply keeps_get
    | apply keeps_bind; [| intros ?]
    | apply keeps_try_except; [| intros ?]
    | apply keeps_when
    | apply keeps_for_each; intros ?
    | apply keeps_api_pure; solve [ auto with pure_db
                                  | autounfold with pure_db; auto with pure_db ]
    | apply keeps_api_write; intros ?; reflexivity
    | apply keeps_modify; intros ?; reflexivity
    | match goal with
      | |- keeps _ (match ?x with _ => _ end) => destruct x
      | |- keeps _ (let _ := _ in _) => cbv zeta
      end ].

Ltac keeps_all := repeat keeps_step.

Lemma keeps_restore_active_object Self X (f : World Self -> X) c :
  (forall n w, f {| self := self w; host := bpy.with_active (Some n) (host w) |} = f w) ->
  keeps f (restore_active_object c).
Proof.
  intros Hf. unfold restore_active_object. keeps_all.
  unfold bpy.set_active. apply keeps_api_write. intros w. apply Hf.
Qed.

Lemma keeps_restore_mode Self X (f : World Self -> X) c :
  (forall m w, f {| self := self w; host := bpy.with_mode m (host w) |} = f w) ->
  keeps f (restore_mode c).
Proof.
  intros Hf. unfold restore_mode. keeps_all.
  unfold bpy.mode_set. apply keeps_api_write. intros w. apply Hf.
Qed.

Lemma keeps_select_loop Self X (f : World Self -> X) names :
  (forall l w, f {| self := self w; host := bpy.with_data_objects l (host w) |} = f w) ->
  keeps f (select_loop names).
Proof.
  intros Hf. unfold select_loop. keeps_all.
  unfold bpy.select_set_True. apply keeps_api_write. intros w. apply Hf.
Qed.

(** [capture_context] only reads the host. *)
Lemma bridge_capture_context_host : keeps (@host _) TahliaBridge.capture_context.
Proof.
  unfold TahliaBridge.capture_context, TahliaBridge._capture_viewport_settings,
    TahliaBridge._capture_visible_collections,
    TahliaBridge._capture_custom_state, TahliaBridge.set_last_error.
  keeps_all.
Qed.

Lemma bridge_capture_context_config :
  keeps bridge_config TahliaBridge.capture_context.
Proof.
  unfold TahliaBridge.capture_context, TahliaBridge._capture_viewport_settings,
    TahliaBridge._capture_visible_collections,
    TahliaBridge._capture_custom_state, TahliaBridge.set_last_error.
  keeps_all.
Qed.

Lemma core_capture_context_same w r w' :
  TahliaCore.capture_context w = (r, w') -> w' = w.
Proof.
  assert (H : keeps (fun w => w) TahliaCore.capture_context).
  { unfold TahliaCore.capture_context. keeps_all. }
  apply H.
Qed.

(** ** Statements that do not look at the instance

    [commutes g c]: changing the world by [g] before [c] or after it
    comes to the same.  With [g] an assignment to an attribute of
    [self], this says that [c] neither reads nor writes that attribute. *)

Section Commutes.
Context {Self : Type} (h : Self -> Self).

Lemma commutes_ret {A} (a : A) : commutes (with_self h) (ret a).
Proof. intros w. reflexivity. Qed.

Lemma commutes_bind {A B} (c : M (World Self) A) (k : A -> M (World Self) B) :
  commutes (with_self h) c -> (forall a, commutes (with_self h) (k a)) ->
  commutes (with_self h) (bind c k).
Proof.
  intros Hc Hk w. unfold bind. rewrite Hc.
  destruct (c w) as [[a | e] w1]; [apply Hk | reflexivity].
Qed.

Lemma commutes_try_except {A} (body : M (World Self) A) handler :
  commutes (with_self h) body -> (forall e, commutes (with_self h) (handler e)) ->
  commutes (with_self h) (try_except body handler).
Proof.
  intros Hb Hh w. unfold try_except. rewrite Hb.
  destruct (body w) as [[a | e] w1]; [reflexivity | apply Hh].
Qed.

Lemma commutes_when (c : bool) (body : M (World Self) unit) :
  commutes (with_self h) body -> commutes (with_self h) (when c body).
Proof. intros Hb. destruct c; simpl; [exact Hb | apply commutes_ret]. Qed.

Lemma commutes_for_each {A} (l : list A) (body : A -> M (World Self) unit) :
  (forall x, commutes (with_self h) (body x)) ->
  commutes (with_self h) (for_each l body).
Proof.
  intros Hb. induction l as [| x l IH]; simpl.
  - apply commutes_ret.
  - apply commutes_bind; [apply Hb | intros _; exact IH].
Qed.

Lemma commutes_api {A} (c : M bpy.t A) : commutes (with_self h) (api c).
Proof.
  intros w. unfold api, with_self. simpl.
  destruct (c (host w)) as [r b]. reflexivity.
Qed.

Lemma commutes_modify_self (k : Self -> Self) :
  (forall b, k (h b) = h (k b)) -> commutes (with_self h) (modify (with_self k)).
Proof.
  intros Hk w. unfold modify, with_self. simpl. rewrite Hk. reflexivity.
Qed.
End Commutes.

Ltac commutes_step :=
  first
    [ apply commutes_ret
    | apply commutes_api
    | apply commutes_bind; [| intros ?]
    | apply commutes_try_except; [| intros ?]
    | apply commutes_when
    | apply commutes_for_each; intros ?
    | apply commutes_modify_self; intros []; reflexivity
    | match goal with
      | |- commutes _ (match ?x with _ => _ end) => destruct x
      | |- commutes _ (let _ := _ in _) => cbv zeta
      end ].

Ltac commutes_all := repeat commutes_step.

Lemma commutes_hide_loop (h : TahliaBridge.t -> TahliaBridge.t) cols collections :
  forall i, commutes (with_self h) (TahliaBridge.hide_loop i cols collections).
Proof.
  induction cols as [| col cols IH]; intros i; simpl.
  - apply commutes_ret.
  - apply commutes_bind; [apply commutes_api | intros _; apply IH].
Qed.

Lemma bridge_restore_context_commutes m c :
  commutes (with_self (TahliaBridge.with_max_context_stack_size m))
           (TahliaBridge.restore_context c).
Proof.
  unfold TahliaBridge.restore_context, restore_active_object,
    TahliaBridge.restore_selected_objects, select_loop, restore_mode,
    TahliaBridge._restore_viewport_settings,
    TahliaBridge._restore_visible_collections, TahliaBridge.set_last_error.
  commutes_all; apply commutes_hide_loop.
Qed.

Lemma core_restore_context_commutes m c :
  commutes (with_self (TahliaCore.with_max_context_stack_size m))
           (TahliaCore.restore_context c).
Proof.
  unfold TahliaCore.restore_context, restore_active_object,
    TahliaCore.restore_selected_objects, select_loop, restore_mode,
    TahliaCore.restore_viewport_settings.
  commutes_all.
Qed.

(** ** The stack *)

Lemma bridge_push_context_full w :
  (bridge_limit w <= bridge_depth w)%Z ->
  TahliaBridge.push_context w = (Returned false, w).
Proof.
  unfold bridge_limit, bridge_depth, TahliaBridge.push_context, bind, get.
  intros H. apply Z.ltb_ge in H. rewrite H. reflexivity.
Qed.

Lemma bridge_push_context_room w :
  (bridge_depth w < bridge_limit w)%Z ->
  exists c w1,
    TahliaBridge.capture_context w = (Returned c, w1) /\
    host w1 = host w /\
    TahliaBridge.push_context w =
      (Returned true,
       {| self := TahliaBridge.with_context_stack
                    (TahliaBridge.context_stack (self w) ++ [c])%list (self w1);
          host := host w |}).
Proof.
  unfold bridge_limit, bridge_depth. intros H. apply Z.ltb_lt in H.
  destruct (bridge_capture_context_returns w) as (c & w1 & Hcap).
  pose proof (bridge_capture_context_host _ Hcap) as Hh.
  pose proof (bridge_capture_context_config _ Hcap) as Hc.
  exists c, w1. repeat split; trivial.
  unfold TahliaBridge.push_context, bind, get. rewrite H, Hcap.
  unfold modify, ret, with_self. rewrite Hh.
  replace (TahliaBridge.context_stack (self w1))
    with (TahliaBridge.context_stack (self w)); [reflexivity |].
  unfold bridge_config in Hc.
  apply (f_equal TahliaBridge.context_stack) in Hc. symmetry. exact Hc.
Qed.

Lemma core_push_context_full w :
  (core_limit w <= core_depth w)%Z ->
  TahliaCore.push_context w = (Returned false, w).
Proof.
  unfold core_limit, core_depth, TahliaCore.push_context, bind, get.
  intros H. apply Z.ltb_ge in H. rewrite H. reflexivity.
Qed.

Lemma core_push_context_room w :
  (core_depth w < core_limit w)%Z ->
  exists c,
    TahliaCore.capture_context w = (Returned c, w) /\
    TahliaCore.push_context w =
      (Returned true,
       {| self := TahliaCore.with_context_stack
                    (TahliaCore.context_stack (self w) ++ [c])%list (self w);
          host := host w |}).
Proof.
  unfold core_limit, core_depth. intros H. apply Z.ltb_lt in H.
  destruct (core_capture_context_returns w) as (c & w1 & Hcap).
  pose proof Hcap as Hw. apply core_capture_context_same in Hw. subst w1.
  exists c. split; [exact Hcap |].
  unfold TahliaCore.push_context, bind, get. rewrite H, Hcap. reflexivity.
Qed.

Lemma bridge_pop_context_empty w :
  TahliaBridge.context_stack (self w) = [] ->
  TahliaBridge.pop_context w = (Returned false, w).
Proof.
  intros H. unfold TahliaBridge.pop_context, bind, get. rewrite H. reflexivity.
Qed.

Lemma bridge_pop_context_top w st c :
  TahliaBridge.context_stack (self w) = (st ++ [c])%list ->
  TahliaBridge.pop_context w =
  TahliaBridge.restore_context c
    (with_self (TahliaBridge.with_context_stack st) w).
Proof.
  intros H. unfold TahliaBridge.pop_context, bind, get.
  rewrite H, rev_app_distr. simpl. rewrite rev_involutive. reflexivity.
Qed.

Lemma core_pop_context_empty w :
  TahliaCore.context_stack (self w) = [] ->
  TahliaCore.pop_context w = (Returned false, w).
Proof.
  intros H. unfold TahliaCore.pop_context, bind, get. rewrite H. reflexivity.
Qed.

Lemma core_pop_context_top w st c :
  TahliaCore.context_stack (self w) = (st ++ [c])%list ->
  TahliaCore.pop_context w =
  TahliaCore.restore_context c (with_self (TahliaCore.with_context_stack st) w).
Proof.
  intros H. unfold TahliaCore.pop_context, bind, get.
  rewrite H, rev_app_distr. simpl. rewrite rev_involutive. reflexivity.
Qed.

Lemma bridge_pop_context_commutes m :
  commutes (with_self (TahliaBridge.with_max_context_stack_size m))
           TahliaBridge.pop_context.
Proof.
  intros w. unfold TahliaBridge.pop_context, bind, get. simpl.
  destruct (rev (TahliaBridge.context_stack (self w))) as [| c rest];
    [reflexivity |].
  unfold modify.
  exact (bridge_restore_context_commutes m c
           (with_self (TahliaBridge.with_context_stack (rev rest)) w)).
Qed.

Lemma core_pop_context_commutes m :
  commutes (with_self (TahliaCore.with_max_context_stack_size m))
           TahliaCore.pop_context.
Proof.
  intros w. unfold TahliaCore.pop_context, bind, get. simpl.
  destruct (rev (TahliaCore.context_stack (self w))) as [| c rest];
    [reflexivity |].
  unfold modify.
  exact (core_restore_context_commutes m c
           (with_self (TahliaCore.with_context_stack (rev rest)) w)).
Qed.

Lemma bridge_push_context_result w :
  exists b w',
    TahliaBridge.push_context w = (Returned b, w') /\
    (b = true <-> (bridge_depth w < bridge_limit w)%Z) /\
    (b = true -> bridge_depth w' = (bridge_depth w + 1)%Z) /\
    (b = false -> w' = w).
Proof.
  destruct (Z_lt_le_dec (bridge_depth w) (bridge_limit w)) as [Hlt | Hge].
  - destruct (bridge_push_context_room w Hlt) as (c & w1 & _ & _ & Hpush).
    eexists true, _. split; [exact Hpush |]. repeat split; trivial.
    + intros _. unfold bridge_depth. simpl.
      rewrite length_app. simpl. lia.
    + discriminate.
  - exists false, w. split; [apply bridge_push_context_full; exact Hge |].
    repeat split; trivial; try discriminate. lia.
Qed.

Lemma core_push_context_result w :
  exists b w',
    TahliaCore.push_context w = (Returned b, w') /\
    (b = true <-> (core_depth w < core_limit w)%Z) /\
    (b = true -> core_depth w' = (core_depth w + 1)%Z) /\
    (b = false -> w' = w).
Proof.
  destruct (Z_lt_le_dec (core_depth w) (core_limit w)) as [Hlt | Hge].
  - destruct (core_push_context_room w Hlt) as (c & _ & Hpush).
    eexists true, _. split; [exact Hpush |]. repeat split; trivial.
    + intros _. unfold core_depth. simpl.
      rewrite length_app. simpl. lia.
    + discriminate.
  - exists false, w. split; [apply core_push_context_full; exact Hge |].
    repeat split; trivial; try discriminate. lia.
Qed.

(** ** [preserve_context] with preservation off *)

(** With preservation off, [TahliaBridge.preserve_context] runs the
    operation alone and turns its outcome into a boolean. *)
Lemma bridge_preserve_context_disabled operation w :
  TahliaBridge.context_preservation (self w) = false ->
  TahliaBridge.preserve_context operation w =
  match operation w with
  | (Returned _, w') => (Returned true, w')
  | (Raised e, w') =>
      (Returned false,
       with_self (TahliaBridge.with_last_error ("Operation failed: " ++ e)) w')
  end.
Proof.
  intros Hoff. unfold TahliaBridge.preserve_context, bind, get.
  rewrite Hoff. simpl. unfold try_except.
  destruct (operation w) as [[[] | e] w']; reflexivity.
Qed.

(** With preservation off, [TahliaCore.preserve_context] runs the
    operation outside any [try]: what it raises reaches the caller. *)
Lemma core_preserve_context_disabled operation w :
  TahliaCore.context_preservation (self w) = false ->
  TahliaCore.preserve_context operation w =
  match operation w with
  | (Returned _, w') => (Returned true, w')
  | (Raised e, w') => (Raised e, w')
  end.
Proof.
  intros Hoff. unfold TahliaCore.preserve_context, bind, get.
  rewrite Hoff. simpl.
  destruct (operation w) as [[[] | e] w']; reflexivity.
Qed.

(** ** [restore_context], step by step *)

Lemma try_except_bind {S A B} (c : M S A) (k : A -> M S B) handler (s : S) :
  try_except (bind c k) handler s =
  match c s with
  | (Returned a, s1) => try_except (k a) handler s1
  | (Raised e, s1) => handler e s1
  end.
Proof.
  unfold try_except, bind. destruct (c s) as [[a | e] s1]; reflexivity.
Qed.

Lemma keeps_hide_loop X (f : TahliaBridge.W -> X) cols collections :
  (forall i v w,
     f {| self := self w;
          host := bpy.with_children (bpy.set_hide_at i v (bpy.children (host w)))
                                    (host w) |} = f w) ->
  forall i, keeps f (TahliaBridge.hide_loop i cols collections).
Proof.
  intros Hf. induction cols as [| col cols IH]; intros i; simpl.
  - apply keeps_ret.
  - apply keeps_bind; [| intros _; apply IH].
    unfold bpy.set_hide_viewport. apply keeps_api_write. intros w. apply Hf.
Qed.

(** What the first step does to the active object. *)
Lemma restore_active_object_effect Self (c : Context) (w w' : World Self) r :
  restore_active_object c w = (r, w') ->
  active_of w' = active_of w \/
  exists n, active_object c = Some n /\ n <> "" /\
            bpy.has_object n (host w) = true /\ active_of w' = Some n.
Proof.
  unfold restore_active_object, when.
  destruct (truthy_str (active_object c)) eqn:Ht.
  - destruct (active_object c) as [n |] eqn:Hn; [| discriminate].
    simpl in Ht. simpl.
    unfold bind, api, bpy.data_objects_contains, bpy.read.
    destruct (bpy.fault bpy.DataObjects (host w)).
    + intros E. inversion E. left. reflexivity.
    + simpl. destruct (bpy.has_object n (host w)) eqn:Hin; simpl.
      * unfold bpy.set_active, bpy.write.
        destruct (bpy.fault bpy.SetActive (host w)); intros E; inversion E.
        -- left. reflexivity.
        -- right. exists n. repeat split; trivial.
           intros ->. discriminate.
      * intros E. inversion E. left. reflexivity.
  - intros E. inversion E. left. reflexivity.
Qed.

(** The steps after the first leave the active object alone. *)
Lemma bridge_restore_tail_keeps_active c :
  keeps active_of
    (try_except
       (TahliaBridge.restore_selected_objects c ;;
        restore_mode c ;;
        TahliaBridge._restore_viewport_settings
          (get_or (viewport_settings c) empty_settings) ;;
        TahliaBridge._restore_visible_collections
          (get_or (visible_collections c) []) ;;
        ret true)
       (fun e => TahliaBridge.set_last_error ("Failed to restore context: " ++ e) ;;
                 ret false)).
Proof.
  unfold TahliaBridge.restore_selected_objects, select_loop, restore_mode,
    TahliaBridge._restore_viewport_settings,
    TahliaBridge._restore_visible_collections, TahliaBridge.set_last_error.
  keeps_all. apply keeps_hide_loop. reflexivity.
Qed.

Lemma core_restore_tail_keeps_active c :
  keeps active_of
    (try_except
       (TahliaCore.restore_selected_objects c ;;
        restore_mode c ;;
        TahliaCore.restore_viewport_settings c ;;
        ret true)
       (fun _ => ret false)).
Proof.
  unfold TahliaCore.restore_selected_objects, select_loop, restore_mode,
    TahliaCore.restore_viewport_settings.
  keeps_all.
Qed.

Lemma bridge_restore_context_active c w r w' :
  TahliaBridge.restore_context c w = (r, w') ->
  active_of w' = active_of w \/
  exists n, active_object c = Some n /\ n <> "" /\
            bpy.has_object n (host w) = true /\ active_of w' = Some n.
Proof.
  unfold TahliaBridge.restore_context. rewrite try_except_bind.
  destruct (restore_active_object c w) as [[[] | e] w1] eqn:E1; intros E2.
  - apply bridge_restore_tail_keeps_active in E2. rewrite E2.
    exact (restore_active_object_effect _ _ E1).
  - assert (Hk : keeps active_of
                   (TahliaBridge.set_last_error ("Failed to restore context: " ++ e) ;;
                    ret false)).
    { unfold TahliaBridge.set_last_error. keeps_all. }
    apply Hk in E2. rewrite E2.
    exact (restore_active_object_effect _ _ E1).
Qed.

Lemma core_restore_context_active c w r w' :
  TahliaCore.restore_context c w = (r, w') ->
  active_of w' = active_of w \/
  exists n, active_object c = Some n /\ n <> "" /\
            bpy.has_object n (host w) = true /\ active_of w' = Some n.
Proof.
  unfold TahliaCore.restore_context. rewrite try_except_bind.
  destruct (restore_active_object c w) as [[[] | e] w1] eqn:E1; intros E2.
  - apply core_restore_tail_keeps_active in E2. rewrite E2.
    exact (restore_active_object_effect _ _ E1).
  - inversion E2; subst. exact (restore_active_object_effect _ _ E1).
Qed.

(** ** [capture_context] in closed form *)

Arguments bpy.fault : simpl never.

Ltac case_fault :=
  match goal with
  | |- context [bpy.fault ?m ?b] =>
      let E := fresh "F" in destruct (bpy.fault m b) as [? |] eqn:E; simpl
  end.

Lemma bridge_capture_viewport_settings_run s b :
  TahliaBridge._capture_viewport_settings {| self := s; host := b |} =
  (Returned (bridge_settings_of b), {| self := s; host := b |}).
Proof.
  unfold TahliaBridge._capture_viewport_settings, bridge_settings_of,
    try_except, bind, api, ret, raise, bpy.hasattr_shading, bpy.hasattr_overlay,
    bpy.get_shading_type, bpy.get_show_wireframes, bpy.read, bind, ret, raise,
    overlay_tag.
  destruct (bpy.shading_type b) as [ty |] eqn:Hs;
    destruct (bpy.show_wireframes b) as [wf |] eqn:Hw;
    destruct (bpy.fault bpy.ShadingType b) as [e1 |] eqn:F1;
    destruct (bpy.fault bpy.ShowWireframes b) as [e2 |] eqn:F2;
    repeat (simpl; rewrite ?Hs, ?Hw, ?F1, ?F2); reflexivity.
Qed.

Lemma bridge_capture_visible_collections_run s b :
  TahliaBridge._capture_visible_collections {| self := s; host := b |} =
  (Returned (bridge_visible_of b), {| self := s; host := b |}).
Proof.
  unfold TahliaBridge._capture_visible_collections, bridge_visible_of,
    try_except, bind, api, ret, bpy.get_children, bpy.read. simpl.
  case_fault; reflexivity.
Qed.

Lemma bridge_capture_custom_state_run s b :
  TahliaBridge._capture_custom_state {| self := s; host := b |} =
  (Returned (bridge_custom_of b), {| self := s; host := b |}).
Proof.
  unfold TahliaBridge._capture_custom_state, bridge_custom_of, first_fault,
    try_except, bind, api, ret, bpy.get_scene_name, bpy.get_frame_current,
    bpy.get_render_engine, bpy.read. simpl.
  repeat case_fault; reflexivity.
Qed.

Lemma bridge_capture_context_run w :
  TahliaBridge.capture_context w =
  match first_fault bridge_plain_reads (host w) with
  | Some e =>
      (Returned empty_context,
       with_self (TahliaBridge.with_last_error ("Failed to capture context: " ++ e)) w)
  | None => (Returned (bridge_snapshot_of (host w)), w)
  end.
Proof.
  destruct w as [s b].
  unfold TahliaBridge.capture_context, bridge_plain_reads, first_fault.
  rewrite try_except_bind.
  unfold api at 1, bpy.selected_objects, bpy.read. simpl.
  case_fault; [reflexivity |].
  rewrite try_except_bind.
  unfold api at 1, bpy.active_object, bpy.read. simpl. rewrite ?F.
  case_fault; [reflexivity |].
  rewrite try_except_bind.
  unfold api at 1, bpy.get_view_layer_name, bpy.read. simpl. rewrite ?F0.
  case_fault; [reflexivity |].
  rewrite try_except_bind.
  unfold api at 1, bpy.get_mode, bpy.read. simpl. rewrite ?F1.
  case_fault; [reflexivity |].
  rewrite try_except_bind, bridge_capture_viewport_settings_run.
  rewrite try_except_bind, bridge_capture_visible_collections_run.
  rewrite try_except_bind.
  unfold api at 1, bpy.get_is_rendering, bpy.read. simpl. rewrite ?F2.
  case_fault; [reflexivity |].
  rewrite try_except_bind, bridge_capture_custom_state_run.
  reflexivity.
Qed.

Lemma filter_eqb_false (cols : list bpy.Collection) :
  filter (fun col => Bool.eqb (bpy.hide_viewport col) false) cols =
  filter (fun col => negb (bpy.hide_viewport col)) cols.
Proof.
  apply filter_ext. intros col. destruct (bpy.hide_viewport col); reflexivity.
Qed.

Lemma core_capture_context_run w :
  TahliaCore.capture_context w =
  match core_fault (host w) with
  | Some _ => (Returned empty_context, w)
  | None => (Returned (core_snapshot_of (host w)), w)
  end.
Proof.
  destruct w as [s b].
  unfold TahliaCore.capture_context, core_fault, core_snapshot_of, first_fault,
    bpy.visible_names, bpy.names_visible.
  rewrite <- filter_eqb_false.
  unfold try_except, bind, api, ret, raise, bpy.hasattr_shading,
    bpy.get_shading_type, bpy.get_show_wireframes, bpy.selected_objects,
    bpy.active_object, bpy.get_view_layer_name, bpy.get_mode,
    bpy.get_children, bpy.get_is_rendering, bpy.read, bind, ret, raise,
    overlay_tag, active_name.
  destruct (bpy.fault bpy.SelectedObjects b) as [e1 |] eqn:F1;
    [repeat (simpl; rewrite ?F1); reflexivity |].
  destruct (bpy.fault bpy.ActiveObject b) as [e2 |] eqn:F2;
    [repeat (simpl; rewrite ?F1, ?F2); reflexivity |].
  destruct (bpy.fault bpy.ViewLayerName b) as [e3 |] eqn:F3;
    [repeat (simpl; rewrite ?F1, ?F2, ?F3); reflexivity |].
  destruct (bpy.fault bpy.Mode b) as [e4 |] eqn:F4;
    [repeat (simpl; rewrite ?F1, ?F2, ?F3, ?F4); reflexivity |].
  destruct (bpy.shading_type b) as [ty |] eqn:Hs;
    destruct (bpy.show_wireframes b) as [wf |] eqn:Hw;
    destruct (bpy.fault bpy.ShadingType b) as [e5 |] eqn:F5;
    destruct (bpy.fault bpy.ShowWireframes b) as [e6 |] eqn:F6;
    destruct (bpy.fault bpy.Children b) as [e7 |] eqn:F7;
    destruct (bpy.fault bpy.IsRendering b) as [e8 |] eqn:F8;
    repeat (simpl; rewrite ?F1, ?F2, ?F3, ?F4, ?F5, ?F6, ?F7, ?F8, ?Hs, ?Hw);
    reflexivity.
Qed.

(** ** Snapshots without an active object *)

Lemma truthy_str_empty (o : option string) :
  o = None \/ o = Some "" -> truthy_str o = false.
Proof. intros [-> | ->]; reflexivity. Qed.

Lemma active_unchanged_when_falsy Self (c : Context) (w w' : World Self)
      (P : string -> Prop) :
  truthy_str (active_object c) = false ->
  (active_of w' = active_of w \/
   exists n, active_object c = Some n /\ n <> "" /\ P n /\ active_of w' = Some n) ->
  active_of w' = active_of w.
Proof.
  intros Ht [H | (n & Hn & Hne & _)]; [exact H |].
  rewrite Hn in Ht. simpl in Ht.
  destruct (String.eqb_spec n ""); [contradiction | discriminate].
Qed.

(** ** Objects and their select flags *)

Lemma str_in_In x l : str_in x l = true <-> In x l.
Proof.
  unfold str_in. rewrite existsb_exists. split.
  - intros (y & Hy & E). apply String.eqb_eq in E. subst. exact Hy.
  - intros H. exists x. split; [exact H | apply String.eqb_refl].
Qed.

Lemma has_name_In n l :
  bpy.has_name n l = true <-> In n (map bpy.ob_name l).
Proof.
  unfold bpy.has_name. rewrite existsb_exists, in_map_iff. split.
  - intros (o & Ho & E). apply String.eqb_eq in E. exists o. auto.
  - intros (o & E & Ho). exists o. split; [exact Ho |].
    apply String.eqb_eq. auto.
Qed.

Lemma names_select_named n l :
  map bpy.ob_name (bpy.select_named n l) = map bpy.ob_name l.
Proof.
  induction l as [| o l IH]; simpl; [reflexivity |].
  destruct (String.eqb n (bpy.ob_name o)); simpl; [reflexivity |].
  rewrite IH. reflexivity.
Qed.

Lemma names_deselect_all l :
  map bpy.ob_name (bpy.deselect_all l) = map bpy.ob_name l.
Proof. unfold bpy.deselect_all. rewrite map_map. reflexivity. Qed.

Lemma names_select_all_named names : forall l,
  map bpy.ob_name (select_all_named names l) = map bpy.ob_name l.
Proof.
  unfold select_all_named.
  induction names as [| n names IH]; intros l; simpl; [reflexivity |].
  rewrite IH. apply names_select_named.
Qed.

Lemma has_name_ext m l l' :
  map bpy.ob_name l = map bpy.ob_name l' ->
  bpy.has_name m l = bpy.has_name m l'.
Proof.
  intros E. apply eq_true_iff_eq. rewrite !has_name_In, E. reflexivity.
Qed.

Lemma select_named_absent n l :
  bpy.has_name n l = false -> bpy.select_named n l = l.
Proof.
  unfold bpy.has_name. induction l as [| o l IH]; simpl; [reflexivity |].
  destruct (String.eqb n (bpy.ob_name o)); simpl; [discriminate |].
  intros H. rewrite IH; [reflexivity | exact H].
Qed.

Lemma names_selected_deselect_all l :
  bpy.names_selected (bpy.deselect_all l) = [].
Proof.
  unfold bpy.names_selected, bpy.deselect_all.
  induction l as [| o l IH]; simpl; [reflexivity | exact IH].
Qed.

(** After [select_set(True)] on [n] the selected names are the former
    ones and [n], if there is an object of that name. *)
Lemma In_names_selected_select_named m n l :
  In m (bpy.names_selected (bpy.select_named n l)) <->
  In m (bpy.names_selected l) \/ (m = n /\ bpy.has_name n l = true).
Proof.
  unfold bpy.names_selected, bpy.has_name.
  induction l as [| o l IH]; simpl.
  - split; [tauto | intros [[] | [_ H]]; discriminate].
  - destruct (String.eqb_spec n (bpy.ob_name o)) as [E | E]; simpl.
    + destruct (bpy.ob_select o); simpl; subst n; split; intros H.
      * tauto.
      * destruct H as [H | [-> _]]; tauto.
      * destruct H as [H | H]; auto.
      * destruct H as [H | [-> _]]; auto.
    + destruct (bpy.ob_select o); simpl; rewrite IH; tauto.
Qed.

Lemma In_names_selected_select_all_named m names : forall l,
  In m (bpy.names_selected (select_all_named names l)) <->
  In m (bpy.names_selected l) \/ (In m names /\ bpy.has_name m l = true).
Proof.
  unfold select_all_named.
  induction names as [| n names IH]; intros l; simpl.
  - tauto.
  - rewrite IH, In_names_selected_select_named.
    rewrite (has_name_ext m _ _ (names_select_named n l)).
    split.
    + intros [[H | [-> H]] | [H1 H2]]; auto.
    + intros [H | [[-> | H1] H2]]; auto.
Qed.

(** When names are keys, an entry is known by its name. *)
Lemma NoDup_names_inj A (f : A -> string) (l : list A) x y :
  NoDup (map f l) -> In x l -> In y l -> f x = f y -> x = y.
Proof.
  induction l as [| a l IH]; simpl; [tauto |].
  intros Hnd Hx Hy E. inversion Hnd as [| ? ? Hnotin Hnd']; subst.
  destruct Hx as [-> | Hx], Hy as [-> | Hy]; auto.
  - exfalso. apply Hnotin. rewrite E. apply in_map. exact Hy.
  - exfalso. apply Hnotin. rewrite <- E. apply in_map. exact Hx.
Qed.

Lemma mark_absent n l :
  ~ In n (map bpy.ob_name l) -> map (mark n) l = l.
Proof.
  intros Hn. rewrite <- (map_id l) at 2. apply map_ext_in.
  intros o Ho. unfold mark.
  destruct (String.eqb_spec n (bpy.ob_name o)) as [E | E]; [| reflexivity].
  exfalso. apply Hn. rewrite E. apply in_map. exact Ho.
Qed.

Lemma select_named_mark n l :
  NoDup (map bpy.ob_name l) -> bpy.select_named n l = map (mark n) l.
Proof.
  induction l as [| o l IH]; simpl; [reflexivity |].
  intros Hnd. inversion Hnd as [| ? ? Hnotin Hnd']; subst.
  unfold mark at 1.
  destruct (String.eqb_spec n (bpy.ob_name o)) as [E | E].
  - subst n. rewrite mark_absent; [reflexivity | exact Hnotin].
  - rewrite IH; [reflexivity | exact Hnd'].
Qed.

Lemma names_mark n l : map bpy.ob_name (map (mark n) l) = map bpy.ob_name l.
Proof.
  rewrite map_map. apply map_ext. intros o. unfold mark.
  destruct (String.eqb n (bpy.ob_name o)); reflexivity.
Qed.

Lemma select_all_named_mark_all names : forall l,
  NoDup (map bpy.ob_name l) ->
  select_all_named names l = map (mark_all names) l.
Proof.
  unfold select_all_named.
  induction names as [| n names IH]; intros l Hnd; simpl.
  - rewrite <- (map_id l) at 1. apply map_ext. intros o. reflexivity.
  - rewrite select_named_mark by exact Hnd.
    rewrite IH by (rewrite names_mark; exact Hnd).
    rewrite map_map. apply map_ext. intros o.
    unfold mark_all, mark, str_in. simpl.
    rewrite (String.eqb_sym (bpy.ob_name o) n).
    destruct (String.eqb n (bpy.ob_name o)); simpl; [| reflexivity].
    destruct (existsb (String.eqb (bpy.ob_name o)) names); reflexivity.
Qed.

(** Selecting again what is selected changes nothing. *)
Lemma mark_selected l o n :
  NoDup (map bpy.ob_name l) -> In o l -> In n (bpy.names_selected l) ->
  mark n o = o.
Proof.
  intros Hnd Ho Hn. unfold mark.
  destruct (String.eqb_spec n (bpy.ob_name o)) as [E | E]; [| reflexivity].
  unfold bpy.names_selected in Hn. apply in_map_iff in Hn.
  destruct Hn as (o' & E' & Ho'). apply filter_In in Ho'.
  destruct Ho' as [Ho' Hsel].
  assert (o' = o) by (apply (NoDup_names_inj bpy.ob_name l); congruence).
  subst o'. destruct o as [nm sl]. simpl in *. rewrite Hsel. reflexivity.
Qed.

Lemma select_named_selected l n :
  NoDup (map bpy.ob_name l) -> In n (bpy.names_selected l) ->
  bpy.select_named n l = l.
Proof.
  intros Hnd Hn. rewrite select_named_mark by exact Hnd.
  rewrite <- (map_id l) at 2. apply map_ext_in.
  intros o Ho. apply (mark_selected l); assumption.
Qed.

(** Clearing the selection and selecting the names that were selected
    gives the objects back. *)
Lemma reselect_selected l :
  NoDup (map bpy.ob_name l) ->
  select_all_named (bpy.names_selected l) (bpy.deselect_all l) = l.
Proof.
  intros Hnd.
  rewrite select_all_named_mark_all by (rewrite names_deselect_all; exact Hnd).
  unfold bpy.deselect_all. rewrite map_map.
  rewrite <- (map_id l) at 2. apply map_ext_in.
  intros o Ho. unfold mark_all. simpl.
  destruct (str_in (bpy.ob_name o) (bpy.names_selected l)) eqn:Hin.
  - apply str_in_In in Hin.
    pose proof (mark_selected l o (bpy.ob_name o) Hnd Ho Hin) as Hm.
    unfold mark in Hm. rewrite String.eqb_refl in Hm. exact Hm.
  - destruct o as [nm [|]]; simpl in *; [| reflexivity].
    exfalso. apply Bool.not_true_iff_false in Hin. apply Hin.
    apply str_in_In. unfold bpy.names_selected.
    change nm with (bpy.ob_name {| bpy.ob_name := nm; bpy.ob_select := true |}).
    apply in_map. apply filter_In. split; [exact Ho | reflexivity].
Qed.

(** Hiding every collection whose name is not among the visible ones
    gives the collections back. *)
Lemma rehide_visible cols :
  NoDup (map bpy.col_name cols) ->
  map (restore_hidden (bpy.names_visible cols)) cols = cols.
Proof.
  intros Hnd.
  transitivity (map (fun col => col) cols); [| apply map_id].
  apply map_ext_in.
  intros col Hcol. unfold restore_hidden.
  destruct (str_in (bpy.col_name col) (bpy.names_visible cols)) eqn:Hin; simpl.
  - apply str_in_In in Hin. unfold bpy.names_visible in Hin.
    apply in_map_iff in Hin. destruct Hin as (col' & E & Hcol').
    apply filter_In in Hcol'. destruct Hcol' as [Hcol' Hvis].
    assert (col' = col) by (apply (NoDup_names_inj bpy.col_name cols); congruence).
    subst col'. destruct col as [nm [|]]; simpl in *; [discriminate | reflexivity].
  - destruct col as [nm [|]]; simpl in *; [reflexivity |].
    exfalso. apply Bool.not_true_iff_false in Hin. apply Hin.
    apply str_in_In. unfold bpy.names_visible.
    change nm with (bpy.col_name {| bpy.col_name := nm; bpy.hide_viewport := false |}).
    apply in_map. apply filter_In. split; [exact Hcol | reflexivity].
Qed.

(** ** The two loops *)

(** One turn of the selection loop. *)
Lemma select_step_run Self (s : Self) (b : bpy.t) (n : string) :
  (found <- api (bpy.data_objects_contains n) ;;
   when found (api (bpy.select_set_True n))) {| self := s; host := b |} =
  match bpy.fault bpy.DataObjects b with
  | Some e => (Raised e, {| self := s; host := b |})
  | None =>
      if bpy.has_object n b
      then match bpy.fault bpy.SelectSet b with
           | Some e => (Raised e, {| self := s; host := b |})
           | None =>
               (Returned tt,
                {| self := s;
                   host := bpy.with_data_objects
                             (bpy.select_named n (bpy.data_objects b)) b |})
           end
      else (Returned tt, {| self := s; host := b |})
  end.
Proof.
  unfold bind, api, when, ret, bpy.data_objects_contains, bpy.select_set_True,
    bpy.read, bpy.write. simpl.
  destruct (bpy.fault bpy.DataObjects b); [reflexivity |].
  destruct (bpy.has_object n b); [| reflexivity]. simpl.
  destruct (bpy.fault bpy.SelectSet b); reflexivity.
Qed.

Lemma select_loop_cons Self (n : string) names (w : World Self) :
  select_loop (n :: names) w =
  ((found <- api (bpy.data_objects_contains n) ;;
    when found (api (bpy.select_set_True n))) ;;
   select_loop names) w.
Proof. reflexivity. Qed.

(** When the loop returns, every name of the list has been selected. *)
Lemma select_loop_objects Self names : forall (w w' : World Self),
  select_loop names w = (Returned tt, w') ->
  objects_of w' = select_all_named names (objects_of w).
Proof.
  induction names as [| n names IH]; intros [s b] w'.
  - intros E. inversion E. reflexivity.
  - rewrite select_loop_cons. unfold bind at 1. rewrite select_step_run.
    destruct (bpy.fault bpy.DataObjects b); [discriminate |].
    destruct (bpy.has_object n b) eqn:Hin.
    + destruct (bpy.fault bpy.SelectSet b); [discriminate |].
      intros E. apply IH in E. exact E.
    + intros E. apply IH in E. rewrite E.
      unfold objects_of, select_all_named. simpl.
      rewrite select_named_absent by exact Hin. reflexivity.
Qed.

(** If selecting any of the names changes nothing, the loop changes
    nothing, wherever it stops. *)
Lemma select_loop_fixed Self names : forall (w w' : World Self) r,
  (forall n, In n names ->
             bpy.select_named n (objects_of w) = objects_of w) ->
  select_loop names w = (r, w') ->
  objects_of w' = objects_of w.
Proof.
  induction names as [| n names IH]; intros [s b] w' r Hfix.
  - intros E. inversion E. reflexivity.
  - rewrite select_loop_cons. unfold bind at 1. rewrite select_step_run.
    destruct (bpy.fault bpy.DataObjects b);
      [intros E; inversion E; reflexivity |].
    destruct (bpy.has_object n b).
    + destruct (bpy.fault bpy.SelectSet b);
        [intros E; inversion E; reflexivity |].
      assert (Hn : bpy.select_named n (bpy.data_objects b) = bpy.data_objects b)
        by (apply (Hfix n); left; reflexivity).
      intros E. apply IH in E.
      * rewrite E. unfold objects_of. simpl. exact Hn.
      * intros m Hm. unfold objects_of. simpl. rewrite Hn.
        apply (Hfix m). right. exact Hm.
    + intros E. apply IH in E; [exact E |].
      intros m Hm. apply (Hfix m). right. exact Hm.
Qed.

(** With [bpy.data.objects] and [select_set] working, the loop returns. *)
Lemma select_loop_returns Self names : forall (w : World Self),
  bpy.fault bpy.DataObjects (host w) = None ->
  bpy.fault bpy.SelectSet (host w) = None ->
  exists w', select_loop names w = (Returned tt, w').
Proof.
  induction names as [| n names IH]; intros [s b] F1 F2; simpl in F1, F2.
  - eexists. reflexivity.
  - rewrite select_loop_cons. unfold bind at 1. rewrite select_step_run.
    rewrite F1, F2. destruct (bpy.has_object n b); apply IH; assumption.
Qed.

Lemma set_hide_at_middle pre col cols v :
  bpy.set_hide_at (List.length pre) v (pre ++ col :: cols)%list =
  (pre ++ {| bpy.col_name := bpy.col_name col; bpy.hide_viewport := v |}
       :: cols)%list.
Proof.
  induction pre as [| c pre IH]; simpl; [reflexivity |].
  rewrite IH. reflexivity.
Qed.

(** With assignments to [hide_viewport] working, the loop gives every
    child it visits its new flag, and touches nothing else. *)
Lemma hide_loop_run collections cols : forall pre s b,
  bpy.children b = (pre ++ cols)%list ->
  bpy.fault bpy.SetHideViewport b = None ->
  TahliaBridge.hide_loop (List.length pre) cols collections
    {| self := s; host := b |} =
  (Returned tt,
   {| self := s;
      host := bpy.with_children
                (pre ++ map (restore_hidden collections) cols)%list b |}).
Proof.
  induction cols as [| col cols IH]; intros pre s b Hch F.
  - simpl. unfold ret. rewrite app_nil_r in *. rewrite <- Hch.
    destruct b; reflexivity.
  - simpl. unfold bind at 1, api, bpy.set_hide_viewport, bpy.write. simpl.
    rewrite F, Hch, set_hide_at_middle.
    change {| bpy.col_name := bpy.col_name col;
              bpy.hide_viewport := negb (str_in (bpy.col_name col) collections) |}
      with (restore_hidden collections col).
    specialize (IH (pre ++ [restore_hidden collections col])%list s
                   (bpy.with_children
                      (pre ++ restore_hidden collections col :: cols)%list b)).
    rewrite length_app, Nat.add_1_r in IH. simpl List.length in IH.
    rewrite IH.
    + rewrite <- app_assoc. reflexivity.
    + rewrite <- app_assoc. reflexivity.
    + exact F.
Qed.

Lemma bridge_restore_visible_collections_run collections s b :
  bpy.fault bpy.Children b = None ->
  bpy.fault bpy.SetHideViewport b = None ->
  TahliaBridge._restore_visible_collections collections
    {| self := s; host := b |} =
  (Returned tt,
   {| self := s;
      host := bpy.with_children
                (map (restore_hidden collections) (bpy.children b)) b |}).
Proof.
  intros F1 F2.
  pose proof (hide_loop_run collections (bpy.children b) [] s b eq_refl F2) as H.
  simpl in H.
  unfold TahliaBridge._restore_visible_collections, try_except, bind at 1,
    api at 1, bpy.get_children, bpy.read. simpl. rewrite F1, H.
  reflexivity.
Qed.

(** ** Which step touches what *)

Ltac keeps_solve :=
  unfold restore_active_object, TahliaBridge.restore_selected_objects,
    TahliaCore.restore_selected_objects, select_loop, restore_mode,
    TahliaBridge._restore_viewport_settings,
    TahliaBridge._restore_visible_collections,
    TahliaCore.restore_viewport_settings, TahliaBridge.set_last_error;
  keeps_all; try (apply keeps_hide_loop; reflexivity).

Lemma restore_active_object_keeps_objects Self c :
  keeps (@objects_of Self) (restore_active_object c).
Proof. keeps_solve. Qed.

Lemma restore_active_object_keeps_children Self c :
  keeps (@children_of Self) (restore_active_object c).
Proof. keeps_solve. Qed.

Lemma restore_active_object_keeps_faults Self c :
  keeps (@faults_of Self) (restore_active_object c).
Proof. keeps_solve. Qed.

Lemma restore_mode_keeps_objects Self c :
  keeps (@objects_of Self) (restore_mode c).
Proof. keeps_solve. Qed.

Lemma restore_mode_keeps_children Self c :
  keeps (@children_of Self) (restore_mode c).
Proof. keeps_solve. Qed.

Lemma restore_mode_keeps_faults Self c :
  keeps (@faults_of Self) (restore_mode c).
Proof. keeps_solve. Qed.

Lemma bridge_restore_selected_objects_keeps_children c :
  keeps children_of (TahliaBridge.restore_selected_objects c).
Proof. keeps_solve. Qed.

Lemma bridge_restore_selected_objects_keeps_faults c :
  keeps faults_of (TahliaBridge.restore_selected_objects c).
Proof. keeps_solve. Qed.

Lemma bridge_restore_viewport_settings_keeps_objects st :
  keeps objects_of (TahliaBridge._restore_viewport_settings st).
Proof. keeps_solve. Qed.

Lemma bridge_restore_viewport_settings_keeps_children st :
  keeps children_of (TahliaBridge._restore_viewport_settings st).
Proof. keeps_solve. Qed.

Lemma bridge_restore_viewport_settings_keeps_faults st :
  keeps faults_of (TahliaBridge._restore_viewport_settings st).
Proof. keeps_solve. Qed.

Lemma bridge_restore_visible_collections_keeps_objects cs :
  keeps objects_of (TahliaBridge._restore_visible_collections cs).
Proof. keeps_solve. Qed.

(** [TahliaCore.restore_context] never touches the collections. *)
Lemma core_restore_context_keeps_children c :
  keeps children_of (TahliaCore.restore_context c).
Proof. unfold TahliaCore.restore_context. keeps_solve. Qed.

(** With nothing under ['selected_objects'], or an empty list, neither
    class touches the select flags. *)
Lemma bridge_restore_context_keeps_objects c :
  truthy_list (selected_objects c) = false ->
  keeps objects_of (TahliaBridge.restore_context c).
Proof.
  intros Hf. unfold TahliaBridge.restore_context.
  unfold TahliaBridge.restore_selected_objects. rewrite Hf. keeps_solve.
Qed.

Lemma core_restore_context_keeps_objects c :
  truthy_list (selected_objects c) = false ->
  keeps objects_of (TahliaCore.restore_context c).
Proof.
  intros Hf. unfold TahliaCore.restore_context.
  unfold TahliaCore.restore_selected_objects. rewrite Hf. keeps_solve.
Qed.

Lemma fault_of_faults Self (w w' : World Self) m :
  faults_of w' = faults_of w ->
  bpy.fault m (host w') = bpy.fault m (host w).
Proof. unfold faults_of, bpy.fault. intros ->. reflexivity. Qed.

(** ** [TahliaBridge.restore_context] returning [True] *)

Lemma bridge_restore_context_true c w w' :
  TahliaBridge.restore_context c w = (Returned true, w') <->
  exists w1 w2 w3 w4,
    restore_active_object c w = (Returned tt, w1) /\
    TahliaBridge.restore_selected_objects c w1 = (Returned tt, w2) /\
    restore_mode c w2 = (Returned tt, w3) /\
    TahliaBridge._restore_viewport_settings
      (get_or (viewport_settings c) empty_settings) w3 = (Returned tt, w4) /\
    TahliaBridge._restore_visible_collections
      (get_or (visible_collections c) []) w4 = (Returned tt, w').
Proof.
  unfold TahliaBridge.restore_context. split.
  - rewrite try_except_bind.
    destruct (restore_active_object c w) as [[[] | e] w1] eqn:E1;
      [| intros E; inversion E].
    rewrite try_except_bind.
    destruct (TahliaBridge.restore_selected_objects c w1) as [[[] | e] w2] eqn:E2;
      [| intros E; inversion E].
    rewrite try_except_bind.
    destruct (restore_mode c w2) as [[[] | e] w3] eqn:E3;
      [| intros E; inversion E].
    rewrite try_except_bind.
    destruct (TahliaBridge._restore_viewport_settings
                (get_or (viewport_settings c) empty_settings) w3)
      as [[[] | e] w4] eqn:E4; [| intros E; inversion E].
    rewrite try_except_bind.
    destruct (TahliaBridge._restore_visible_collections
                (get_or (visible_collections c) []) w4)
      as [[[] | e] w5] eqn:E5; [| intros E; inversion E].
    intros E. inversion E; subst. exists w1, w2, w3, w4. auto.
  - intros (w1 & w2 & w3 & w4 & E1 & E2 & E3 & E4 & E5).
    rewrite try_except_bind, E1, try_except_bind, E2, try_except_bind, E3,
      try_except_bind, E4, try_except_bind, E5.
    reflexivity.
Qed.

Lemma bridge_restore_selected_objects_run c sel w w' :
  selected_objects c = Some sel -> sel <> [] ->
  TahliaBridge.restore_selected_objects c w = (Returned tt, w') ->
  objects_of w' = select_all_named sel (bpy.deselect_all (objects_of w)).
Proof.
  intros Hsel Hne. unfold TahliaBridge.restore_selected_objects.
  rewrite Hsel. destruct sel as [| n sel]; [contradiction |]. simpl.
  unfold bind at 1, api at 1, bpy.select_all_DESELECT, bpy.write.
  destruct (bpy.fault bpy.SelectAll (host w)); [discriminate |].
  intros E. apply select_loop_objects in E. exact E.
Qed.

(** When [restore_context] returns [True] on a snapshot with a
    non-empty selection, the select flags are those of a cleared
    selection on which the names of the snapshot were selected. *)
Lemma bridge_restore_context_objects c sel w w' :
  selected_objects c = Some sel -> sel <> [] ->
  TahliaBridge.restore_context c w = (Returned true, w') ->
  objects_of w' = select_all_named sel (bpy.deselect_all (objects_of w)).
Proof.
  intros Hsel Hne E. apply bridge_restore_context_true in E.
  destruct E as (w1 & w2 & w3 & w4 & E1 & E2 & E3 & E4 & E5).
  apply restore_active_object_keeps_objects in E1.
  apply (@bridge_restore_selected_objects_run c sel w1 w2 Hsel Hne) in E2.
  apply restore_mode_keeps_objects in E3.
  apply bridge_restore_viewport_settings_keeps_objects in E4.
  apply bridge_restore_visible_collections_keeps_objects in E5.
  congruence.
Qed.

(** When [restore_context] returns [True] and the host lets the
    collections be read and assigned, every collection of the host has
    its new flag. *)
Lemma bridge_restore_context_children c w w' :
  TahliaBridge.restore_context c w = (Returned true, w') ->
  bpy.fault bpy.Children (host w) = None ->
  bpy.fault bpy.SetHideViewport (host w) = None ->
  children_of w' =
  map (restore_hidden (get_or (visible_collections c) [])) (children_of w).
Proof.
  intros E F1 F2. apply bridge_restore_context_true in E.
  destruct E as (w1 & w2 & w3 & w4 & E1 & E2 & E3 & E4 & E5).
  pose proof E1 as C1. apply restore_active_object_keeps_children in C1.
  pose proof E2 as C2. apply bridge_restore_selected_objects_keeps_children in C2.
  pose proof E3 as C3. apply restore_mode_keeps_children in C3.
  pose proof E4 as C4. apply bridge_restore_viewport_settings_keeps_children in C4.
  pose proof E1 as G1. apply restore_active_object_keeps_faults in G1.
  pose proof E2 as G2. apply bridge_restore_selected_objects_keeps_faults in G2.
  pose proof E3 as G3. apply restore_mode_keeps_faults in G3.
  pose proof E4 as G4. apply bridge_restore_viewport_settings_keeps_faults in G4.
  assert (G : faults_of w4 = faults_of w) by congruence.
  rewrite <- (@fault_of_faults _ w w4 bpy.Children G) in F1.
  rewrite <- (@fault_of_faults _ w w4 bpy.SetHideViewport G) in F2.
  destruct w4 as [s4 b4]. simpl in F1, F2.
  rewrite (@bridge_restore_visible_collections_run _ s4 b4 F1 F2) in E5.
  inversion E5; subst. unfold children_of in *. simpl in *. congruence.
Qed.

(** ** When [TahliaBridge.restore_context] does return [True] *)

Lemma restore_active_object_returns Self c (w : World Self) :
  bpy.fault bpy.DataObjects (host w) = None ->
  bpy.fault bpy.SetActive (host w) = None ->
  exists w1, restore_active_object c w = (Returned tt, w1).
Proof.
  intros F1 F2.
  unfold restore_active_object, when, bind, api, bpy.data_objects_contains,
    bpy.set_active, bpy.read, bpy.write, ret.
  destruct (truthy_str (active_object c)); [| eexists; reflexivity].
  simpl. rewrite F1.
  destruct (bpy.has_object _ (host w)); simpl; [rewrite F2 |];
    eexists; reflexivity.
Qed.

Lemma bridge_restore_selected_objects_returns c w :
  bpy.fault bpy.SelectAll (host w) = None ->
  bpy.fault bpy.DataObjects (host w) = None ->
  bpy.fault bpy.SelectSet (host w) = None ->
  exists w2, TahliaBridge.restore_selected_objects c w = (Returned tt, w2).
Proof.
  intros F1 F2 F3. unfold TahliaBridge.restore_selected_objects, when.
  destruct (truthy_list (selected_objects c)); [| eexists; reflexivity].
  unfold bind at 1, api at 1, bpy.select_all_DESELECT, bpy.write.
  rewrite F1. apply select_loop_returns; assumption.
Qed.

Lemma restore_mode_returns Self c (w : World Self) :
  bpy.fault bpy.ActiveObject (host w) = None ->
  exists w3, restore_mode c w = (Returned tt, w3).
Proof.
  intros F.
  unfold restore_mode, when, bind, api, bpy.active_object, bpy.mode_set,
    bpy.read, bpy.write, try_except, ret.
  destruct (truthy_str (mode c)); [| eexists; reflexivity].
  rewrite F. destruct (bpy.active (host w)); simpl; [| eexists; reflexivity].
  destruct (bpy.fault bpy.ModeSet (host w)); eexists; reflexivity.
Qed.

Lemma bridge_restore_viewport_settings_returns st :
  returns (TahliaBridge._restore_viewport_settings st).
Proof.
  unfold TahliaBridge._restore_viewport_settings. auto with returns_db.
Qed.

Lemma bridge_restore_visible_collections_returns cs :
  returns (TahliaBridge._restore_visible_collections cs).
Proof.
  unfold TahliaBridge._restore_visible_collections. auto with returns_db.
Qed.

Lemma first_fault_none l b :
  first_fault l b = None -> forall m, In m l -> bpy.fault m b = None.
Proof.
  induction l as [| m' l IH]; simpl; [tauto |].
  destruct (bpy.fault m' b) eqn:F; [discriminate |].
  intros H m [<- | Hm]; [exact F | apply IH; assumption].
Qed.

Lemma bridge_restore_context_succeeds c w :
  first_fault restore_steps (host w) = None ->
  exists w', TahliaBridge.restore_context c w = (Returned true, w').
Proof.
  intros Hno. pose proof (first_fault_none _ _ Hno) as F.
  assert (Fw : forall w0 : TahliaBridge.W, faults_of w0 = faults_of w ->
               forall m, In m restore_steps -> bpy.fault m (host w0) = None).
  { intros w0 G m Hm. rewrite (@fault_of_faults _ w w0 m G). apply F. exact Hm. }
  destruct (@restore_active_object_returns _ c w) as (w1 & E1);
    [apply F; simpl; tauto | apply F; simpl; tauto |].
  pose proof E1 as G1. apply restore_active_object_keeps_faults in G1.
  destruct (@bridge_restore_selected_objects_returns c w1) as (w2 & E2);
    [apply Fw; simpl; tauto | apply Fw; simpl; tauto | apply Fw; simpl; tauto |].
  pose proof E2 as G2. apply bridge_restore_selected_objects_keeps_faults in G2.
  destruct (@restore_mode_returns _ c w2) as (w3 & E3);
    [apply Fw; [congruence | simpl; tauto] |].
  destruct (bridge_restore_viewport_settings_returns
              (get_or (viewport_settings c) empty_settings) w3) as ([] & w4 & E4).
  destruct (bridge_restore_visible_collections_returns
              (get_or (visible_collections c) []) w4) as ([] & w5 & E5).
  exists w5. apply bridge_restore_context_true. exists w1, w2, w3, w4. auto.
Qed.

(** ** The selection under [TahliaCore.restore_context] *)

(** [TahliaCore.restore_context] has no call that clears the selection:
    what was selected and is not in the snapshot stays selected. *)
Lemma core_restore_context_adds_to_selection :
  exists w',
    TahliaCore.restore_context
      {| selected_objects := Some ["A"]; active_object := Some "";
         view_layer := None; mode := None; viewport_settings := None;
         visible_collections := None; is_rendering := None;
         custom_state := None |}
      (core_world only_B_selected) = (Returned true, w') /\
    bpy.selected_names (host w') = ["A"; "B"].
Proof. eexists. repeat split. Qed.

(** ** The empty snapshot under [TahliaBridge.restore_context] *)

(** [context.get('visible_collections', [])] is [[]] on the snapshot
    [{}] that a failed capture returns: restoring it hides every
    collection. *)
Lemma bridge_restore_empty_context_hides_collections :
  exists w',
    TahliaBridge.restore_context empty_context (bridge_world two_selected)
      = (Returned true, w') /\
    bpy.visible_names two_selected = ["Props"] /\
    bpy.visible_names (host w') = [].
Proof. eexists. split; [vm_compute; reflexivity | split; reflexivity]. Qed.

(** ** Capture, then restore at once *)

Lemma first_fault_all_none l b :
  (forall m, In m l -> bpy.fault m b = None) -> first_fault l b = None.
Proof.
  induction l as [| m l IH]; simpl; [reflexivity |].
  intros H. rewrite (H m) by (left; reflexivity).
  apply IH. intros m' Hm'. apply H. right. exact Hm'.
Qed.

Lemma first_fault_incl l l' b :
  incl l l' -> first_fault l' b = None -> first_fault l b = None.
Proof.
  intros Hincl H. apply first_fault_all_none. intros m Hm.
  apply (first_fault_none _ _ H). apply Hincl. exact Hm.
Qed.

Lemma active_name_restored Self (b : bpy.t) (w' : World Self) o :
  o = Some (active_name b) ->
  (active_of w' = bpy.active b \/
   exists n, o = Some n /\ n <> "" /\
             bpy.has_object n b = true /\ active_of w' = Some n) ->
  active_of w' = bpy.active b.
Proof.
  intros -> [H | (n & Hn & Hne & _ & Hact)]; [exact H |].
  rewrite Hact. unfold active_name in Hn.
  destruct (bpy.active b); congruence.
Qed.

Lemma core_restore_selected_objects_fixed c w w' r :
  (forall n, In n (get_or (selected_objects c) []) ->
             bpy.select_named n (objects_of w) = objects_of w) ->
  TahliaCore.restore_selected_objects c w = (r, w') ->
  objects_of w' = objects_of w.
Proof.
  intros Hfix. unfold TahliaCore.restore_selected_objects, when.
  destruct (truthy_list (selected_objects c)).
  - apply select_loop_fixed. exact Hfix.
  - intros E. inversion E. reflexivity.
Qed.

(** If selecting any name of the snapshot changes nothing, then
    [TahliaCore.restore_context] leaves the select flags alone, whether
    it ends with [True] or [False]. *)
Lemma core_restore_context_objects_fixed c w w' r :
  (forall n, In n (get_or (selected_objects c) []) ->
             bpy.select_named n (objects_of w) = objects_of w) ->
  TahliaCore.restore_context c w = (r, w') ->
  objects_of w' = objects_of w.
Proof.
  intros Hfix. unfold TahliaCore.restore_context. rewrite try_except_bind.
  destruct (restore_active_object c w) as [[[] | e] w1] eqn:E1;
    apply restore_active_object_keeps_objects in E1.
  - rewrite try_except_bind.
    destruct (TahliaCore.restore_selected_objects c w1) as [[[] | e] w2] eqn:E2;
      apply core_restore_selected_objects_fixed in E2;
      try (rewrite E1; exact Hfix).
    + intros E.
      assert (Hk : keeps objects_of
                     (try_except
                        (restore_mode c ;;
                         TahliaCore.restore_viewport_settings c ;; ret true)
                        (fun _ => ret false))) by keeps_solve.
      apply Hk in E. congruence.
    + intros E. inversion E; subst. congruence.
  - intros E. inversion E; subst. exact E1.
Qed.

Lemma bridge_capture_then_restore s b :
  NoDup (map bpy.ob_name (bpy.data_objects b)) ->
  NoDup (map bpy.col_name (bpy.children b)) ->
  first_fault roundtrip_calls b = None ->
  exists w',
    TahliaBridge.capture_context {| self := s; host := b |}
      = (Returned (bridge_snapshot_of b), {| self := s; host := b |}) /\
    TahliaBridge.restore_context (bridge_snapshot_of b) {| self := s; host := b |}
      = (Returned true, w') /\
    bpy.data_objects (host w') = bpy.data_objects b /\
    bpy.active (host w') = bpy.active b /\
    bpy.children (host w') = bpy.children b.
Proof.
  intros Hobj Hcol Hno.
  set (w := {| self := s; host := b |}).
  assert (Hplain : first_fault bridge_plain_reads b = None).
  { apply (first_fault_incl (l' := roundtrip_calls)); [| exact Hno].
    unfold roundtrip_calls. apply incl_appl, incl_refl. }
  assert (Hsteps : first_fault restore_steps b = None).
  { apply (first_fault_incl (l' := roundtrip_calls)); [| exact Hno].
    unfold roundtrip_calls. apply incl_appr, incl_appl, incl_refl. }
  assert (Hch : bpy.fault bpy.Children b = None).
  { apply (first_fault_none _ _ Hno). unfold roundtrip_calls.
    apply in_or_app. right. apply in_or_app. right. simpl. tauto. }
  assert (Hset : bpy.fault bpy.SetHideViewport b = None).
  { apply (first_fault_none _ _ Hno). unfold roundtrip_calls.
    apply in_or_app. right. apply in_or_app. right. simpl. tauto. }
  destruct (@bridge_restore_context_succeeds (bridge_snapshot_of b) w Hsteps)
    as (w' & E).
  exists w'. split; [| split; [exact E |]].
  - rewrite bridge_capture_context_run. unfold w. cbn [host].
    rewrite Hplain. reflexivity.
  - split; [| split].
    + destruct (bpy.selected_names b) as [| n sel] eqn:Hsel.
      * pose proof E as E'.
        apply (@bridge_restore_context_keeps_objects (bridge_snapshot_of b)) in E';
          [exact E' |].
        simpl. rewrite Hsel. reflexivity.
      * assert (Hne : bpy.selected_names b <> [])
          by (rewrite Hsel; discriminate).
        pose proof (@bridge_restore_context_objects (bridge_snapshot_of b)
                      (bpy.selected_names b) w w' eq_refl Hne E) as H.
        unfold objects_of, w in H. cbn [host] in H. rewrite H.
        apply reselect_selected. exact Hobj.
    + pose proof E as E'. apply bridge_restore_context_active in E'.
      exact (@active_name_restored _ b w' _ eq_refl E').
    + pose proof (@bridge_restore_context_children (bridge_snapshot_of b) w w'
                    E Hch Hset) as H.
      unfold children_of in H. simpl in H. rewrite H.
      unfold bridge_visible_of. rewrite Hch.
      apply rehide_visible. exact Hcol.
Qed.

Lemma core_capture_then_restore s b :
  NoDup (map bpy.ob_name (bpy.data_objects b)) ->
  exists c r w',
    TahliaCore.capture_context {| self := s; host := b |}
      = (Returned c, {| self := s; host := b |}) /\
    TahliaCore.restore_context c {| self := s; host := b |} = (Returned r, w') /\
    bpy.data_objects (host w') = bpy.data_objects b /\
    bpy.active (host w') = bpy.active b /\
    bpy.children (host w') = bpy.children b.
Proof.
  intros Hobj. set (w := {| self := s; host := b |}).
  assert (Hcap : exists c,
             TahliaCore.capture_context w = (Returned c, w) /\
             (c = empty_context \/ c = core_snapshot_of b)).
  { rewrite core_capture_context_run. unfold w. cbn [host].
    destruct (core_fault b); eexists; split; try reflexivity; auto. }
  destruct Hcap as (c & Hcap & Hc).
  destruct (core_restore_context_returns c w) as (r & w' & E).
  exists c, r, w'. split; [exact Hcap |]. split; [exact E |].
  split; [| split].
  - apply (@core_restore_context_objects_fixed c w w' (Returned r)); [| exact E].
    intros n Hn. unfold objects_of. simpl.
    destruct Hc as [-> | ->]; simpl in Hn; [contradiction |].
    apply select_named_selected; assumption.
  - pose proof E as E'. apply core_restore_context_active in E'.
    destruct Hc as [-> | ->].
    + destruct E' as [H | (n & Hn & _)]; [exact H | discriminate].
    + exact (@active_name_restored _ b w' _ eq_refl E').
  - pose proof E as E'. apply core_restore_context_keeps_children in E'.
    exact E'.
Qed.

Lemma NoDup_two_selected_objects :
  NoDup (map bpy.ob_name (bpy.data_objects two_selected)).
Proof.
  simpl. repeat (constructor; [simpl; intuition discriminate |]). constructor.
Qed.

Lemma NoDup_two_selected_children :
  NoDup (map bpy.col_name (bpy.children two_selected)).
Proof.
  simpl. repeat (constructor; [simpl; intuition discriminate |]). constructor.
Qed.

(** ** Sequences of [push_context] *)

Lemma bridge_push_context_keeps_limit :
  keeps bridge_limit TahliaBridge.push_context.
Proof.
  unfold TahliaBridge.push_context, TahliaBridge.capture_context,
    TahliaBridge._capture_viewport_settings,
    TahliaBridge._capture_visible_collections,
    TahliaBridge._capture_custom_state, TahliaBridge.set_last_error.
  keeps_all.
Qed.

Lemma core_push_context_keeps_limit : keeps core_limit TahliaCore.push_context.
Proof.
  unfold TahliaCore.push_context, TahliaCore.capture_context. keeps_all.
Qed.

Lemma push_results_step (d m : Z) (n : nat) :
  map (fun k => (d + 1 + Z.of_nat k <? m)%Z) (seq 0 n) =
  map (fun k => (d + Z.of_nat k <? m)%Z) (seq 1 n).
Proof.
  rewrite <- seq_shift, map_map. apply map_ext. intros k.
  f_equal. lia.
Qed.

Lemma push_results_full (d m : Z) (n : nat) (s : nat) :
  (m <= d)%Z ->
  map (fun k => (d + Z.of_nat k <? m)%Z) (seq s n) = repeat false n.
Proof.
  intros H. revert s. induction n as [| n IH]; intros s; simpl; [reflexivity |].
  rewrite IH. f_equal. apply Z.ltb_ge. lia.
Qed.

Lemma bridge_push_many n : forall w,
  exists w',
    push_many TahliaBridge.push_context n w =
      (Returned (map (fun k => (bridge_depth w + Z.of_nat k <? bridge_limit w)%Z)
                     (seq 0 n)), w') /\
    bridge_depth w' =
      Z.max (bridge_depth w)
            (Z.min (bridge_depth w + Z.of_nat n) (bridge_limit w)).
Proof.
  induction n as [| n IH]; intros w.
  - exists w. split; [reflexivity | lia].
  - destruct (bridge_push_context_result w) as (b & w1 & Hp & Hiff & Hinc & Hsame).
    pose proof (bridge_push_context_keeps_limit _ Hp) as Hlim.
    destruct (IH w1) as (w' & Hrun & Hd).
    exists w'. simpl. unfold bind at 1. rewrite Hp.
    unfold bind at 1. rewrite Hrun. unfold ret. rewrite Hd, Hlim.
    destruct b.
    + specialize (Hinc eq_refl). rewrite Hinc.
      assert (Hlt : (bridge_depth w < bridge_limit w)%Z) by (apply Hiff; reflexivity).
      split; [| lia].
      rewrite push_results_step. do 3 f_equal.
      symmetry. apply Z.ltb_lt. lia.
    + rewrite (Hsame eq_refl) in *.
      assert (Hge : (bridge_limit w <= bridge_depth w)%Z).
      { destruct (Z_lt_le_dec (bridge_depth w) (bridge_limit w)) as [Hlt | Hge];
          [apply Hiff in Hlt; discriminate | exact Hge]. }
      split; [| lia].
      rewrite !push_results_full by exact Hge.
      do 3 f_equal. symmetry. apply Z.ltb_ge. lia.
Qed.

Lemma core_push_many n : forall w,
  exists w',
    push_many TahliaCore.push_context n w =
      (Returned (map (fun k => (core_depth w + Z.of_nat k <? core_limit w)%Z)
                     (seq 0 n)), w') /\
    core_depth w' =
      Z.max (core_depth w) (Z.min (core_depth w + Z.of_nat n) (core_limit w)).
Proof.
  induction n as [| n IH]; intros w.
  - exists w. split; [reflexivity | lia].
  - destruct (core_push_context_result w) as (b & w1 & Hp & Hiff & Hinc & Hsame).
    pose proof (core_push_context_keeps_limit _ Hp) as Hlim.
    destruct (IH w1) as (w' & Hrun & Hd).
    exists w'. simpl. unfold bind at 1. rewrite Hp.
    unfold bind at 1. rewrite Hrun. unfold ret. rewrite Hd, Hlim.
    destruct b.
    + specialize (Hinc eq_refl). rewrite Hinc.
      assert (Hlt : (core_depth w < core_limit w)%Z) by (apply Hiff; reflexivity).
      split; [| lia].
      rewrite push_results_step. do 3 f_equal.
      symmetry. apply Z.ltb_lt. lia.
    + rewrite (Hsame eq_refl) in *.
      assert (Hge : (core_limit w <= core_depth w)%Z).
      { destruct (Z_lt_le_dec (core_depth w) (core_limit w)) as [Hlt | Hge];
          [apply Hiff in Hlt; discriminate | exact Hge]. }
      split; [| lia].
      rewrite !push_results_full by exact Hge.
      do 3 f_equal. symmetry. apply Z.ltb_ge. lia.
Qed.

(** ** The reads the two [capture_context] share *)

(** When one of the five reads that have no handler of their own fails,
    the core's capture has a failing read. *)
Lemma core_fault_plain_reads b e :
  first_fault bridge_plain_reads b = Some e -> core_fault b <> None.
Proof.
  unfold bridge_plain_reads, core_fault, first_fault.
  destruct (bpy.fault bpy.SelectedObjects b); [discriminate |].
  destruct (bpy.fault bpy.ActiveObject b); [discriminate |].
  destruct (bpy.fault bpy.ViewLayerName b); [discriminate |].
  destruct (bpy.fault bpy.Mode b); [discriminate |].
  destruct (bpy.fault bpy.IsRendering b) as [e' |]; [| discriminate].
  intros _.
  destruct (match bpy.shading_type b with
            | Some _ => bpy.fault bpy.ShadingType b
            | None => None
            end); [discriminate |].
  destruct (bpy.fault bpy.ShowWireframes b); [discriminate |].
  destruct (bpy.show_wireframes b); [| discriminate].
  destruct (bpy.fault bpy.Children b); discriminate.
Qed.

(** * The claims *)

(** C1.  With context preservation on, in both classes:
    [preserve_context] captures a snapshot, runs the operation, and
    - when the operation returns, its result is the result of
      [restore_context] on that snapshot, run where the operation
      stopped;
    - when the operation raises, [restore_context] is still run on that
      snapshot and the result is [False] whatever it returned;
    so the result is [True] exactly when the operation returned and the
    restore returned [True]. *)
Theorem preserve_context_when_enabled
    (opb : M TahliaBridge.W unit) (wb : TahliaBridge.W)
    (opc : M TahliaCore.W unit) (wc : TahliaCore.W) :
  TahliaBridge.context_preservation (self wb) = true ->
  TahliaCore.context_preservation (self wc) = true ->
  preserved_run TahliaBridge.capture_context TahliaBridge.restore_context
    (fun e => with_self (TahliaBridge.with_last_error ("Operation failed: " ++ e)))
    TahliaBridge.preserve_context opb wb
  /\
  preserved_run TahliaCore.capture_context TahliaCore.restore_context
    (fun _ w2 => w2) TahliaCore.preserve_context opc wc.
Proof.
  intros Hb Hc. split.
  - apply bridge_preserve_context_enabled. exact Hb.
  - apply core_preserve_context_enabled. exact Hc.
Qed.

Lemma preserve_context_when_enabled_witness :
  preserved_run TahliaBridge.capture_context TahliaBridge.restore_context
    (fun e => with_self (TahliaBridge.with_last_error ("Operation failed: " ++ e)))
    TahliaBridge.preserve_context select_C_then_fail (bridge_world two_selected)
  /\
  preserved_run TahliaCore.capture_context TahliaCore.restore_context
    (fun _ w2 => w2) TahliaCore.preserve_context select_C_then_fail
    (core_world two_selected).
Proof.
  apply (preserve_context_when_enabled select_C_then_fail (bridge_world two_selected)
           select_C_then_fail (core_world two_selected)); reflexivity.
Defined.

(** C2.  After [set_context_preservation(False)], an operation that
    raises makes [TahliaCore.preserve_context] raise the same exception
    to its caller, where [TahliaBridge.preserve_context] returns
    [False]. *)
Theorem core_preserve_context_disabled_raises :
  (exists w', TahliaCore.preserve_context (raise "import failed")
                (core_off two_selected) = (Raised "import failed", w'))
  /\
  (exists w', TahliaBridge.preserve_context (raise "import failed")
                (bridge_off two_selected) = (Returned false, w')).
Proof. split; eexists; reflexivity. Qed.

(** C3, as stated, fails.  On a snapshot whose selection is empty
    [TahliaBridge.restore_context] returns [True] and has not cleared
    the selection: "B" is still selected, and it is not in the
    snapshot. *)
Lemma bridge_restore_context_empty_selection :
  exists w',
    TahliaBridge.restore_context snap_nothing_selected
      (bridge_world only_B_selected) = (Returned true, w') /\
    bpy.selected_names (host w') = ["B"] /\
    selected_objects snap_nothing_selected = Some [].
Proof. eexists. repeat split. Qed.

(** C3, amended.  [TahliaBridge.restore_context], on a snapshot whose
    list under ['selected_objects'] is not empty, when it returns
    [True]: the selection has been cleared and the selected names are
    exactly the names of the snapshot that are in [bpy.data.objects],
    the others having been skipped; the objects themselves are the same.
    On a snapshot with an empty list, or none, the select flags are
    left as they were.  It returns [True] exactly when none of its five
    steps raises, which is so when the host raises on none of
    [restore_steps]. *)
Theorem bridge_restore_context_selection (c : Context) (w : TahliaBridge.W) :
  (forall sel w',
     selected_objects c = Some sel -> sel <> [] ->
     TahliaBridge.restore_context c w = (Returned true, w') ->
     (forall n, In n (bpy.selected_names (host w')) <->
                In n sel /\ bpy.has_object n (host w) = true) /\
     map bpy.ob_name (bpy.data_objects (host w')) =
     map bpy.ob_name (bpy.data_objects (host w)))
  /\
  (selected_objects c = None \/ selected_objects c = Some [] ->
   forall r w', TahliaBridge.restore_context c w = (r, w') ->
                bpy.data_objects (host w') = bpy.data_objects (host w))
  /\
  (forall w',
     TahliaBridge.restore_context c w = (Returned true, w') <->
     exists w1 w2 w3 w4,
       restore_active_object c w = (Returned tt, w1) /\
       TahliaBridge.restore_selected_objects c w1 = (Returned tt, w2) /\
       restore_mode c w2 = (Returned tt, w3) /\
       TahliaBridge._restore_viewport_settings
         (get_or (viewport_settings c) empty_settings) w3 = (Returned tt, w4) /\
       TahliaBridge._restore_visible_collections
         (get_or (visible_collections c) []) w4 = (Returned tt, w'))
  /\
  (first_fault restore_steps (host w) = None ->
   exists w', TahliaBridge.restore_context c w = (Returned true, w')).
Proof.
  split; [| split; [| split]].
  - intros sel w' Hsel Hne E.
    pose proof (@bridge_restore_context_objects c sel w w' Hsel Hne E) as Hobj.
    unfold objects_of in Hobj. unfold bpy.selected_names, bpy.has_object.
    rewrite Hobj. split.
    + intros n. rewrite In_names_selected_select_all_named.
      rewrite names_selected_deselect_all.
      rewrite (has_name_ext n _ _ (names_deselect_all (bpy.data_objects (host w)))).
      simpl. tauto.
    + rewrite names_select_all_named. apply names_deselect_all.
  - intros Hc r w' E.
    apply (@bridge_restore_context_keeps_objects c) in E; [exact E |].
    destruct Hc as [-> | ->]; reflexivity.
  - intros w'. apply bridge_restore_context_true.
  - apply bridge_restore_context_succeeds.
Qed.

Lemma bridge_restore_context_selection_witness :
  exists w',
    TahliaBridge.restore_context snap_AB (bridge_world only_B_selected)
      = (Returned true, w') /\
    (forall n, In n (bpy.selected_names (host w')) <->
               In n ["A"; "B"] /\ bpy.has_object n only_B_selected = true).
Proof.
  destruct (bridge_restore_context_selection snap_AB (bridge_world only_B_selected))
    as (H1 & _ & _ & H4).
  destruct (H4 eq_refl) as (w' & E).
  exists w'. split; [exact E |].
  apply (H1 ["A"; "B"] w' eq_refl); [discriminate | exact E].
Defined.

(** C4, as stated, fails.  One read fails and the whole snapshot is
    lost, not that field alone: in [TahliaBridge] when
    [bpy.context.selected_objects] is missing, in [TahliaCore] when the
    space has no overlay, although the active object, the mode and the
    rest can be read (the bridge has them all on [no_viewport]). *)
Lemma capture_context_one_failure_loses_all :
  (exists w', TahliaBridge.capture_context (bridge_world no_selected_objects)
              = (Returned empty_context, w'))
  /\ api bpy.active_object (bridge_world no_selected_objects)
     = (Returned (Some "A"), bridge_world no_selected_objects)
  /\ TahliaCore.capture_context (core_world no_viewport)
     = (Returned empty_context, core_world no_viewport)
  /\ (exists c, TahliaBridge.capture_context (bridge_world no_viewport)
                = (Returned c, bridge_world no_viewport) /\
                selected_objects c = Some ["A"] /\
                active_object c = Some "A" /\
                viewport_settings c = Some empty_settings).
Proof.
  split; [eexists; reflexivity |].
  split; [reflexivity |].
  split; [reflexivity |].
  eexists. split; [reflexivity |]. repeat split.
Qed.

(** C4, amended.  [capture_context] never raises and leaves the
    instance (its [last_error] apart) and the host as they were, in
    both classes.
    - [TahliaBridge]: when the reads of the selected objects, the active
      object, the view layer name, the mode and the rendering flag all
      succeed, the snapshot has every key; a failed read under
      [_capture_viewport_settings], [_capture_visible_collections] or
      [_capture_custom_state] only shortens that one value (the settings
      read so far, [[]], [{}]).  When one of those five reads fails the
      result is [{}], and [last_error] says which.
    - [TahliaCore]: when one of those five reads fails the result is
      [{}]; when no read fails the snapshot has every key.  What the
      core returns when only a read of the viewport settings or of the
      collections fails is not part of this statement. *)
Theorem capture_context_total (wb : TahliaBridge.W) (wc : TahliaCore.W) :
  TahliaBridge.capture_context wb =
    match first_fault bridge_plain_reads (host wb) with
    | Some e =>
        (Returned empty_context,
         with_self (TahliaBridge.with_last_error
                      ("Failed to capture context: " ++ e)) wb)
    | None => (Returned (bridge_snapshot_of (host wb)), wb)
    end
  /\
  (exists c, TahliaCore.capture_context wc = (Returned c, wc))
  /\
  (forall e, first_fault bridge_plain_reads (host wc) = Some e ->
             TahliaCore.capture_context wc = (Returned empty_context, wc))
  /\
  (core_fault (host wc) = None ->
   TahliaCore.capture_context wc = (Returned (core_snapshot_of (host wc)), wc)).
Proof.
  split; [apply bridge_capture_context_run |].
  rewrite core_capture_context_run.
  split; [| split].
  - destruct (core_fault (host wc)); eexists; reflexivity.
  - intros e He. apply core_fault_plain_reads in He.
    destruct (core_fault (host wc)); [reflexivity | contradiction].
  - intros ->. reflexivity.
Qed.

Lemma capture_context_total_witness :
  TahliaCore.capture_context (core_world no_selected_objects)
    = (Returned empty_context, core_world no_selected_objects)
  /\
  TahliaCore.capture_context (core_world two_selected)
    = (Returned (core_snapshot_of two_selected), core_world two_selected).
Proof.
  destruct (capture_context_total (bridge_world two_selected)
              (core_world no_selected_objects)) as (_ & _ & H & _).
  destruct (capture_context_total (bridge_world two_selected)
              (core_world two_selected)) as (_ & _ & _ & H').
  split.
  - eapply H. reflexivity.
  - apply H'. reflexivity.
Defined.

(** C5.  In both classes [push_context] never raises; it returns [True]
    exactly when the depth is below [max_context_stack_size], and then
    the depth has grown by one; when it returns [False] (the depth is at
    the limit or above) the instance and the host are as they were:
    nothing was captured.  So [n] calls in a row return [True] as long
    as the depth is below the limit and [False] from then on, and leave
    the depth at the limit, or where it was if it was already beyond. *)
Theorem push_context_depth
    (wb : TahliaBridge.W) (wc : TahliaCore.W) (n : nat) :
  (exists b wb',
     TahliaBridge.push_context wb = (Returned b, wb') /\
     (b = true <-> (bridge_depth wb < bridge_limit wb)%Z) /\
     (b = true -> bridge_depth wb' = (bridge_depth wb + 1)%Z) /\
     (b = false -> wb' = wb))
  /\
  (exists b wc',
     TahliaCore.push_context wc = (Returned b, wc') /\
     (b = true <-> (core_depth wc < core_limit wc)%Z) /\
     (b = true -> core_depth wc' = (core_depth wc + 1)%Z) /\
     (b = false -> wc' = wc))
  /\
  (exists wb',
     push_many TahliaBridge.push_context n wb =
       (Returned (map (fun k => (bridge_depth wb + Z.of_nat k <? bridge_limit wb)%Z)
                      (seq 0 n)), wb') /\
     bridge_depth wb' =
       Z.max (bridge_depth wb)
             (Z.min (bridge_depth wb + Z.of_nat n) (bridge_limit wb)))
  /\
  (exists wc',
     push_many TahliaCore.push_context n wc =
       (Returned (map (fun k => (core_depth wc + Z.of_nat k <? core_limit wc)%Z)
                      (seq 0 n)), wc') /\
     core_depth wc' =
       Z.max (core_depth wc)
             (Z.min (core_depth wc + Z.of_nat n) (core_limit wc))).
Proof.
  split; [apply bridge_push_context_result |].
  split; [apply core_push_context_result |].
  split; [apply bridge_push_many | apply core_push_many].
Qed.

(** C6.  In both classes [pop_context] on an empty stack returns [False]
    and changes nothing, neither the instance nor the host; on a stack
    [st ++ [c]] it is [restore_context c] run with the stack cut back to
    [st], so it returns what that call returns. *)
Theorem pop_context_restores_top (wb : TahliaBridge.W) (wc : TahliaCore.W) :
  (TahliaBridge.context_stack (self wb) = [] ->
   TahliaBridge.pop_context wb = (Returned false, wb))
  /\
  (forall st c,
     TahliaBridge.context_stack (self wb) = (st ++ [c])%list ->
     TahliaBridge.pop_context wb =
     TahliaBridge.restore_context c
       (with_self (TahliaBridge.with_context_stack st) wb))
  /\
  (TahliaCore.context_stack (self wc) = [] ->
   TahliaCore.pop_context wc = (Returned false, wc))
  /\
  (forall st c,
     TahliaCore.context_stack (self wc) = (st ++ [c])%list ->
     TahliaCore.pop_context wc =
     TahliaCore.restore_context c
       (with_self (TahliaCore.with_context_stack st) wc)).
Proof.
  repeat split.
  - apply bridge_pop_context_empty.
  - intros st c. apply bridge_pop_context_top.
  - apply core_pop_context_empty.
  - intros st c. apply core_pop_context_top.
Qed.

Lemma pop_context_restores_top_witness :
  TahliaBridge.pop_context (bridge_with_stack [] two_selected)
    = (Returned false, bridge_with_stack [] two_selected)
  /\
  TahliaBridge.pop_context (bridge_with_stack [empty_context; snap_AB] two_selected)
    = TahliaBridge.restore_context snap_AB
        (bridge_with_stack [empty_context] two_selected)
  /\
  TahliaCore.pop_context (core_with_stack [] two_selected)
    = (Returned false, core_with_stack [] two_selected)
  /\
  TahliaCore.pop_context (core_with_stack [empty_context; snap_AB] two_selected)
    = TahliaCore.restore_context snap_AB
        (core_with_stack [empty_context] two_selected).
Proof.
  destruct (pop_context_restores_top (bridge_with_stack [] two_selected)
              (core_with_stack [] two_selected)) as (Hb & _ & Hc & _).
  destruct (pop_context_restores_top
              (bridge_with_stack [empty_context; snap_AB] two_selected)
              (core_with_stack [empty_context; snap_AB] two_selected))
    as (_ & Hb' & _ & Hc').
  split; [apply Hb; reflexivity |].
  split; [apply (Hb' [empty_context] snap_AB); reflexivity |].
  split; [apply Hc; reflexivity |].
  apply (Hc' [empty_context] snap_AB); reflexivity.
Defined.

(** C7.  [TahliaCore.restore_context] returns [True] and has assigned no
    [hide_viewport]: "Props", which is not in the snapshot's visible
    collections, is still shown, and "Hidden", which is, still hidden.
    [TahliaBridge.restore_context] on the same input has set both. *)
Theorem core_restore_context_ignores_collections :
  (exists w',
     TahliaCore.restore_context snap_hidden_shown (core_world props_shown)
       = (Returned true, w') /\
     bpy.children (host w') = [coll "Props" false; coll "Hidden" true])
  /\
  (exists w',
     TahliaBridge.restore_context snap_hidden_shown (bridge_world props_shown)
       = (Returned true, w') /\
     bpy.children (host w') = [coll "Props" true; coll "Hidden" false]).
Proof. split; eexists; split; reflexivity. Qed.




(** C9.  In both classes [set_max_context_stack_size m] assigns the
    limit and nothing else: the stack, the other attributes and the host
    are as before, whatever [m] is.  After it [push_context] returns
    [False] exactly when the depth is at [m] or above, and
    [pop_context] and [clear_context_stack] do what they would have done
    without the change of limit. *)
Theorem set_max_context_stack_size_keeps_stack
    (m : Z) (wb : TahliaBridge.W) (wc : TahliaCore.W) :
  let gb := with_self (TahliaBridge.with_max_context_stack_size m) in
  let gc := with_self (TahliaCore.with_max_context_stack_size m) in
  (TahliaBridge.set_max_context_stack_size m wb = (Returned tt, gb wb) /\
   TahliaBridge.context_stack (self (gb wb)) = TahliaBridge.context_stack (self wb) /\
   host (gb wb) = host wb /\
   (exists b w', TahliaBridge.push_context (gb wb) = (Returned b, w') /\
                 (b = false <-> (m <= bridge_depth wb)%Z)) /\
   TahliaBridge.pop_context (gb wb)
     = (let (r, w') := TahliaBridge.pop_context wb in (r, gb w')) /\
   TahliaBridge.clear_context_stack (gb wb)
     = (let (r, w') := TahliaBridge.clear_context_stack wb in (r, gb w')))
  /\
  (TahliaCore.set_max_context_stack_size m wc = (Returned tt, gc wc) /\
   TahliaCore.context_stack (self (gc wc)) = TahliaCore.context_stack (self wc) /\
   host (gc wc) = host wc /\
   (exists b w', TahliaCore.push_context (gc wc) = (Returned b, w') /\
                 (b = false <-> (m <= core_depth wc)%Z)) /\
   TahliaCore.pop_context (gc wc)
     = (let (r, w') := TahliaCore.pop_context wc in (r, gc w')) /\
   TahliaCore.clear_context_stack (gc wc)
     = (let (r, w') := TahliaCore.clear_context_stack wc in (r, gc w'))).
Proof.
  intros gb gc. split.
  - repeat split; try reflexivity.
    + destruct (bridge_push_context_result (gb wb)) as (b & w' & Hp & Hiff & _).
      exists b, w'. split; [exact Hp |].
      change (bridge_depth (gb wb)) with (bridge_depth wb) in Hiff.
      change (bridge_limit (gb wb)) with m in Hiff.
      destruct b; split; intros H; try discriminate; try reflexivity.
      * destruct Hiff as [Hiff _]. specialize (Hiff eq_refl). lia.
      * lia.
    + apply bridge_pop_context_commutes.
  - repeat split; try reflexivity.
    + destruct (core_push_context_result (gc wc)) as (b & w' & Hp & Hiff & _).
      exists b, w'. split; [exact Hp |].
      change (core_depth (gc wc)) with (core_depth wc) in Hiff.
      change (core_limit (gc wc)) with m in Hiff.
      destruct b; split; intros H; try discriminate; try reflexivity.
      * destruct Hiff as [Hiff _]. specialize (Hiff eq_refl). lia.
      * lia.
    + apply core_pop_context_commutes.
Qed.

(** C10.  In both classes:
    - the snapshot [capture_context] returns when its reads succeed has
      the name of the active object under ['active_object'], and [""]
      when there is no active object; when a read fails the bridge
      returns [{}], which has no ['active_object'], and the core a
      snapshot whose ['active_object'] is absent or as above, never
      another name;
    - on a snapshot whose ['active_object'] is [""] or absent,
      [restore_context] leaves the host's active object as it was;
    - if [restore_context] changes the active object at all, then the
      snapshot holds a non-empty name under ['active_object'], an object
      of that name is in [bpy.data.objects], and it is the new active
      object. *)
Theorem restore_context_empty_active_object
    (c : Context) (wb : TahliaBridge.W) (wc : TahliaCore.W) :
  (* capture *)
  (exists s w',
     TahliaBridge.capture_context wb = (Returned s, w') /\
     active_object s =
     match first_fault bridge_plain_reads (host wb) with
     | None => Some (match bpy.active (host wb) with
                     | Some n => n
                     | None => ""
                     end)
     | Some _ => None
     end) /\
  (exists s w',
     TahliaCore.capture_context wc = (Returned s, w') /\
     (active_object s = None \/
      active_object s = Some (match bpy.active (host wc) with
                              | Some n => n
                              | None => ""
                              end)) /\
     (core_fault (host wc) = None ->
      active_object s = Some (match bpy.active (host wc) with
                              | Some n => n
                              | None => ""
                              end))) /\
  (* restore, empty or absent name *)
  (active_object c = None \/ active_object c = Some "" ->
   forall r w', TahliaBridge.restore_context c wb = (r, w') ->
                bpy.active (host w') = bpy.active (host wb)) /\
  (active_object c = None \/ active_object c = Some "" ->
   forall r w', TahliaCore.restore_context c wc = (r, w') ->
                bpy.active (host w') = bpy.active (host wc)) /\
  (* restore, the only way the active object changes *)
  (forall r w', TahliaBridge.restore_context c wb = (r, w') ->
                bpy.active (host w') <> bpy.active (host wb) ->
                exists n, active_object c = Some n /\ n <> "" /\
                          bpy.has_object n (host wb) = true /\
                          bpy.active (host w') = Some n) /\
  (forall r w', TahliaCore.restore_context c wc = (r, w') ->
                bpy.active (host w') <> bpy.active (host wc) ->
                exists n, active_object c = Some n /\ n <> "" /\
                          bpy.has_object n (host wc) = true /\
                          bpy.active (host w') = Some n).
Proof.
  split; [| split; [| split; [| split; [| split]]]].
  - rewrite bridge_capture_context_run.
    destruct (first_fault bridge_plain_reads (host wb)); eexists _, _;
      (split; reflexivity).
  - rewrite core_capture_context_run.
    destruct (core_fault (host wc)); eexists _, _;
      (split; [reflexivity |]); split.
    + left. reflexivity.
    + discriminate.
    + right. reflexivity.
    + intros _. reflexivity.
  - intros Hc r w' E. apply truthy_str_empty in Hc.
    apply bridge_restore_context_active in E.
    exact (@active_unchanged_when_falsy _ c wb w'
             (fun n => bpy.has_object n (host wb) = true) Hc E).
  - intros Hc r w' E. apply truthy_str_empty in Hc.
    apply core_restore_context_active in E.
    exact (@active_unchanged_when_falsy _ c wc w'
             (fun n => bpy.has_object n (host wc) = true) Hc E).
  - intros r w' E Hne.
    apply bridge_restore_context_active in E.
    destruct E as [H | H]; [contradiction | exact H].
  - intros r w' E Hne.
    apply core_restore_context_active in E.
    destruct E as [H | H]; [contradiction | exact H].
Qed.

Lemma restore_context_empty_active_object_witness :
  (exists s w', TahliaBridge.capture_context (bridge_world no_viewport_no_active)
                  = (Returned s, w') /\
                active_object s = Some "") /\
  (exists s w', TahliaCore.capture_context
                  (core_world (bpy.with_active None two_selected))
                  = (Returned s, w') /\
                active_object s = Some "") /\
  (forall r w', TahliaBridge.restore_context snap_nothing_selected
                  (bridge_world only_B_selected) = (r, w') ->
                bpy.active (host w') = Some "B") /\
  (forall r w', TahliaCore.restore_context snap_nothing_selected
                  (core_world only_B_selected) = (r, w') ->
                bpy.active (host w') = Some "B").
Proof.
  destruct (restore_context_empty_active_object snap_nothing_selected
              (bridge_world no_viewport_no_active)
              (core_world (bpy.with_active None two_selected)))
    as (H1 & H2 & _).
  destruct (restore_context_empty_active_object snap_nothing_selected
              (bridge_world only_B_selected) (core_world only_B_selected))
    as (_ & _ & H3 & H4 & _).
  split; [exact H1 |].
  split.
  - destruct H2 as (s & w' & E & _ & H). exists s, w'.
    split; [exact E | apply H; reflexivity].
  - split; [apply H3; right; reflexivity | apply H4; right; reflexivity].
Defined.

(** * Scenarios *)

(** With [max_context_stack_size = 2], three pushes in a row return
    [True], [True], [False], and the depth stays at 2. *)
Example three_pushes_limit_two :
  exists w',
    (TahliaBridge.set_max_context_stack_size 2 ;;
     push_many TahliaBridge.push_context 3) (bridge_world two_selected)
      = (Returned [true; true; false], w') /\
    bridge_depth w' = 2%Z.
Proof. eexists. split; vm_compute; reflexivity. Qed.

(** Empty stack, "A" and "B" selected, "A" active.  A push, then an
    operation that selects only "C" and makes it active, then a pop:
    "A" and "B" are selected again, "A" is active, the pop returns
    [True] and the stack is empty. *)
Example push_operate_pop :
  exists w',
    (pushed <- TahliaBridge.push_context ;;
     api bpy.select_all_DESELECT ;;
     api (bpy.select_set_True "C") ;;
     api (bpy.set_active "C") ;;
     popped <- TahliaBridge.pop_context ;;
     ret (pushed, popped)) (bridge_world two_selected)
      = (Returned (true, true), w') /\
    bpy.selected_names (host w') = ["A"; "B"] /\
    bpy.active (host w') = Some "A" /\
    bridge_depth w' = 0%Z.
Proof. eexists. split; [vm_compute; reflexivity | repeat split]. Qed.

(** The snapshot names "Tree1", which the host no longer has: the
    restore skips it, selects "A", and returns [True]. *)
Example restore_skips_deleted_object :
  exists w',
    TahliaBridge.restore_context
      {| selected_objects := Some ["Tree1"; "A"]; active_object := Some "Tree1";
         view_layer := Some "ViewLayer"; mode := Some "OBJECT";
         viewport_settings := Some empty_settings;
         visible_collections := Some ["Props"]; is_rendering := Some false;
         custom_state := Some [] |}
      (bridge_world only_B_selected) = (Returned true, w') /\
    bpy.selected_names (host w') = ["A"] /\
    bpy.active (host w') = Some "B".
Proof. eexists. split; [vm_compute; reflexivity | repeat split]. Qed.

(** An operation that changes the selection and then raises: the
    result is [False] and the selection is that of before the call. *)
Example preserve_context_failed_operation :
  exists w',
    TahliaBridge.preserve_context select_C_then_fail (bridge_world two_selected)
      = (Returned false, w') /\
    bpy.selected_names (host w') = bpy.selected_names two_selected /\
    bpy.active (host w') = bpy.active two_selected /\
    TahliaBridge.last_error (self w') = "Operation failed: import failed".
Proof. eexists. split; [vm_compute; reflexivity | repeat split]. Qed.

(** * Further properties: lemmas *)

(** ** [restore_context] in closed form *)

Lemma with_active_same b : bpy.with_active (bpy.active b) b = b.
Proof. destruct b; reflexivity. Qed.

Lemma with_data_objects_same b : bpy.with_data_objects (bpy.data_objects b) b = b.
Proof. destruct b; reflexivity. Qed.

Lemma with_mode_same b : bpy.with_mode (bpy.mode b) b = b.
Proof. destruct b; reflexivity. Qed.

Lemma with_shading_type_same b :
  bpy.with_shading_type (bpy.shading_type b) b = b.
Proof. destruct b; reflexivity. Qed.

Lemma with_children_same b : bpy.with_children (bpy.children b) b = b.
Proof. destruct b; reflexivity. Qed.

Lemma no_fault_true m b : no_fault m b = true <-> bpy.fault m b = None.
Proof. unfold no_fault. destruct (bpy.fault m b); split; congruence. Qed.

Lemma no_fault_false m b :
  no_fault m b = false -> exists e, bpy.fault m b = Some e.
Proof.
  unfold no_fault. destruct (bpy.fault m b) as [e |]; [eauto | discriminate].
Qed.

(** The first block, exactly. *)
Lemma restore_active_object_run Self (s : Self) c b :
  (active_step_ok c b = true ->
   restore_active_object c {| self := s; host := b |} =
   (Returned tt, {| self := s; host := bpy.with_active (restored_active c b) b |}))
  /\
  (active_step_ok c b = false ->
   exists e, restore_active_object c {| self := s; host := b |} =
             (Raised e, {| self := s; host := b |})).
Proof.
  unfold active_step_ok, restored_active, restore_active_object, when, bind,
    api, bpy.data_objects_contains, bpy.set_active, bpy.read, bpy.write, ret,
    no_fault.
  destruct (truthy_str (active_object c)); simpl.
  - destruct (bpy.fault bpy.DataObjects b) as [e1 |]; simpl.
    + split; [discriminate | eauto].
    + destruct (bpy.has_object (get_or (active_object c) "") b); simpl.
      * destruct (bpy.fault bpy.SetActive b) as [e2 |]; simpl;
          split; try discriminate; eauto.
      * rewrite with_active_same. split; [reflexivity | discriminate].
  - rewrite with_active_same. split; [reflexivity | discriminate].
Qed.

Lemma select_loop_ok_tail n names b :
  bpy.fault bpy.DataObjects b = None ->
  (bpy.has_object n b = true -> bpy.fault bpy.SelectSet b = None) ->
  select_loop_ok names b = select_loop_ok (n :: names) b.
Proof.
  intros F1 F2. unfold select_loop_ok, no_fault. rewrite F1. simpl.
  destruct (bpy.has_object n b) eqn:Hn; simpl.
  - rewrite (F2 eq_refl). simpl. destruct names; [reflexivity |].
    simpl. rewrite orb_true_r. reflexivity.
  - destruct names; reflexivity.
Qed.

Lemma existsb_has_object_objects names l b :
  map bpy.ob_name l = map bpy.ob_name (bpy.data_objects b) ->
  existsb (fun n => bpy.has_object n (bpy.with_data_objects l b)) names =
  existsb (fun n => bpy.has_object n b) names.
Proof.
  intros E. induction names as [| n names IH]; simpl; [reflexivity |].
  rewrite IH. f_equal. unfold bpy.has_object. simpl.
  apply has_name_ext. exact E.
Qed.

Lemma select_loop_ok_objects names l b :
  map bpy.ob_name l = map bpy.ob_name (bpy.data_objects b) ->
  select_loop_ok names (bpy.with_data_objects l b) = select_loop_ok names b.
Proof.
  intros E. unfold select_loop_ok. destruct names as [| n names]; [reflexivity |].
  rewrite (existsb_has_object_objects (n :: names) l b E). reflexivity.
Qed.

(** The selection loop, exactly. *)
Lemma select_loop_run Self (s : Self) names : forall b,
  (select_loop_ok names b = true ->
   select_loop names {| self := s; host := b |} =
   (Returned tt,
    {| self := s;
       host := bpy.with_data_objects
                 (select_all_named names (bpy.data_objects b)) b |}))
  /\
  (select_loop_ok names b = false ->
   exists e w', select_loop names {| self := s; host := b |} = (Raised e, w')).
Proof.
  induction names as [| n names IH]; intros b.
  - split; [| discriminate]. intros _. unfold select_all_named. simpl.
    rewrite with_data_objects_same. reflexivity.
  - assert (Hrun : select_loop (n :: names) {| self := s; host := b |} =
                   match bpy.fault bpy.DataObjects b with
                   | Some e => (Raised e, {| self := s; host := b |})
                   | None =>
                       if bpy.has_object n b
                       then match bpy.fault bpy.SelectSet b with
                            | Some e => (Raised e, {| self := s; host := b |})
                            | None =>
                                select_loop names
                                  {| self := s;
                                     host := bpy.with_data_objects
                                               (bpy.select_named n (bpy.data_objects b)) b |}
                            end
                       else select_loop names {| self := s; host := b |}
                   end).
    { rewrite select_loop_cons. unfold bind at 1. rewrite select_step_run.
      destruct (bpy.fault bpy.DataObjects b); [reflexivity |].
      destruct (bpy.has_object n b); [| reflexivity].
      destruct (bpy.fault bpy.SelectSet b); reflexivity. }
    rewrite Hrun. clear Hrun.
    destruct (bpy.fault bpy.DataObjects b) as [e1 |] eqn:F1.
    { split; [| intros _; eexists _, _; reflexivity].
      unfold select_loop_ok, no_fault. rewrite F1. discriminate. }
    destruct (bpy.has_object n b) eqn:Hn.
    + destruct (bpy.fault bpy.SelectSet b) as [e2 |] eqn:F2.
      { split; [| intros _; eexists _, _; reflexivity].
        unfold select_loop_ok, no_fault.
        rewrite F1, F2. simpl. rewrite Hn. discriminate. }
      set (b1 := bpy.with_data_objects (bpy.select_named n (bpy.data_objects b)) b).
      assert (Hok : select_loop_ok (n :: names) b = select_loop_ok names b1).
      { rewrite <- (select_loop_ok_tail n names b F1 (fun _ => F2)).
        unfold b1. rewrite select_loop_ok_objects; [reflexivity |].
        apply names_select_named. }
      rewrite Hok. destruct (IH b1) as [IH1 IH2]. split.
      * intros H. rewrite (IH1 H). reflexivity.
      * exact IH2.
    + assert (Hok : select_loop_ok (n :: names) b = select_loop_ok names b).
      { symmetry. apply select_loop_ok_tail; [exact F1 |].
        rewrite Hn. discriminate. }
      rewrite Hok. destruct (IH b) as [IH1 IH2]. split.
      * intros H. rewrite (IH1 H). unfold select_all_named. simpl.
        rewrite (select_named_absent n (bpy.data_objects b) Hn). reflexivity.
      * exact IH2.
Qed.

(** The selection block of the bridge, exactly. *)
Lemma bridge_restore_selected_objects_exact s c b :
  (bridge_select_step_ok c b = true ->
   TahliaBridge.restore_selected_objects c {| self := s; host := b |} =
   (Returned tt,
    {| self := s;
       host := bpy.with_data_objects (restored_objects c (bpy.data_objects b)) b |}))
  /\
  (bridge_select_step_ok c b = false ->
   exists e w', TahliaBridge.restore_selected_objects c {| self := s; host := b |}
                = (Raised e, w')).
Proof.
  unfold bridge_select_step_ok, restored_objects,
    TahliaBridge.restore_selected_objects, when.
  destruct (truthy_list (selected_objects c)); simpl.
  - unfold bind, api, bpy.select_all_DESELECT, bpy.write, no_fault.
    simpl. destruct (bpy.fault bpy.SelectAll b) as [e |]; simpl.
    + split; [discriminate | intros _; eexists _, _; reflexivity].
    + set (b1 := bpy.with_data_objects (bpy.deselect_all (bpy.data_objects b)) b).
      assert (Hok : select_loop_ok (get_or (selected_objects c) []) b1 =
                    select_loop_ok (get_or (selected_objects c) []) b).
      { apply select_loop_ok_objects. apply names_deselect_all. }
      rewrite <- Hok.
      destruct (select_loop_run s (get_or (selected_objects c) []) b1) as [H1 H2].
      split; [| exact H2]. intros H. rewrite (H1 H). reflexivity.
  - rewrite with_data_objects_same. split; [reflexivity | discriminate].
Qed.

(** The mode block, exactly. *)
Lemma restore_mode_run Self (s : Self) c b :
  (mode_step_ok c b = true ->
   restore_mode c {| self := s; host := b |} =
   (Returned tt,
    {| self := s; host := bpy.with_mode (restored_mode c b (bpy.active b)) b |}))
  /\
  (mode_step_ok c b = false ->
   exists e, restore_mode c {| self := s; host := b |} =
             (Raised e, {| self := s; host := b |})).
Proof.
  unfold mode_step_ok, restored_mode, restore_mode, when, bind, api,
    bpy.active_object, bpy.mode_set, bpy.read, bpy.write, try_except, ret,
    no_fault.
  destruct (truthy_str (mode c)); simpl.
  - destruct (bpy.fault bpy.ActiveObject b) as [e1 |]; simpl.
    + split; [discriminate | eauto].
    + split; [| discriminate]. intros _.
      destruct (bpy.active b); simpl.
      * destruct (bpy.fault bpy.ModeSet b); simpl;
          [rewrite with_mode_same |]; reflexivity.
      * rewrite with_mode_same. reflexivity.
  - split; [| discriminate]. intros _.
    destruct (bpy.active b); rewrite with_mode_same; reflexivity.
Qed.

Lemma bridge_restore_viewport_settings_run s c b :
  TahliaBridge._restore_viewport_settings
    (get_or (viewport_settings c) empty_settings) {| self := s; host := b |} =
  (Returned tt,
   {| self := s; host := bpy.with_shading_type (restored_shading c b) b |}).
Proof.
  unfold TahliaBridge._restore_viewport_settings, restored_shading, try_except,
    bind, api, bpy.hasattr_shading, bpy.set_shading_type, bpy.write, ret.
  simpl.
  destruct (bpy.shading_type b) as [ty |] eqn:Hs;
    destruct (shading (get_or (viewport_settings c) empty_settings)) as [sh |];
    simpl;
    try destruct (bpy.fault bpy.SetShadingType b); simpl;
    rewrite <- ?Hs, ?with_shading_type_same; reflexivity.
Qed.

Lemma hide_loop_faulty cols cs s b e : forall i,
  bpy.fault bpy.SetHideViewport b = Some e ->
  TahliaBridge.hide_loop i cols cs {| self := s; host := b |} =
  match cols with
  | [] => (Returned tt, {| self := s; host := b |})
  | _ :: _ => (Raised e, {| self := s; host := b |})
  end.
Proof.
  intros i F. destruct cols as [| col cols]; simpl; [reflexivity |].
  unfold bind, api, bpy.set_hide_viewport, bpy.write. simpl. rewrite F.
  reflexivity.
Qed.

Lemma bridge_restore_visible_collections_exact s c b :
  TahliaBridge._restore_visible_collections
    (get_or (visible_collections c) []) {| self := s; host := b |} =
  (Returned tt,
   {| self := s; host := bpy.with_children (restored_children c b) b |}).
Proof.
  unfold restored_children.
  destruct (bpy.fault bpy.Children b) as [e1 |] eqn:F1.
  - unfold TahliaBridge._restore_visible_collections, try_except, bind, api,
      bpy.get_children, bpy.read, ret. simpl. rewrite F1.
    rewrite with_children_same. reflexivity.
  - destruct (bpy.fault bpy.SetHideViewport b) as [e2 |] eqn:F2.
    + unfold TahliaBridge._restore_visible_collections, try_except, bind at 1,
        api at 1, bpy.get_children, bpy.read, ret. simpl. rewrite F1.
      rewrite (hide_loop_faulty (bpy.children b) _ s b 0 F2).
      rewrite with_children_same. destruct (bpy.children b); reflexivity.
    + apply bridge_restore_visible_collections_run; assumption.
Qed.

Lemma bridge_restore_selected_objects_keeps_self c :
  keeps (@self _) (TahliaBridge.restore_selected_objects c).
Proof. keeps_solve. Qed.

(** [TahliaBridge.restore_context], exactly: it returns
    [bridge_restore_ok]; when that is [True] the host is
    [bridge_restored] and the instance is untouched, when it is [False]
    the instance has the failure under [last_error] and is the same
    otherwise. *)
Lemma bridge_restore_context_exact c s b :
  exists w',
    TahliaBridge.restore_context c {| self := s; host := b |} =
      (Returned (bridge_restore_ok c b), w') /\
    (bridge_restore_ok c b = true ->
     w' = {| self := s; host := bridge_restored c b |}) /\
    (bridge_restore_ok c b = false ->
     exists e, self w' =
               TahliaBridge.with_last_error ("Failed to restore context: " ++ e) s).
Proof.
  unfold TahliaBridge.restore_context, bridge_restore_ok.
  rewrite try_except_bind.
  destruct (restore_active_object_run s c b) as [Ha1 Ha2].
  destruct (active_step_ok c b) eqn:Ha.
  2:{ destruct (Ha2 eq_refl) as (e & E). rewrite E.
      eexists. split; [reflexivity |]. split; [discriminate |].
      intros _. exists e. reflexivity. }
  rewrite (Ha1 eq_refl). clear Ha1 Ha2.
  set (b1 := bpy.with_active (restored_active c b) b).
  rewrite try_except_bind.
  destruct (bridge_restore_selected_objects_exact s c b1) as [Hs1 Hs2].
  change (bridge_select_step_ok c b1) with (bridge_select_step_ok c b) in Hs1, Hs2.
  destruct (bridge_select_step_ok c b) eqn:Hs.
  2:{ destruct (Hs2 eq_refl) as (e & w1 & E). rewrite E.
      assert (Hself : self w1 = s).
      { pose proof E as E'.
        apply (bridge_restore_selected_objects_keeps_self c) in E'. exact E'. }
      eexists. split; [reflexivity |]. split; [discriminate |].
      intros _. exists e. simpl. rewrite Hself. reflexivity. }
  rewrite (Hs1 eq_refl). clear Hs1 Hs2.
  set (b2 := bpy.with_data_objects (restored_objects c (bpy.data_objects b1)) b1).
  rewrite try_except_bind.
  destruct (restore_mode_run s c b2) as [Hm1 Hm2].
  change (mode_step_ok c b2) with (mode_step_ok c b) in Hm1, Hm2.
  destruct (mode_step_ok c b) eqn:Hm.
  2:{ destruct (Hm2 eq_refl) as (e & E). rewrite E.
      eexists. split; [reflexivity |]. split; [discriminate |].
      intros _. exists e. reflexivity. }
  rewrite (Hm1 eq_refl). clear Hm1 Hm2.
  set (b3 := bpy.with_mode (restored_mode c b2 (bpy.active b2)) b2).
  rewrite try_except_bind, bridge_restore_viewport_settings_run.
  set (b4 := bpy.with_shading_type (restored_shading c b3) b3).
  rewrite try_except_bind, bridge_restore_visible_collections_exact.
  eexists. split; [reflexivity |]. split; [| discriminate].
  intros _. reflexivity.
Qed.

Lemma core_restore_selected_objects_exact s c b :
  (core_select_step_ok c b = true ->
   TahliaCore.restore_selected_objects c {| self := s; host := b |} =
   (Returned tt,
    {| self := s;
       host := bpy.with_data_objects
                 (core_restored_objects c (bpy.data_objects b)) b |}))
  /\
  (core_select_step_ok c b = false ->
   exists e w', TahliaCore.restore_selected_objects c {| self := s; host := b |}
                = (Raised e, w')).
Proof.
  unfold core_select_step_ok, core_restored_objects,
    TahliaCore.restore_selected_objects, when.
  destruct (truthy_list (selected_objects c)); simpl.
  - apply select_loop_run.
  - rewrite with_data_objects_same. split; [reflexivity | discriminate].
Qed.

Lemma core_restore_viewport_settings_run s c b :
  (core_viewport_step_ok c b = true ->
   TahliaCore.restore_viewport_settings c {| self := s; host := b |} =
   (Returned tt,
    {| self := s; host := bpy.with_shading_type (core_restored_shading c b) b |}))
  /\
  (core_viewport_step_ok c b = false ->
   exists e, TahliaCore.restore_viewport_settings c {| self := s; host := b |}
             = (Raised e, {| self := s; host := b |})).
Proof.
  unfold core_viewport_step_ok, core_restored_shading, core_shading_to_set,
    has_shading_attr, TahliaCore.restore_viewport_settings, when, bind, api,
    bpy.hasattr_shading, bpy.set_shading_type, bpy.write, ret, no_fault.
  simpl.
  destruct (bpy.shading_type b) as [ty |] eqn:Hs; simpl.
  - destruct (truthy_settings (viewport_settings c)); simpl.
    + destruct (shading (get_or (viewport_settings c) empty_settings)); simpl.
      * destruct (bpy.fault bpy.SetShadingType b); simpl.
        -- split; [discriminate | intros _; eexists; reflexivity].
        -- split; [reflexivity | discriminate].
      * rewrite <- Hs, with_shading_type_same.
        split; [reflexivity | discriminate].
    + rewrite <- Hs, with_shading_type_same.
      split; [reflexivity | discriminate].
  - rewrite <- Hs, with_shading_type_same. split; [reflexivity | discriminate].
Qed.

Lemma core_restore_selected_objects_keeps_self c :
  keeps (@self _) (TahliaCore.restore_selected_objects c).
Proof. keeps_solve. Qed.

(** [TahliaCore.restore_context], exactly. *)
Lemma core_restore_context_exact c s b :
  exists w',
    TahliaCore.restore_context c {| self := s; host := b |} =
      (Returned (core_restore_ok c b), w') /\
    (core_restore_ok c b = true ->
     w' = {| self := s; host := core_restored c b |}) /\
    self w' = s.
Proof.
  unfold TahliaCore.restore_context, core_restore_ok.
  rewrite try_except_bind.
  destruct (restore_active_object_run s c b) as [Ha1 Ha2].
  destruct (active_step_ok c b) eqn:Ha.
  2:{ destruct (Ha2 eq_refl) as (e & E). rewrite E.
      eexists. split; [reflexivity |]. split; [discriminate | reflexivity]. }
  rewrite (Ha1 eq_refl). clear Ha1 Ha2.
  set (b1 := bpy.with_active (restored_active c b) b).
  rewrite try_except_bind.
  destruct (core_restore_selected_objects_exact s c b1) as [Hs1 Hs2].
  change (core_select_step_ok c b1) with (core_select_step_ok c b) in Hs1, Hs2.
  destruct (core_select_step_ok c b) eqn:Hs.
  2:{ destruct (Hs2 eq_refl) as (e & w1 & E). rewrite E.
      assert (Hself : self w1 = s).
      { pose proof E as E'.
        apply (core_restore_selected_objects_keeps_self c) in E'. exact E'. }
      eexists. split; [reflexivity |]. split; [discriminate | exact Hself]. }
  rewrite (Hs1 eq_refl). clear Hs1 Hs2.
  set (b2 := bpy.with_data_objects
               (core_restored_objects c (bpy.data_objects b1)) b1).
  rewrite try_except_bind.
  destruct (restore_mode_run s c b2) as [Hm1 Hm2].
  change (mode_step_ok c b2) with (mode_step_ok c b) in Hm1, Hm2.
  destruct (mode_step_ok c b) eqn:Hm.
  2:{ destruct (Hm2 eq_refl) as (e & E). rewrite E.
      eexists. split; [reflexivity |]. split; [discriminate | reflexivity]. }
  rewrite (Hm1 eq_refl). clear Hm1 Hm2.
  set (b3 := bpy.with_mode (restored_mode c b2 (bpy.active b2)) b2).
  rewrite try_except_bind.
  destruct (core_restore_viewport_settings_run s c b3) as [Hv1 Hv2].
  change (core_viewport_step_ok c b3) with (core_viewport_step_ok c b) in Hv1, Hv2.
  destruct (core_viewport_step_ok c b) eqn:Hv.
  2:{ destruct (Hv2 eq_refl) as (e & E). rewrite E.
      eexists. split; [reflexivity |]. split; [discriminate | reflexivity]. }
  rewrite (Hv1 eq_refl). clear Hv1 Hv2.
  eexists. split; [reflexivity |]. split; [| reflexivity].
  intros _. reflexivity.
Qed.

(** ** Hosts with the same names *)

Lemma deselect_all_names l :
  bpy.deselect_all l =
  map (fun n => {| bpy.ob_name := n; bpy.ob_select := false |})
      (map bpy.ob_name l).
Proof. unfold bpy.deselect_all. rewrite map_map. reflexivity. Qed.

Lemma deselect_all_ext l l' :
  map bpy.ob_name l = map bpy.ob_name l' ->
  bpy.deselect_all l = bpy.deselect_all l'.
Proof. intros E. rewrite !deselect_all_names, E. reflexivity. Qed.

Lemma restore_hidden_names cs l :
  map (restore_hidden cs) l =
  map (fun n => {| bpy.col_name := n; bpy.hide_viewport := negb (str_in n cs) |})
      (map bpy.col_name l).
Proof. rewrite map_map. reflexivity. Qed.

Lemma restore_hidden_ext cs l l' :
  map bpy.col_name l = map bpy.col_name l' ->
  map (restore_hidden cs) l = map (restore_hidden cs) l'.
Proof. intros E. rewrite !restore_hidden_names, E. reflexivity. Qed.

(** ** What [restore_context] leaves of the instance *)

Lemma bridge_restore_context_keeps_config c :
  keeps bridge_config (TahliaBridge.restore_context c).
Proof. unfold TahliaBridge.restore_context. keeps_solve. Qed.

Lemma core_restore_context_keeps_self c :
  keeps (@self _) (TahliaCore.restore_context c).
Proof. unfold TahliaCore.restore_context. keeps_solve. Qed.

(** ** [preserve_context] around an operation *)

Lemma fault_of_same_faults b b' m :
  bpy.faults b' = bpy.faults b -> bpy.fault m b' = bpy.fault m b.
Proof. unfold bpy.fault. intros ->. reflexivity. Qed.

Lemma first_fault_same_faults l b b' :
  bpy.faults b' = bpy.faults b -> first_fault l b' = first_fault l b.
Proof.
  intros E. induction l as [| m l IH]; simpl; [reflexivity |].
  rewrite (@fault_of_same_faults b b' m E), IH. reflexivity.
Qed.

Lemma bridge_restore_ok_no_faults c b :
  first_fault restore_steps b = None -> bridge_restore_ok c b = true.
Proof.
  intros Hno.
  destruct (@bridge_restore_context_succeeds c
              {| self := TahliaBridge.init; host := b |} Hno) as (w' & E).
  destruct (bridge_restore_context_exact c TahliaBridge.init b) as (w'' & E' & _).
  rewrite E in E'. inversion E'. reflexivity.
Qed.

(** The snapshot of [b], restored on a host [b2] that has the same
    objects and collections under the same names, gives back the select
    flags, the active object and the hide flags of [b]. *)
Lemma bridge_restored_snapshot b b2 a :
  NoDup (map bpy.ob_name (bpy.data_objects b)) ->
  NoDup (map bpy.col_name (bpy.children b)) ->
  bpy.fault bpy.Children b = None ->
  bpy.fault bpy.SetHideViewport b = None ->
  bpy.selected_names b <> [] ->
  bpy.active b = Some a -> a <> "" -> bpy.has_object a b = true ->
  map bpy.ob_name (bpy.data_objects b2) = map bpy.ob_name (bpy.data_objects b) ->
  map bpy.col_name (bpy.children b2) = map bpy.col_name (bpy.children b) ->
  bpy.faults b2 = bpy.faults b ->
  bpy.data_objects (bridge_restored (bridge_snapshot_of b) b2) = bpy.data_objects b /\
  bpy.active (bridge_restored (bridge_snapshot_of b) b2) = Some a /\
  bpy.children (bridge_restored (bridge_snapshot_of b) b2) = bpy.children b.
Proof.
  intros Hobj Hcol F1 F2 Hsel Hact Hne Hhas En Ec Ef.
  split; [| split].
  - change (restored_objects (bridge_snapshot_of b) (bpy.data_objects b2)
            = bpy.data_objects b).
    unfold restored_objects. simpl.
    destruct (bpy.selected_names b) as [| n sel] eqn:E; [contradiction |].
    rewrite <- E. rewrite (@deselect_all_ext _ _ En).
    apply reselect_selected. exact Hobj.
  - change (restored_active (bridge_snapshot_of b) b2 = Some a).
    unfold restored_active. simpl. unfold active_name. rewrite Hact. simpl.
    assert (Hhas2 : bpy.has_object a b2 = true).
    { unfold bpy.has_object in *. rewrite (@has_name_ext a _ _ En). exact Hhas. }
    rewrite Hhas2.
    destruct (String.eqb_spec a ""); [contradiction | reflexivity].
  - change (restored_children (bridge_snapshot_of b) b2 = bpy.children b).
    unfold restored_children.
    rewrite (@fault_of_same_faults b b2 bpy.Children Ef), F1.
    rewrite (@fault_of_same_faults b b2 bpy.SetHideViewport Ef), F2.
    simpl. unfold bridge_visible_of. rewrite F1.
    rewrite (@restore_hidden_ext _ _ _ Ec).
    apply rehide_visible. exact Hcol.
Qed.

(** X4.  [TahliaBridge.preserve_context] gives the host back as it was.
    With preservation on, on a host where names are keys, something is
    selected, an existing object is active and the calls of the round
    trip do not raise: whatever the operation does to the select flags,
    the active object, the hide flags, the mode or the shading, and
    whether it returns or raises, as long as it leaves the objects and
    collections there with their names, afterwards every object has the
    select flag it had, the active object is the one it was and every
    collection has the hide flag it had.  The result is [True] if the
    operation returned and [False] if it raised. *)
Theorem bridge_preserve_context_restores_host operation w r w2 a :
  TahliaBridge.context_preservation (self w) = true ->
  NoDup (map bpy.ob_name (bpy.data_objects (host w))) ->
  NoDup (map bpy.col_name (bpy.children (host w))) ->
  first_fault roundtrip_calls (host w) = None ->
  bpy.selected_names (host w) <> [] ->
  bpy.active (host w) = Some a -> a <> "" -> bpy.has_object a (host w) = true ->
  operation w = (r, w2) ->
  map bpy.ob_name (bpy.data_objects (host w2))
    = map bpy.ob_name (bpy.data_objects (host w)) ->
  map bpy.col_name (bpy.children (host w2))
    = map bpy.col_name (bpy.children (host w)) ->
  bpy.faults (host w2) = bpy.faults (host w) ->
  exists w3,
    TahliaBridge.preserve_context operation w = (Returned (returned r), w3) /\
    bpy.data_objects (host w3) = bpy.data_objects (host w) /\
    bpy.active (host w3) = Some a /\
    bpy.children (host w3) = bpy.children (host w).
Proof.
  intros Hon Hobj Hcol Hno Hsel Hact Hne Hhas Hop En Ec Ef.
  assert (Hplain : first_fault bridge_plain_reads (host w) = None).
  { apply (first_fault_incl (l' := roundtrip_calls)); [| exact Hno].
    unfold roundtrip_calls. apply incl_appl, incl_refl. }
  assert (Hsteps : first_fault restore_steps (host w) = None).
  { apply (first_fault_incl (l' := roundtrip_calls)); [| exact Hno].
    unfold roundtrip_calls. apply incl_appr, incl_appl, incl_refl. }
  assert (Hch : bpy.fault bpy.Children (host w) = None).
  { apply (first_fault_none _ _ Hno). unfold roundtrip_calls.
    apply in_or_app. right. apply in_or_app. right. simpl. tauto. }
  assert (Hset : bpy.fault bpy.SetHideViewport (host w) = None).
  { apply (first_fault_none _ _ Hno). unfold roundtrip_calls.
    apply in_or_app. right. apply in_or_app. right. simpl. tauto. }
  assert (Hrun : TahliaBridge.preserve_context operation w =
                 try_except
                   (operation ;;
                    TahliaBridge.restore_context (bridge_snapshot_of (host w)))
                   (fun e => TahliaBridge.set_last_error ("Operation failed: " ++ e) ;;
                             TahliaBridge.restore_context (bridge_snapshot_of (host w)) ;;
                             ret false) w).
  { unfold TahliaBridge.preserve_context at 1. unfold bind at 1, get.
    rewrite Hon. simpl. unfold bind at 1.
    rewrite bridge_capture_context_run, Hplain. reflexivity. }
  rewrite Hrun. clear Hrun. unfold try_except, bind at 1. rewrite Hop.
  destruct w2 as [s2 b2]. simpl in En, Ec, Ef.
  assert (Hok : bridge_restore_ok (bridge_snapshot_of (host w)) b2 = true).
  { apply bridge_restore_ok_no_faults.
    rewrite (@first_fault_same_faults restore_steps (host w) b2 Ef). exact Hsteps. }
  pose proof (@bridge_restored_snapshot (host w) b2 a Hobj Hcol Hch Hset Hsel
                Hact Hne Hhas En Ec Ef) as Hrest.
  destruct r as [[] | e]; simpl.
  - destruct (bridge_restore_context_exact (bridge_snapshot_of (host w)) s2 b2)
      as (w3 & E & Hw3 & _).
    rewrite Hok in E. rewrite E. exists w3. split; [reflexivity |].
    rewrite (Hw3 Hok). exact Hrest.
  - unfold bind at 1, TahliaBridge.set_last_error, modify, with_self. simpl.
    destruct (bridge_restore_context_exact (bridge_snapshot_of (host w))
                (TahliaBridge.with_last_error ("Operation failed: " ++ e) s2) b2)
      as (w3 & E & Hw3 & _).
    rewrite Hok in E. unfold bind. rewrite E. exists w3. split; [reflexivity |].
    rewrite (Hw3 Hok). exact Hrest.
Qed.

Lemma bridge_preserve_context_restores_host_witness :
  exists w3,
    TahliaBridge.preserve_context select_C_then_fail (bridge_world two_selected)
      = (Returned false, w3) /\
    bpy.data_objects (host w3) = bpy.data_objects two_selected /\
    bpy.active (host w3) = Some "A" /\
    bpy.children (host w3) = bpy.children two_selected.
Proof.
  apply (@bridge_preserve_context_restores_host select_C_then_fail
           (bridge_world two_selected)
           (fst (select_C_then_fail (bridge_world two_selected)))
           (snd (select_C_then_fail (bridge_world two_selected))) "A").
  - reflexivity.
  - exact NoDup_two_selected_objects.
  - exact NoDup_two_selected_children.
  - reflexivity.
  - discriminate.
  - reflexivity.
  - discriminate.
  - reflexivity.
  - apply surjective_pairing.
  - reflexivity.
  - reflexivity.
  - reflexivity.
Defined.

(** ** The selection under [TahliaCore.restore_context], in general *)

(** Wherever the selection loop stops, it has selected the names of a
    prefix of its list, and all of them when it returns. *)
Lemma select_loop_prefix Self names : forall (w w' : World Self) r,
  select_loop names w = (r, w') ->
  exists done rest,
    names = (done ++ rest)%list /\
    objects_of w' = select_all_named done (objects_of w) /\
    (r = Returned tt -> rest = []).
Proof.
  induction names as [| n names IH]; intros [s b] w' r.
  - intros E. inversion E; subst. exists [], []. auto.
  - rewrite select_loop_cons. unfold bind at 1. rewrite select_step_run.
    destruct (bpy.fault bpy.DataObjects b).
    { intros E. inversion E; subst. exists [], (n :: names).
      repeat split; [discriminate]. }
    destruct (bpy.has_object n b) eqn:Hin.
    + destruct (bpy.fault bpy.SelectSet b).
      { intros E. inversion E; subst. exists [], (n :: names).
        repeat split; [discriminate]. }
      intros E. apply IH in E. destruct E as (done & rest & -> & Hobj & Hr).
      exists (n :: done), rest. repeat split; [exact Hobj | exact Hr].
    + intros E. apply IH in E. destruct E as (done & rest & -> & Hobj & Hr).
      exists (n :: done), rest. repeat split; [| exact Hr].
      rewrite Hobj. unfold objects_of, select_all_named. simpl.
      rewrite (@select_named_absent n (bpy.data_objects b) Hin). reflexivity.
Qed.

Lemma core_restore_selected_objects_prefix c w w' r :
  TahliaCore.restore_selected_objects c w = (r, w') ->
  exists done rest,
    get_or (selected_objects c) [] = (done ++ rest)%list /\
    objects_of w' = select_all_named done (objects_of w) /\
    (r = Returned tt -> rest = []).
Proof.
  unfold TahliaCore.restore_selected_objects, when.
  destruct (selected_objects c) as [[| n sel] |]; simpl.
  - intros E. inversion E; subst. exists [], []. auto.
  - apply select_loop_prefix.
  - intros E. inversion E; subst. exists [], []. auto.
Qed.

Lemma core_restore_context_objects_prefix c w w' r :
  TahliaCore.restore_context c w = (r, w') ->
  exists done rest,
    get_or (selected_objects c) [] = (done ++ rest)%list /\
    objects_of w' = select_all_named done (objects_of w) /\
    (r = Returned true -> rest = []).
Proof.
  unfold TahliaCore.restore_context. rewrite try_except_bind.
  destruct (restore_active_object c w) as [[[] | e] w1] eqn:E1;
    apply restore_active_object_keeps_objects in E1.
  - rewrite try_except_bind.
    destruct (TahliaCore.restore_selected_objects c w1) as [[[] | e] w2] eqn:E2;
      apply core_restore_selected_objects_prefix in E2;
      destruct E2 as (done & rest & Hsel & Hobj & Hr).
    + intros E.
      assert (Hk : keeps objects_of
                     (try_except
                        (restore_mode c ;;
                         TahliaCore.restore_viewport_settings c ;; ret true)
                        (fun _ => ret false))) by keeps_solve.
      apply Hk in E. exists done, rest. rewrite (Hr eq_refl) in *.
      repeat split; [exact Hsel | congruence].
    + intros E. inversion E; subst. exists done, rest.
      repeat split; [exact Hsel | congruence | discriminate].
  - intros E. inversion E; subst.
    exists [], (get_or (selected_objects c) []).
    repeat split; [exact E1 | discriminate].
Qed.

(** ** A push, an operation, a pop *)

Lemma bridge_with_context_stack_same s :
  TahliaBridge.with_context_stack (TahliaBridge.context_stack s) s = s.
Proof. destruct s; reflexivity. Qed.

Lemma core_with_context_stack_same s :
  TahliaCore.with_context_stack (TahliaCore.context_stack s) s = s.
Proof. destruct s; reflexivity. Qed.

Lemma bridge_push_operation_pop w (o : M bpy.t unit) b2 :
  (bridge_depth w < bridge_limit w)%Z ->
  o (host w) = (Returned tt, b2) ->
  (TahliaBridge.push_context ;; api o ;; TahliaBridge.pop_context) w =
  (c <- TahliaBridge.capture_context ;; api o ;;
   TahliaBridge.restore_context c) w.
Proof.
  intros Hroom Ho.
  destruct (bridge_push_context_room w Hroom) as (c & w1 & Hcap & Hh & Hpush).
  pose proof Hcap as Hcfg. apply bridge_capture_context_config in Hcfg.
  apply (f_equal TahliaBridge.context_stack) in Hcfg. simpl in Hcfg.
  unfold bind at 1. rewrite Hpush.
  unfold bind at 1, api at 1. cbn [host self]. rewrite Ho. cbn [self].
  rewrite (@bridge_pop_context_top
             {| self := TahliaBridge.with_context_stack
                          (TahliaBridge.context_stack (self w) ++ [c]) (self w1);
                host := b2 |}
             (TahliaBridge.context_stack (self w)) c eq_refl).
  unfold bind at 1. rewrite Hcap.
  unfold bind at 1, api at 1. rewrite Hh, Ho.
  unfold with_self. cbn [self host].
  f_equal. f_equal.
  destruct (self w1) as [st dm cp mx le]. simpl in *. rewrite Hcfg. reflexivity.
Qed.

Lemma core_push_operation_pop w (o : M bpy.t unit) b2 :
  (core_depth w < core_limit w)%Z ->
  o (host w) = (Returned tt, b2) ->
  (TahliaCore.push_context ;; api o ;; TahliaCore.pop_context) w =
  (c <- TahliaCore.capture_context ;; api o ;;
   TahliaCore.restore_context c) w.
Proof.
  intros Hroom Ho.
  destruct (core_push_context_room w Hroom) as (c & Hcap & Hpush).
  unfold bind at 1. rewrite Hpush.
  unfold bind at 1, api at 1. cbn [host self]. rewrite Ho. cbn [self].
  rewrite (@core_pop_context_top
             {| self := TahliaCore.with_context_stack
                          (TahliaCore.context_stack (self w) ++ [c]) (self w);
                host := b2 |}
             (TahliaCore.context_stack (self w)) c eq_refl).
  unfold bind at 1. rewrite Hcap.
  unfold bind at 1, api at 1. rewrite Ho.
  unfold with_self. cbn [self host].
  f_equal. f_equal.
  destruct (self w) as [st dm cp mx]. reflexivity.
Qed.

(** ** Any sequence of calls keeps the stack within bounds *)

Lemma keeps_api_any Self X A (f : World Self -> X) (c : M bpy.t A) :
  (forall w b, f {| self := self w; host := b |} = f w) -> keeps f (api c).
Proof.
  intros Hf w r w'. unfold api. destruct (c (host w)) as [r1 b].
  intros E. inversion E; subst. apply Hf.
Qed.

Lemma returns_get S : returns (@get S).
Proof. intros s. exists s, s. reflexivity. Qed.

Lemma bridge_preserve_context_returns operation :
  returns (TahliaBridge.preserve_context operation).
Proof.
  unfold TahliaBridge.preserve_context.
  apply returns_bind; [apply returns_get | intros w0].
  destruct (negb (TahliaBridge.context_preservation (self w0))).
  - auto with returns_db.
  - apply returns_bind; [apply bridge_capture_context_returns | intros c].
    apply returns_try_except. intros e.
    apply returns_bind; [apply bridge_set_last_error_returns | intros _].
    apply returns_bind; [apply bridge_restore_context_returns | intros _].
    apply returns_ret.
Qed.

Lemma bridge_preserve_context_keeps_config (o : M bpy.t unit) :
  keeps bridge_config (TahliaBridge.preserve_context (api o)).
Proof.
  unfold TahliaBridge.preserve_context.
  apply keeps_bind; [apply keeps_get | intros w0].
  assert (Ho : keeps bridge_config (@api TahliaBridge.t _ o))
    by (apply keeps_api_any; reflexivity).
  assert (Hs : forall msg, keeps bridge_config (TahliaBridge.set_last_error msg))
    by (intros msg; unfold TahliaBridge.set_last_error; keeps_all).
  destruct (negb (TahliaBridge.context_preservation (self w0))).
  - apply keeps_try_except; [apply keeps_bind; [exact Ho | intros _; apply keeps_ret] |].
    intros e. apply keeps_bind; [apply Hs | intros _; apply keeps_ret].
  - apply keeps_bind; [apply bridge_capture_context_config | intros c].
    apply keeps_try_except.
    + apply keeps_bind; [exact Ho | intros _].
      apply bridge_restore_context_keeps_config.
    + intros e. apply keeps_bind; [apply Hs | intros _].
      apply keeps_bind; [apply bridge_restore_context_keeps_config | intros _].
      apply keeps_ret.
Qed.

Lemma core_preserve_context_keeps_self (o : M bpy.t unit) :
  keeps (@self _) (TahliaCore.preserve_context (api o)).
Proof.
  unfold TahliaCore.preserve_context.
  apply keeps_bind; [apply keeps_get | intros w0].
  assert (Ho : keeps (@self _) (@api TahliaCore.t _ o))
    by (apply keeps_api_any; reflexivity).
  assert (Hc : keeps (@self _) TahliaCore.capture_context).
  { intros w r w' E. apply core_capture_context_same in E. subst. reflexivity. }
  destruct (negb (TahliaCore.context_preservation (self w0))).
  - apply keeps_bind; [exact Ho | intros _; apply keeps_ret].
  - apply keeps_bind; [exact Hc | intros c].
    apply keeps_try_except.
    + apply keeps_bind; [exact Ho | intros _].
      apply core_restore_context_keeps_self.
    + intros e.
      apply keeps_bind; [apply core_restore_context_keeps_self | intros _].
      apply keeps_ret.
Qed.

Lemma list_empty_or_last A (l : list A) :
  l = [] \/ exists st c, l = (st ++ [c])%list.
Proof.
  induction l as [| c st _] using rev_ind; [left; reflexivity |].
  right. exists st, c. reflexivity.
Qed.

Lemma bridge_bounded_config w w' :
  bridge_config w' = bridge_config w -> bridge_bounded w w'.
Proof.
  unfold bridge_config, bridge_bounded, bridge_limit, bridge_depth. intros E.
  pose proof (f_equal TahliaBridge.context_stack E) as E1.
  pose proof (f_equal TahliaBridge.max_context_stack_size E) as E2.
  simpl in E1, E2. rewrite E1, E2. split; [reflexivity | lia].
Qed.

Lemma bridge_pop_context_bounded w r w' :
  TahliaBridge.pop_context w = (r, w') -> bridge_bounded w w'.
Proof.
  destruct (list_empty_or_last (TahliaBridge.context_stack (self w)))
    as [He | (st & c & He)].
  - rewrite (bridge_pop_context_empty w He). intros E. inversion E; subst.
    apply bridge_bounded_config. reflexivity.
  - rewrite (@bridge_pop_context_top w st c He). intros E.
    apply bridge_restore_context_keeps_config in E.
    unfold bridge_config, bridge_bounded, bridge_limit, bridge_depth in *.
    pose proof (f_equal TahliaBridge.context_stack E) as E1.
    pose proof (f_equal TahliaBridge.max_context_stack_size E) as E2.
    simpl in E1, E2. rewrite E1, E2, He, length_app. simpl.
    split; [reflexivity | lia].
Qed.

Lemma bridge_call_bounded k w :
  exists w', bridge_call k w = (Returned tt, w') /\ bridge_bounded w w'.
Proof.
  destruct k as [| | | | c | o]; simpl; unfold bind.
  - destruct (bridge_push_context_result w) as (b & w' & Hp & Hiff & Hinc & Hsame).
    pose proof (bridge_push_context_keeps_limit _ Hp) as Hlim.
    rewrite Hp. exists w'. split; [reflexivity |].
    unfold bridge_bounded. split; [exact Hlim |].
    unfold bridge_depth in *. destruct b.
    + specialize (Hinc eq_refl). destruct Hiff as [Hiff _].
      specialize (Hiff eq_refl). lia.
    + rewrite (Hsame eq_refl). lia.
  - destruct (TahliaBridge.pop_context w) as [[b | e] w'] eqn:E.
    + exists w'. split; [reflexivity |]. exact (bridge_pop_context_bounded _ E).
    + exfalso. destruct (list_empty_or_last (TahliaBridge.context_stack (self w)))
        as [He | (st & c & He)].
      * rewrite (bridge_pop_context_empty w He) in E. discriminate.
      * rewrite (@bridge_pop_context_top w st c He) in E.
        destruct (bridge_restore_context_returns c
                    (with_self (TahliaBridge.with_context_stack st) w))
          as (b & w'' & E').
        rewrite E' in E. discriminate.
  - eexists. split; [reflexivity |].
    unfold bridge_bounded, bridge_limit, bridge_depth. simpl.
    split; [reflexivity | lia].
  - destruct (bridge_capture_context_returns w) as (c & w' & E). rewrite E.
    exists w'. split; [reflexivity |]. apply bridge_bounded_config.
    exact (bridge_capture_context_config _ E).
  - destruct (bridge_restore_context_returns c w) as (b & w' & E). rewrite E.
    exists w'. split; [reflexivity |]. apply bridge_bounded_config.
    exact (bridge_restore_context_keeps_config c _ E).
  - destruct (bridge_preserve_context_returns (api o) w) as (b & w' & E).
    rewrite E. exists w'. split; [reflexivity |]. apply bridge_bounded_config.
    exact (bridge_preserve_context_keeps_config o _ E).
Qed.

Lemma bridge_bounded_trans w1 w2 w3 :
  bridge_bounded w1 w2 -> bridge_bounded w2 w3 -> bridge_bounded w1 w3.
Proof. unfold bridge_bounded. intros [L1 D1] [L2 D2]. split; [congruence | lia]. Qed.

Lemma bridge_calls_bounded calls : forall w,
  exists w', for_each calls bridge_call w = (Returned tt, w') /\
             bridge_bounded w w'.
Proof.
  induction calls as [| k calls IH]; intros w.
  - exists w. split; [reflexivity |].
    apply bridge_bounded_config. reflexivity.
  - destruct (bridge_call_bounded k w) as (w1 & E1 & B1).
    destruct (IH w1) as (w' & E & B).
    exists w'. simpl. unfold bind. rewrite E1, E.
    split; [reflexivity |]. exact (bridge_bounded_trans B1 B).
Qed.

Lemma core_bounded_self w w' : self w' = self w -> core_bounded w w'.
Proof.
  unfold core_bounded, core_limit, core_depth. intros ->.
  split; [reflexivity | lia].
Qed.

Lemma core_pop_context_bounded w r w' :
  TahliaCore.pop_context w = (r, w') -> core_bounded w w'.
Proof.
  destruct (list_empty_or_last (TahliaCore.context_stack (self w)))
    as [He | (st & c & He)].
  - rewrite (core_pop_context_empty w He). intros E. inversion E; subst.
    apply core_bounded_self. reflexivity.
  - rewrite (@core_pop_context_top w st c He). intros E.
    apply core_restore_context_keeps_self in E.
    unfold core_bounded, core_limit, core_depth in *.
    rewrite E. simpl. rewrite He, length_app. simpl.
    split; [reflexivity | lia].
Qed.

Lemma core_call_bounded k w r w' :
  core_call k w = (r, w') -> core_bounded w w'.
Proof.
  destruct k as [| | | | c | o]; simpl; unfold bind.
  - destruct (core_push_context_result w) as (b & w1 & Hp & Hiff & Hinc & Hsame).
    pose proof (core_push_context_keeps_limit _ Hp) as Hlim.
    rewrite Hp. intros E. inversion E; subst.
    unfold core_bounded. split; [exact Hlim |].
    unfold core_depth in *. destruct b.
    + specialize (Hinc eq_refl). destruct Hiff as [Hiff _].
      specialize (Hiff eq_refl). lia.
    + rewrite (Hsame eq_refl). lia.
  - destruct (TahliaCore.pop_context w) as [[b | e] w1] eqn:E;
      apply core_pop_context_bounded in E; intros E'; inversion E'; subst;
      exact E.
  - intros E. inversion E; subst.
    unfold core_bounded, core_limit, core_depth. simpl.
    split; [reflexivity | lia].
  - destruct (TahliaCore.capture_context w) as [[c | e] w1] eqn:E;
      apply core_capture_context_same in E; intros E'; inversion E'; subst;
      apply core_bounded_self; reflexivity.
  - destruct (TahliaCore.restore_context c w) as [[b | e] w1] eqn:E;
      apply core_restore_context_keeps_self in E; intros E'; inversion E'; subst;
      apply core_bounded_self; exact E.
  - destruct (TahliaCore.preserve_context (api o) w) as [[b | e] w1] eqn:E;
      apply core_preserve_context_keeps_self in E; intros E'; inversion E'; subst;
      apply core_bounded_self; exact E.
Qed.

Lemma core_bounded_trans w1 w2 w3 :
  core_bounded w1 w2 -> core_bounded w2 w3 -> core_bounded w1 w3.
Proof. unfold core_bounded. intros [L1 D1] [L2 D2]. split; [congruence | lia]. Qed.

Lemma core_calls_bounded calls : forall w r w',
  for_each calls core_call w = (r, w') -> core_bounded w w'.
Proof.
  induction calls as [| k calls IH]; intros w r w'.
  - intros E. inversion E; subst. apply core_bounded_self. reflexivity.
  - simpl. unfold bind.
    destruct (core_call k w) as [[[] | e] w1] eqn:E1;
      apply core_call_bounded in E1.
    + intros E. apply IH in E. exact (core_bounded_trans E1 E).
    + intros E. inversion E; subst. exact E1.
Qed.

(** ** [last_error] after [preserve_context] *)

(** X8.  After a [TahliaBridge.preserve_context] whose operation raised
    [e], on a host where the capture succeeds: the result is [False],
    and [get_last_error] gives ["Operation failed: e"] when the restore
    that follows succeeds, but the restore's own
    ["Failed to restore context: ..."] when it fails, the operation's
    message being lost. *)
Theorem bridge_preserve_context_last_error operation w e w2 :
  TahliaBridge.context_preservation (self w) = true ->
  first_fault bridge_plain_reads (host w) = None ->
  operation w = (Raised e, w2) ->
  exists w3,
    TahliaBridge.preserve_context operation w = (Returned false, w3) /\
    (bridge_restore_ok (bridge_snapshot_of (host w)) (host w2) = true ->
     TahliaBridge.get_last_error w3 = (Returned ("Operation failed: " ++ e), w3)) /\
    (bridge_restore_ok (bridge_snapshot_of (host w)) (host w2) = false ->
     exists e', TahliaBridge.get_last_error w3 =
                (Returned ("Failed to restore context: " ++ e'), w3)).
Proof.
  intros Hon Hplain Hop.
  unfold TahliaBridge.preserve_context at 1. unfold bind at 1, get.
  rewrite Hon. simpl. unfold bind at 1.
  rewrite bridge_capture_context_run, Hplain.
  unfold try_except, bind at 1. rewrite Hop.
  unfold bind at 1, TahliaBridge.set_last_error, modify, with_self.
  destruct w2 as [s2 b2]. cbn [self host].
  destruct (bridge_restore_context_exact (bridge_snapshot_of (host w))
              (TahliaBridge.with_last_error ("Operation failed: " ++ e) s2) b2)
    as (w3 & E & Hok & Hko).
  unfold bind. rewrite E. exists w3. split; [reflexivity |].
  unfold TahliaBridge.get_last_error, bind, get, ret. split.
  - intros H. rewrite (Hok H). reflexivity.
  - intros H. destruct (Hko H) as (e' & Hs). exists e'. rewrite Hs. reflexivity.
Qed.

Lemma bridge_preserve_context_last_error_witness :
  exists w3,
    TahliaBridge.preserve_context select_C_then_fail (bridge_world two_selected)
      = (Returned false, w3) /\
    TahliaBridge.get_last_error w3
      = (Returned "Operation failed: import failed", w3).
Proof.
  destruct (@bridge_preserve_context_last_error select_C_then_fail
              (bridge_world two_selected) (String.append "import" " failed")
              (snd (select_C_then_fail (bridge_world two_selected)))
              eq_refl eq_refl eq_refl) as (w3 & E & Hok & _).
  exists w3. split; [exact E |]. apply Hok. reflexivity.
Defined.

(** ** The two [restore_context], stated for both classes *)

(** X1.  [restore_context] returns [False] exactly when a host call that
    is not under an inner [try] raises: the membership test or the
    assignment of the active object, [select_all] (bridge), a
    membership test or a [select_set] of the selection loop, the read
    of the active object before [mode_set], and in [TahliaCore] the
    assignment of the shading.  A [mode_set] that raises, and in
    [TahliaBridge] a shading or [hide_viewport] assignment that raises,
    are swallowed.  When it returns [True] the instance is untouched and
    the host is the old one with the active object, the select flags,
    the mode, the shading and (bridge) the hide flags of
    [bridge_restored] / [core_restored]; when the bridge returns
    [False], only [last_error] of the instance has changed. *)
Theorem restore_context_closed_form
    (c : Context) (wb : TahliaBridge.W) (wc : TahliaCore.W) :
  (exists w',
     TahliaBridge.restore_context c wb =
       (Returned (bridge_restore_ok c (host wb)), w') /\
     (bridge_restore_ok c (host wb) = true ->
      w' = {| self := self wb; host := bridge_restored c (host wb) |}) /\
     (bridge_restore_ok c (host wb) = false ->
      exists e, self w' =
                TahliaBridge.with_last_error
                  ("Failed to restore context: " ++ e) (self wb)))
  /\
  (exists w',
     TahliaCore.restore_context c wc =
       (Returned (core_restore_ok c (host wc)), w') /\
     (core_restore_ok c (host wc) = true ->
      w' = {| self := self wc; host := core_restored c (host wc) |}) /\
     self w' = self wc).
Proof.
  destruct wb as [sb bb], wc as [sc bc]. split.
  - apply bridge_restore_context_exact.
  - apply core_restore_context_exact.
Qed.

(** X5.  [TahliaCore.restore_context] only ever adds to the selection.
    Whatever it returns, every name that was selected is still selected
    and every newly selected name is a name of the snapshot that is in
    [bpy.data.objects]; when it returns [True], the selected names are
    exactly the former ones together with the snapshot's names that
    exist. *)
Theorem core_restore_context_only_selects
    (c : Context) (w w' : TahliaCore.W) (r : outcome bool) :
  TahliaCore.restore_context c w = (r, w') ->
  (forall n, In n (bpy.selected_names (host w)) ->
             In n (bpy.selected_names (host w'))) /\
  (forall n, In n (bpy.selected_names (host w')) ->
             In n (bpy.selected_names (host w)) \/
             (In n (get_or (selected_objects c) []) /\
              bpy.has_object n (host w) = true)) /\
  (r = Returned true ->
   forall n, In n (bpy.selected_names (host w')) <->
             In n (bpy.selected_names (host w)) \/
             (In n (get_or (selected_objects c) []) /\
              bpy.has_object n (host w) = true)).
Proof.
  intros E. apply core_restore_context_objects_prefix in E.
  destruct E as (done & rest & Hsel & Hobj & Hr).
  unfold objects_of in Hobj. unfold bpy.selected_names, bpy.has_object.
  rewrite Hobj, Hsel. split; [| split].
  - intros n Hn. apply In_names_selected_select_all_named. left. exact Hn.
  - intros n Hn. apply In_names_selected_select_all_named in Hn.
    destruct Hn as [Hn | [Hn Hh]]; [left; exact Hn | right].
    split; [apply in_or_app; left; exact Hn | exact Hh].
  - intros Hret n. rewrite (Hr Hret), app_nil_r.
    apply In_names_selected_select_all_named.
Qed.

Lemma core_restore_context_only_selects_witness :
  exists w',
    TahliaCore.restore_context snap_AB (core_world only_B_selected)
      = (Returned true, w') /\
    (forall n, In n (bpy.selected_names (host w')) <->
               In n (bpy.selected_names only_B_selected) \/
               (In n ["A"; "B"] /\ bpy.has_object n only_B_selected = true)).
Proof.
  eexists. split; [vm_compute; reflexivity |].
  destruct (@core_restore_context_only_selects snap_AB
              (core_world only_B_selected) _ _ eq_refl) as (_ & _ & H).
  exact (H eq_refl).
Defined.

(** X6.  A push that has room, an operation on the host that returns,
    and a pop do together what a capture, the operation and a restore
    of the captured snapshot do: the pop restores the snapshot the push
    took, returns what that restore returns, and the stack is back to
    what it was.  In both classes. *)
Theorem push_then_pop_is_capture_then_restore
    (wb : TahliaBridge.W) (wc : TahliaCore.W) (o : M bpy.t unit)
    (bb bc : bpy.t) :
  (bridge_depth wb < bridge_limit wb)%Z ->
  (core_depth wc < core_limit wc)%Z ->
  o (host wb) = (Returned tt, bb) ->
  o (host wc) = (Returned tt, bc) ->
  (TahliaBridge.push_context ;; api o ;; TahliaBridge.pop_context) wb =
  (c <- TahliaBridge.capture_context ;; api o ;;
   TahliaBridge.restore_context c) wb
  /\
  (TahliaCore.push_context ;; api o ;; TahliaCore.pop_context) wc =
  (c <- TahliaCore.capture_context ;; api o ;;
   TahliaCore.restore_context c) wc.
Proof.
  intros Hb Hc Ob Oc. split.
  - exact (@bridge_push_operation_pop wb o bb Hb Ob).
  - exact (@core_push_operation_pop wc o bc Hc Oc).
Qed.

Lemma push_then_pop_is_capture_then_restore_witness :
  (TahliaBridge.push_context ;; api (bpy.select_set_True "C") ;;
   TahliaBridge.pop_context) (bridge_world two_selected) =
  (c <- TahliaBridge.capture_context ;; api (bpy.select_set_True "C") ;;
   TahliaBridge.restore_context c) (bridge_world two_selected)
  /\
  (TahliaCore.push_context ;; api (bpy.select_set_True "C") ;;
   TahliaCore.pop_context) (core_world two_selected) =
  (c <- TahliaCore.capture_context ;; api (bpy.select_set_True "C") ;;
   TahliaCore.restore_context c) (core_world two_selected).
Proof.
  apply (@push_then_pop_is_capture_then_restore (bridge_world two_selected)
           (core_world two_selected) (bpy.select_set_True "C")
           (snd (bpy.select_set_True "C" two_selected))
           (snd (bpy.select_set_True "C" two_selected)));
    try reflexivity.
Defined.


(** * The import methods: lemmas *)

(** ** Statements that return a value with a property *)

Lemma on_return_ret {S A} (a : A) (P : A -> Prop) :
  P a -> on_return (@ret S A a) P.
Proof. intros H s a' s' E. inversion E; subst. exact H. Qed.

Lemma on_return_bind {S A B} (c : M S A) (k : A -> M S B) (P : B -> Prop) :
  (forall a, on_return (k a) P) -> on_return (bind c k) P.
Proof.
  intros Hk s b s'. unfold bind. destruct (c s) as [[a | e] s1].
  - apply Hk.
  - discriminate.
Qed.

Lemma yields_ret {S A} (a : A) (P : A -> Prop) : P a -> yields (@ret S A a) P.
Proof. intros H s. exists a, s. split; [reflexivity | exact H]. Qed.

Lemma yields_on_return {S A} (c : M S A) (P : A -> Prop) :
  yields c P -> on_return c P.
Proof.
  intros H s a s' E. destruct (H s) as (a' & s'' & E' & Ha).
  rewrite E in E'. inversion E'; subst. exact Ha.
Qed.

Lemma yields_try_except {S A} (body : M S A) handler (P : A -> Prop) :
  on_return body P -> (forall e, yields (handler e) P) ->
  yields (try_except body handler) P.
Proof.
  intros Hb Hh s. unfold try_except.
  destruct (body s) as [[a | e] s1] eqn:E.
  - exists a, s1. split; [reflexivity | exact (Hb _ _ _ E)].
  - apply Hh.
Qed.

Lemma yields_returns {S A} (c : M S A) (P : A -> Prop) : yields c P -> returns c.
Proof. intros H s. destruct (H s) as (a & s' & E & _). eauto. Qed.

(** ** The five importers *)

Ltac import_yields :=
  apply yields_try_except;
  [ cbv zeta; repeat (apply on_return_bind; intros ?);
    apply on_return_ret; unfold well_formed; simpl; auto 10
  | intros ?; apply yields_ret; unfold well_formed; simpl; auto ].

Lemma well_formed_failure p msg : well_formed p (failure msg).
Proof. unfold well_formed; simpl; auto. Qed.

Lemma bridge_import_blend_yields env p o :
  yields (TahliaBridge._import_blend_file_blender env p o) (well_formed p).
Proof. unfold TahliaBridge._import_blend_file_blender. import_yields. Qed.

Lemma bridge_import_obj_yields env p o :
  yields (TahliaBridge._import_obj_file_blender env p o) (well_formed p).
Proof. unfold TahliaBridge._import_obj_file_blender. import_yields. Qed.

Lemma bridge_import_fbx_yields env p o :
  yields (TahliaBridge._import_fbx_file_blender env p o) (well_formed p).
Proof. unfold TahliaBridge._import_fbx_file_blender. import_yields. Qed.

Lemma bridge_import_dae_yields env p o :
  yields (TahliaBridge._import_dae_file_blender env p o) (well_formed p).
Proof. unfold TahliaBridge._import_dae_file_blender. import_yields. Qed.

Lemma bridge_import_texture_yields env p o :
  yields (TahliaBridge._import_texture_blender env p o) (well_formed p).
Proof. unfold TahliaBridge._import_texture_blender. import_yields. Qed.

Lemma core_import_blend_yields env p o :
  yields (TahliaCore._import_blend_file env p o) (well_formed p).
Proof. unfold TahliaCore._import_blend_file. import_yields. Qed.

Lemma core_import_obj_yields env p o :
  yields (TahliaCore._import_obj_file env p o) (well_formed p).
Proof. unfold TahliaCore._import_obj_file. import_yields. Qed.

Lemma core_import_fbx_yields env p o :
  yields (TahliaCore._import_fbx_file env p o) (well_formed p).
Proof. unfold TahliaCore._import_fbx_file. import_yields. Qed.

Lemma core_import_dae_yields env p o :
  yields (TahliaCore._import_dae_file env p o) (well_formed p).
Proof. unfold TahliaCore._import_dae_file. import_yields. Qed.

Lemma core_import_texture_yields env p o :
  yields (TahliaCore._import_texture env p o) (well_formed p).
Proof. unfold TahliaCore._import_texture. import_yields. Qed.

(** ** The two dispatchers *)

Lemma bridge_import_asset_blender_yields env p o :
  yields (TahliaBridge.import_asset_blender env p o) (well_formed p).
Proof.
  unfold TahliaBridge.import_asset_blender.
  apply yields_try_except.
  - apply on_return_bind. intros found. destruct found; simpl.
    + repeat match goal with
             | |- on_return (if ?c then _ else _) _ => destruct c
             end;
        try (apply yields_on_return;
             first [ apply bridge_import_blend_yields
                   | apply bridge_import_obj_yields
                   | apply bridge_import_fbx_yields
                   | apply bridge_import_dae_yields
                   | apply bridge_import_texture_yields ]).
      apply on_return_ret. apply well_formed_failure.
    + apply on_return_ret. apply well_formed_failure.
  - intros e. apply yields_ret. apply well_formed_failure.
Qed.

Lemma core_perform_import_yields env p o :
  yields (TahliaCore._perform_import env p o) (well_formed p).
Proof.
  unfold TahliaCore._perform_import.
  apply yields_try_except.
  - apply on_return_bind. intros found. destruct found; simpl.
    + repeat match goal with
             | |- on_return (if ?c then _ else _) _ => destruct c
             end;
        try (apply yields_on_return;
             first [ apply core_import_blend_yields
                   | apply core_import_obj_yields
                   | apply core_import_fbx_yields
                   | apply core_import_dae_yields
                   | apply core_import_texture_yields ]).
      apply on_return_ret. apply (well_formed_failure p).
    + apply on_return_ret. apply (well_formed_failure p).
  - intros e. apply yields_ret. apply (well_formed_failure p).
Qed.

(** ** The import methods and the instance *)

Lemma keeps_self_api Self A (c : M bpy.t A) :
  keeps (@self Self) (api c).
Proof. apply keeps_api_any. reflexivity. Qed.

Lemma keeps_self_link_loaded Self env objs :
  keeps (@self Self) (link_loaded env objs).
Proof.
  induction objs as [| [n |] objs IH]; simpl.
  - apply keeps_ret.
  - apply keeps_bind; [apply keeps_self_api | intros _].
    apply keeps_bind; [exact IH | intros ?; apply keeps_ret].
  - exact IH.
Qed.

Ltac keeps_self :=
  repeat first
    [ apply keeps_self_api
    | apply keeps_self_link_loaded
    | keeps_step ].

Lemma keeps_self_connect_texture Self env m p :
  keeps (@self Self) (connect_texture env m p).
Proof. unfold connect_texture. keeps_self. Qed.

Lemma keeps_self_place_objects Self env names loc :
  keeps (@self Self) (place_objects env names loc).
Proof. unfold place_objects. keeps_self. Qed.

Lemma bridge_import_asset_blender_keeps_self env p o :
  keeps (@self _) (TahliaBridge.import_asset_blender env p o).
Proof.
  unfold TahliaBridge.import_asset_blender,
    TahliaBridge._import_blend_file_blender,
    TahliaBridge._import_obj_file_blender,
    TahliaBridge._import_fbx_file_blender,
    TahliaBridge._import_dae_file_blender,
    TahliaBridge._import_texture_blender.
  repeat first [ apply keeps_self_connect_texture | keeps_self
               | match goal with
                 | |- keeps _ (if ?c then _ else _) => destruct c
                 end ].
Qed.

Lemma core_perform_import_keeps_self env p o :
  keeps (@self _) (TahliaCore._perform_import env p o).
Proof.
  unfold TahliaCore._perform_import, TahliaCore._import_blend_file,
    TahliaCore._import_obj_file, TahliaCore._import_fbx_file,
    TahliaCore._import_dae_file, TahliaCore._import_texture.
  repeat first [ apply keeps_self_connect_texture | keeps_self
               | match goal with
                 | |- keeps _ (if ?c then _ else _) => destruct c
                 end ].
Qed.

(** ** A file that is not there, an extension without a branch *)

Lemma bridge_import_missing env p o s b b' :
  os_path_exists env p b = (Returned false, b') ->
  TahliaBridge.import_asset_blender env p o {| self := s; host := b |} =
  (Returned (failure ("Asset file not found: " ++ p)), {| self := s; host := b' |}).
Proof.
  intros E. unfold TahliaBridge.import_asset_blender.
  rewrite try_except_bind. unfold api. cbn [host self]. rewrite E.
  reflexivity.
Qed.

Lemma core_import_missing env p o s b b' :
  os_path_exists env p b = (Returned false, b') ->
  TahliaCore._perform_import env p o {| self := s; host := b |} =
  (Returned (failure ("Asset file not found: " ++ p)), {| self := s; host := b' |}).
Proof.
  intros E. unfold TahliaCore._perform_import.
  rewrite try_except_bind. unfold api. cbn [host self]. rewrite E.
  reflexivity.
Qed.

Lemma not_dispatched ext :
  ~ In ext dispatched_extensions ->
  String.eqb ext ".blend" = false /\ String.eqb ext ".obj" = false /\
  String.eqb ext ".fbx" = false /\ String.eqb ext ".dae" = false /\
  str_in ext texture_extensions = false.
Proof.
  intros H. unfold dispatched_extensions in H.
  repeat split;
    try (apply String.eqb_neq; intros ->; apply H; simpl; tauto).
  destruct (str_in ext texture_extensions) eqn:E; [| reflexivity].
  exfalso. apply H. apply in_or_app. right. apply str_in_In. exact E.
Qed.

Lemma bridge_import_unsupported env p o s b b' :
  os_path_exists env p b = (Returned true, b') ->
  ~ In (str_lower env (Path_suffix env p)) dispatched_extensions ->
  TahliaBridge.import_asset_blender env p o {| self := s; host := b |} =
  (Returned (failure ("Unsupported file format: "
                      ++ str_lower env (Path_suffix env p))),
   {| self := s; host := b' |}).
Proof.
  intros E H. apply not_dispatched in H.
  destruct H as (H1 & H2 & H3 & H4 & H5).
  unfold TahliaBridge.import_asset_blender.
  rewrite try_except_bind. unfold api. cbn [host self]. rewrite E.
  cbn [negb]. cbv zeta. rewrite H1, H2, H3, H4, H5. reflexivity.
Qed.

Lemma core_import_unsupported env p o s b b' :
  os_path_exists env p b = (Returned true, b') ->
  ~ In (str_lower env (Path_suffix env p)) dispatched_extensions ->
  TahliaCore._perform_import env p o {| self := s; host := b |} =
  (Returned (failure ("Unsupported file format: "
                      ++ str_lower env (Path_suffix env p))),
   {| self := s; host := b' |}).
Proof.
  intros E H. apply not_dispatched in H.
  destruct H as (H1 & H2 & H3 & H4 & H5).
  unfold TahliaCore._perform_import.
  rewrite try_except_bind. unfold api. cbn [host self]. rewrite E.
  cbn [negb]. cbv zeta. rewrite H1, H2, H3, H4, H5. reflexivity.
Qed.

(** The formats [get_supported_formats_blender] lists and the
    dispatchers have no branch for. *)
Lemma advertised_not_dispatched category exts ext :
  In (category, exts) TahliaBridge.get_supported_formats_blender ->
  In ext exts ->
  category = "audio" \/ category = "video" \/ In ext [".3ds"; ".stl"; ".ply"] ->
  ~ In ext dispatched_extensions.
Proof.
  unfold TahliaBridge.get_supported_formats_blender.
  intros Hc He Hk Hd.
  assert (Hin : forallb (fun x => negb (str_in x dispatched_extensions))
                  ([".3ds"; ".stl"; ".ply"] ++
                   [".mp3"; ".wav"; ".flac"; ".aac"; ".ogg"; ".wma"; ".m4a"] ++
                   [".mp4"; ".avi"; ".mov"; ".wmv"; ".flv"; ".webm"; ".mkv"])
                = true) by (vm_compute; reflexivity).
  rewrite forallb_forall in Hin.
  assert (Hx : In ext ([".3ds"; ".stl"; ".ply"] ++
                   [".mp3"; ".wav"; ".flac"; ".aac"; ".ogg"; ".wma"; ".m4a"] ++
                   [".mp4"; ".avi"; ".mov"; ".wmv"; ".flv"; ".webm"; ".mkv"])).
  { destruct Hk as [-> | [-> | Hk]].
    - simpl in Hc.
      destruct Hc as [Hc | [Hc | [Hc | [Hc | []]]]]; inversion Hc; subst.
      apply in_or_app; right; apply in_or_app; left; exact He.
    - simpl in Hc.
      destruct Hc as [Hc | [Hc | [Hc | [Hc | []]]]]; inversion Hc; subst.
      apply in_or_app; right; apply in_or_app; right; exact He.
    - apply in_or_app; left; exact Hk. }
  apply Hin in Hx. apply negb_true_iff in Hx.
  apply str_in_In in Hd. rewrite Hd in Hx. discriminate.
Qed.

(** ** The two dispatchers side by side *)

Lemma same_ret {A} (a : A) : same_on_host (ret a) (ret a).
Proof. intros wb wc H. simpl. auto. Qed.

Lemma same_bind {A B} cb cc (kb : A -> M TahliaBridge.W B) kc :
  same_on_host cb cc -> (forall a, same_on_host (kb a) (kc a)) ->
  same_on_host (bind cb kb) (bind cc kc).
Proof.
  intros Hc Hk wb wc H. unfold bind.
  destruct (Hc wb wc H) as [H1 H2].
  destruct (cb wb) as [[a | e] wb1], (cc wc) as [[a' | e'] wc1];
    simpl in H1, H2; inversion H1; subst.
  - apply Hk. exact H2.
  - simpl. auto.
Qed.

Lemma same_try_except {A} bb bc (hb : exn -> M TahliaBridge.W A) hc :
  same_on_host bb bc -> (forall e, same_on_host (hb e) (hc e)) ->
  same_on_host (try_except bb hb) (try_except bc hc).
Proof.
  intros Hc Hk wb wc H. unfold try_except.
  destruct (Hc wb wc H) as [H1 H2].
  destruct (bb wb) as [[a | e] wb1], (bc wc) as [[a' | e'] wc1];
    simpl in H1, H2; inversion H1; subst.
  - simpl. auto.
  - apply Hk. exact H2.
Qed.

Lemma same_api {A} (c : M bpy.t A) : same_on_host (api c) (api c).
Proof.
  intros wb wc H. unfold api. rewrite H.
  destruct (c (host wc)) as [r b]. simpl. auto.
Qed.

Lemma same_when c bb bc :
  same_on_host bb bc -> same_on_host (when c bb) (when c bc).
Proof. intros H. destruct c; simpl; [exact H | apply same_ret]. Qed.

Lemma same_link_loaded env objs :
  same_on_host (link_loaded env objs) (link_loaded env objs).
Proof.
  induction objs as [| [n |] objs IH]; simpl.
  - apply same_ret.
  - apply same_bind; [apply same_api | intros _].
    apply same_bind; [exact IH | intros ?; apply same_ret].
  - exact IH.
Qed.

Ltac same_step :=
  first
    [ apply same_ret
    | apply same_api
    | apply same_link_loaded
    | apply same_bind; [| intros ?]
    | apply same_try_except; [| intros ?]
    | apply same_when
    | match goal with
      | |- same_on_host (match ?x with _ => _ end) _ => destruct x
      | |- same_on_host (let _ := _ in _) _ => cbv zeta
      end ].

Lemma same_connect_texture env m p :
  same_on_host (connect_texture env m p) (connect_texture env m p).
Proof. unfold connect_texture. repeat same_step. Qed.

Lemma import_same_on_host env p o :
  same_on_host (TahliaBridge.import_asset_blender env p o)
               (TahliaCore._perform_import env p o).
Proof.
  unfold TahliaBridge.import_asset_blender, TahliaCore._perform_import,
    TahliaBridge._import_blend_file_blender, TahliaCore._import_blend_file,
    TahliaBridge._import_obj_file_blender, TahliaCore._import_obj_file,
    TahliaBridge._import_fbx_file_blender, TahliaCore._import_fbx_file,
    TahliaBridge._import_dae_file_blender, TahliaCore._import_dae_file,
    TahliaBridge._import_texture_blender, TahliaCore._import_texture,
    TahliaBridge._create_success_result, TahliaBridge._create_error_result.
  repeat first [ apply same_connect_texture | same_step ].
Qed.

(** ** [TahliaCore.import_asset] *)

Lemma core_capture_context_captured w :
  TahliaCore.capture_context w = (Returned (core_captured (host w)), w).
Proof.
  rewrite core_capture_context_run. unfold core_captured.
  destruct (core_fault (host w)); reflexivity.
Qed.

Lemma core_preserve_context_run operation w :
  TahliaCore.preserve_context operation w =
  if TahliaCore.context_preservation (self w)
  then match operation w with
       | (Returned _, w1) =>
           TahliaCore.restore_context (core_captured (host w)) w1
       | (Raised _, w1) =>
           (Returned false,
            snd (TahliaCore.restore_context (core_captured (host w)) w1))
       end
  else match operation w with
       | (Returned _, w1) => (Returned true, w1)
       | (Raised e, w1) => (Raised e, w1)
       end.
Proof.
  destruct (TahliaCore.context_preservation (self w)) eqn:Hon.
  - unfold TahliaCore.preserve_context, bind at 1, get. rewrite Hon.
    cbn [negb]. unfold bind at 1. rewrite core_capture_context_captured.
    unfold try_except, bind.
    destruct (operation w) as [[[] | e] w1].
    + destruct (core_restore_context_returns (core_captured (host w)) w1)
        as (r & w2 & E).
      rewrite E. reflexivity.
    + destruct (core_restore_context_returns (core_captured (host w)) w1)
        as (r & w2 & E).
      rewrite E. reflexivity.
  - apply core_preserve_context_disabled. exact Hon.
Qed.

Lemma core_import_asset_run env p o w :
  exists res w1,
    TahliaCore._perform_import env p (get_or o []) w = (Returned res, w1) /\
    self w1 = self w /\
    well_formed p res /\
    TahliaCore.import_asset env p o w =
    if TahliaCore.context_preservation (self w)
    then TahliaCore.restore_context (core_captured (host w)) w1
    else (Returned true, w1).
Proof.
  destruct (core_perform_import_yields env p (get_or o []) w)
    as (res & w1 & E & Hwf).
  exists res, w1. split; [exact E |].
  split; [exact (core_perform_import_keeps_self _ _ _ _ E) |].
  split; [exact Hwf |].
  assert (Hop : (TahliaCore._perform_import env p (get_or o []) ;; ret tt) w
                = (Returned tt, w1)).
  { unfold bind. rewrite E. reflexivity. }
  change (TahliaCore.import_asset env p o w)
    with (TahliaCore.preserve_context
            (TahliaCore._perform_import env p (get_or o []) ;; ret tt) w).
  rewrite core_preserve_context_run, Hop. reflexivity.
Qed.

Lemma select_all_named_fixed names : forall l,
  (forall n, In n names -> bpy.select_named n l = l) ->
  select_all_named names l = l.
Proof.
  unfold select_all_named.
  induction names as [| n names IH]; intros l H; simpl; [reflexivity |].
  rewrite (H n) by (left; reflexivity).
  apply IH. intros m Hm. apply H. right. exact Hm.
Qed.

Lemma no_faults_no_fault m b : bpy.faults b = [] -> bpy.fault m b = None.
Proof. unfold bpy.fault. intros ->. reflexivity. Qed.

(** On a host where no call raises and names are keys, restoring the
    snapshot just taken changes nothing. *)
Lemma core_restored_captured b :
  bpy.faults b = [] ->
  NoDup (map bpy.ob_name (bpy.data_objects b)) ->
  core_restore_ok (core_captured b) b = true /\
  core_restored (core_captured b) b = b.
Proof.
  intros Hf Hnd.
  assert (Hno : forall m, no_fault m b = true).
  { intros m. unfold no_fault. rewrite no_faults_no_fault by exact Hf.
    reflexivity. }
  split.
  - unfold core_restore_ok, active_step_ok, core_select_step_ok, mode_step_ok,
      core_viewport_step_ok, select_loop_ok.
    rewrite !Hno.
    destruct (core_shading_to_set (core_captured b) b);
      destruct (get_or (selected_objects (core_captured b)) []);
      rewrite ?orb_true_r, ?andb_true_r; reflexivity.
  - unfold core_captured. destruct (core_fault b) eqn:Hc.
    + destruct b as [? act ? ? sh ? ? ? ? ? ? ?]; destruct act, sh; reflexivity.
    + unfold core_restored, core_snapshot_of, core_restored_objects,
        restored_active, restored_mode, core_restored_shading,
        core_shading_to_set, has_shading_attr.
      cbn [selected_objects active_object mode viewport_settings get_or
           shading overlay truthy_settings].
      rewrite Hno.
      assert (Hobj : (if truthy_list (Some (bpy.selected_names b))
                      then select_all_named (bpy.selected_names b)
                             (bpy.data_objects b)
                      else bpy.data_objects b) = bpy.data_objects b).
      { destruct (truthy_list (Some (bpy.selected_names b))); [| reflexivity].
        apply select_all_named_fixed. intros n Hn.
        apply select_named_selected; assumption. }
      assert (Hact : (if truthy_str (Some (active_name b))
                         && bpy.has_object (active_name b) b
                      then Some (active_name b)
                      else bpy.active b) = bpy.active b).
      { unfold active_name. destruct (bpy.active b) as [a |].
        - destruct (truthy_str (Some a) && bpy.has_object a b); reflexivity.
        - reflexivity. }
      rewrite Hobj, Hact.
      assert (Hmode : match bpy.active b with
                      | Some _ =>
                          if truthy_str (Some (bpy.mode b)) && true
                          then bpy.mode b else bpy.mode b
                      | None => bpy.mode b
                      end = bpy.mode b).
      { destruct (bpy.active b);
          [destruct (truthy_str (Some (bpy.mode b)) && true) |]; reflexivity. }
      rewrite Hmode.
      assert (Hsh : match
                      (if match bpy.shading_type b with
                          | Some _ => true
                          | None => false
                          end && true
                       then Some match bpy.shading_type b with
                                 | Some ty => ty
                                 | None => "SOLID"
                                 end
                       else None)
                    with
                    | Some s => Some s
                    | None => bpy.shading_type b
                    end = bpy.shading_type b).
      { destruct (bpy.shading_type b); reflexivity. }
      rewrite Hsh. destruct b; reflexivity.
Qed.

Lemma core_restore_captured w :
  bpy.faults (host w) = [] ->
  NoDup (map bpy.ob_name (bpy.data_objects (host w))) ->
  TahliaCore.restore_context (core_captured (host w)) w = (Returned true, w).
Proof.
  intros Hf Hnd. destruct w as [s b]. cbn [host] in *.
  destruct (@core_restored_captured b Hf Hnd) as [Hok Hres].
  destruct (core_restore_context_exact (core_captured b) s b)
    as (w' & E & Hw & _).
  rewrite E, Hok, (Hw Hok), Hres. reflexivity.
Qed.

(** ** A nested function under [preserve_context] *)

Lemma outer_run {S L A} (c : M S A) (s : S) (l : L) :
  outer c (s, l) = (fst (c s), (snd (c s), l)).
Proof. unfold outer. cbn [fst snd]. destruct (c s); reflexivity. Qed.

Lemma core_preserve_context_closure_run L (operation : M (TahliaCore.W * L) unit)
      (w : TahliaCore.W) l :
  TahliaCore.preserve_context_closure operation (w, l) =
  if TahliaCore.context_preservation (self w)
  then match operation (w, l) with
       | (Returned _, (w1, l1)) =>
           (fst (TahliaCore.restore_context (core_captured (host w)) w1),
            (snd (TahliaCore.restore_context (core_captured (host w)) w1), l1))
       | (Raised _, (w1, l1)) =>
           (Returned false,
            (snd (TahliaCore.restore_context (core_captured (host w)) w1), l1))
       end
  else match operation (w, l) with
       | (Returned _, s1) => (Returned true, s1)
       | (Raised e, s1) => (Raised e, s1)
       end.
Proof.
  unfold TahliaCore.preserve_context_closure. unfold bind at 1.
  rewrite outer_run. cbn [get fst snd].
  destruct (TahliaCore.context_preservation (self w)); cbn [negb].
  - unfold bind at 1. rewrite outer_run, core_capture_context_captured.
    cbn [fst snd]. unfold try_except, bind.
    destruct (operation (w, l)) as [[[] | e] [w1 l1]].
    + rewrite outer_run.
      destruct (core_restore_context_returns (core_captured (host w)) w1)
        as (r & w2 & E).
      rewrite E. reflexivity.
    + rewrite outer_run.
      destruct (core_restore_context_returns (core_captured (host w)) w1)
        as (r & w2 & E).
      rewrite E. reflexivity.
  - unfold bind. reflexivity.
Qed.

(** On a nested function that does not use the local, this is
    [preserve_context]. *)
Lemma core_preserve_context_closure_outer L (operation : M TahliaCore.W unit)
      (w : TahliaCore.W) (l : L) :
  TahliaCore.preserve_context_closure (outer operation) (w, l) =
  outer (TahliaCore.preserve_context operation) (w, l).
Proof.
  rewrite core_preserve_context_closure_run, !outer_run,
    core_preserve_context_run.
  destruct (TahliaCore.context_preservation (self w));
    destruct (operation w) as [[[] | e] w1]; cbn [fst snd]; try reflexivity;
    destruct (TahliaCore.restore_context (core_captured (host w)) w1);
    reflexivity.
Qed.

(** What a method of the form
    [results = []; self.preserve_context(operation); return results]
    returns. *)
Lemma core_batch_run (operation : M (TahliaCore.W * list Result) unit)
      (w : TahliaCore.W) :
  with_local [] (TahliaCore.preserve_context_closure operation ;; local_get) w =
  match operation (w, []) with
  | (r, (w1, l1)) =>
      if TahliaCore.context_preservation (self w)
      then (Returned l1,
            snd (TahliaCore.restore_context (core_captured (host w)) w1))
      else match r with
           | Returned _ => (Returned l1, w1)
           | Raised e => (Raised e, w1)
           end
  end.
Proof.
  unfold with_local, bind. rewrite core_preserve_context_closure_run.
  destruct (operation (w, [])) as [[[] | e] [w1 l1]];
    destruct (TahliaCore.context_preservation (self w)); try reflexivity.
  destruct (core_restore_context_returns (core_captured (host w)) w1)
    as (r & w2 & E).
  rewrite E. reflexivity.
Qed.

(** The same method around an operation of the world only. *)
Lemma core_batch_outer (operation : M TahliaCore.W unit) (w : TahliaCore.W) :
  with_local ([] : list Result)
    (TahliaCore.preserve_context_closure (outer operation) ;; local_get) w =
  (TahliaCore.preserve_context operation ;; ret []) w.
Proof.
  rewrite core_batch_run, outer_run. unfold bind.
  rewrite core_preserve_context_run.
  destruct (TahliaCore.context_preservation (self w));
    destruct (operation w) as [[[] | e] w1]; cbn [fst snd]; try reflexivity.
  destruct (core_restore_context_returns (core_captured (host w)) w1)
    as (r & w2 & E).
  rewrite E. reflexivity.
Qed.

Lemma core_batch_ext (op op' : M (TahliaCore.W * list Result) unit)
      (w : TahliaCore.W) :
  op (w, []) = op' (w, []) ->
  with_local [] (TahliaCore.preserve_context_closure op ;; local_get) w =
  with_local [] (TahliaCore.preserve_context_closure op' ;; local_get) w.
Proof. intros E. rewrite !core_batch_run, E. reflexivity. Qed.

(** ** The three loops *)

Lemma bind_pure_run {S A B} (r : outcome A) (k : A -> M S B) (s : S) :
  bind (pure r) k s = match r with
                      | Returned a => k a s
                      | Raised e => (Raised e, s)
                      end.
Proof. unfold bind, pure. destruct r; reflexivity. Qed.

(** One import of a loop, the positioning of what it imported and the
    [append]: either all three are done and [results] has one more
    entry, or the positioning raises and [results] is as it was. *)
Lemma import_and_place_run env p o loc
      (k : M (TahliaCore.W * list Result) unit) (w : TahliaCore.W) l :
  exists res (w2 : TahliaCore.W),
    well_formed p res /\ self w2 = self w /\
    let step :=
      (result <- outer (TahliaCore._perform_import env p o) ;;
       when (success result)
         (outer (place_objects env (list_data result) loc)) ;;
       local_append result ;;
       k) in
    (step (w, l) = k (w2, (l ++ [res])%list) \/
     exists e, step (w, l) = (Raised e, (w2, l))).
Proof.
  destruct (core_perform_import_yields env p o w) as (res & w1 & E & Hwf).
  pose proof (core_perform_import_keeps_self _ _ _ _ E) as Hs1.
  set (step := (result <- outer (TahliaCore._perform_import env p o) ;;
                when (success result)
                  (outer (place_objects env (list_data result) loc)) ;;
                local_append result ;;
                k)).
  assert (Hrun : step (w, l) =
                 if success res
                 then match place_objects env (list_data res) loc w1 with
                      | (Returned _, w2) => k (w2, (l ++ [res])%list)
                      | (Raised e, w2) => (Raised e, (w2, l))
                      end
                 else k (w1, (l ++ [res])%list)).
  { unfold step. unfold bind at 1. rewrite outer_run, E. cbn [fst snd].
    destruct (success res); cbn [when].
    - unfold bind at 1. rewrite outer_run.
      destruct (place_objects env (list_data res) loc w1) as [[[] | e] w2];
        reflexivity.
    - reflexivity. }
  destruct (success res).
  - destruct (place_objects env (list_data res) loc w1) as [[[] | e] w2] eqn:Ep;
      pose proof (keeps_self_place_objects _ _ _ _ Ep) as Hs2.
    + exists res, w2. split; [exact Hwf |]. split; [congruence |].
      left. exact Hrun.
    + exists res, w2. split; [exact Hwf |]. split; [congruence |].
      right. exists e. exact Hrun.
  - exists res, w1. split; [exact Hwf |]. split; [exact Hs1 |].
    left. exact Hrun.
Qed.

(** What a loop has added to [results]: one well-formed result per
    path, in the order of the paths, for the paths it got through. *)
Lemma gathered_nil (paths : list string) (l : list Result) :
  exists added,
    l = (l ++ added)%list /\
    Forall2 well_formed (firstn (List.length added) paths) added /\
    List.length added = 0%nat.
Proof.
  exists []. rewrite app_nil_r. repeat split. simpl. constructor.
Qed.

Lemma gathered_cons p rest res (l l' : list Result) added :
  well_formed p res ->
  l' = ((l ++ [res]) ++ added)%list ->
  Forall2 well_formed (firstn (List.length added) rest) added ->
  l' = (l ++ res :: added)%list /\
  Forall2 well_formed (firstn (List.length (res :: added)) (p :: rest))
    (res :: added).
Proof.
  intros Hwf -> Hall. rewrite <- app_assoc. split; [reflexivity |].
  simpl. constructor; assumption.
Qed.

Lemma Forall2_firstn_length {A B} (P : A -> B -> Prop) (l : list A) (m : list B) :
  Forall2 P (firstn (List.length m) l) m -> (List.length m <= List.length l)%nat.
Proof.
  intros H. apply Forall2_length in H. rewrite length_firstn in H. lia.
Qed.

Lemma line_loop_gathers env o spacing paths : forall i w l r w' l',
  TahliaCore.line_loop env o spacing i paths (w, l) = (r, (w', l')) ->
  exists added,
    l' = (l ++ added)%list /\
    Forall2 well_formed (firstn (List.length added) paths) added /\
    self w' = self w /\
    (r = Returned tt -> List.length added = List.length paths).
Proof.
  induction paths as [| p rest IH]; intros i w l r w' l' E.
  - inversion E; subst. exists []. rewrite app_nil_r.
    repeat split. constructor.
  - cbn [TahliaCore.line_loop] in E. rewrite bind_pure_run in E.
    destruct (int_mul_float env i spacing) as [x | e].
    2:{ inversion E; subst. exists []. rewrite app_nil_r.
        repeat split; [constructor | discriminate]. }
    destruct (import_and_place_run env p o (Float x, Int 0, Int 0)
                (TahliaCore.line_loop env o spacing (i + 1) rest) w l)
      as (res & w2 & Hwf & Hs & [Hstep | (e & Hstep)]);
      cbv zeta in Hstep; cbv beta iota in E; rewrite Hstep in E.
    + apply IH in E. destruct E as (added & El & Hall & Hs' & Hlen).
      exists (res :: added).
      destruct (@gathered_cons p rest res l l' added Hwf El Hall) as [E1 E2].
      split; [exact E1 |]. split; [exact E2 |].
      split; [congruence |].
      intros Hr. simpl. rewrite (Hlen Hr). reflexivity.
    + inversion E; subst. exists []. rewrite app_nil_r.
      repeat split; [constructor | assumption | discriminate].
Qed.

Lemma grid_loop_gathers env o rows cols spacing paths : forall i w l r w' l',
  (0 <= i)%Z ->
  TahliaCore.grid_loop env o rows cols spacing i paths (w, l) = (r, (w', l')) ->
  exists added,
    l' = (l ++ added)%list /\
    Forall2 well_formed (firstn (List.length added) paths) added /\
    self w' = self w /\
    (Z.of_nat (List.length added) <= Z.max 0 (rows * cols - i))%Z.
Proof.
  induction paths as [| p rest IH]; intros i w l r w' l' Hi E.
  - inversion E; subst. exists []. rewrite app_nil_r.
    repeat split; [constructor | simpl; lia].
  - cbn [TahliaCore.grid_loop] in E.
    assert (Hstop : forall (r0 : outcome unit) w0,
               (r0, (w0, l)) = (r, (w', l')) -> self w0 = self w ->
               exists added,
                 l' = (l ++ added)%list /\
                 Forall2 well_formed
                   (firstn (List.length added) (p :: rest)) added /\
                 self w' = self w /\
                 (Z.of_nat (List.length added) <= Z.max 0 (rows * cols - i))%Z).
    { intros r0 w0 E0 Hs0. inversion E0; subst. exists []. rewrite app_nil_r.
      repeat split; [constructor | exact Hs0 | simpl; lia]. }
    destruct (i >=? rows * cols)%Z eqn:Hge.
    { apply (Hstop _ _ E). reflexivity. }
    rewrite Z.geb_leb in Hge. apply Z.leb_gt in Hge.
    assert (Hc : (cols =? 0)%Z = false).
    { apply Z.eqb_neq. intros ->. lia. }
    unfold floordiv, modulo in E. rewrite Hc in E.
    unfold bind at 1 in E. cbn [ret] in E.
    unfold bind at 1 in E. cbn [ret] in E.
    rewrite bind_pure_run in E.
    destruct (int_mul_float env (i mod cols) spacing) as [x | e].
    2:{ apply (Hstop _ _ E). reflexivity. }
    rewrite bind_pure_run in E.
    destruct (int_mul_float env (i / cols) spacing) as [y | e].
    2:{ apply (Hstop _ _ E). reflexivity. }
    destruct (import_and_place_run env p o (Float x, Float y, Int 0)
                (TahliaCore.grid_loop env o rows cols spacing (i + 1) rest) w l)
      as (res & w2 & Hwf & Hs & [Hstep | (e & Hstep)]);
      cbv zeta in Hstep; cbv beta iota in E; rewrite Hstep in E.
    + apply IH in E; [| lia].
      destruct E as (added & El & Hall & Hs' & Hlen).
      exists (res :: added).
      destruct (@gathered_cons p rest res l l' added Hwf El Hall) as [E1 E2].
      split; [exact E1 |]. split; [exact E2 |].
      split; [congruence |].
      cbn [List.length]. lia.
    + apply (Hstop _ _ E). exact Hs.
Qed.

(** With no cell left in the grid the loop does nothing, whatever
    [cols] is. *)
Lemma grid_loop_no_room env o rows cols spacing paths i s :
  (rows * cols <= i)%Z ->
  TahliaCore.grid_loop env o rows cols spacing i paths s = (Returned tt, s).
Proof.
  intros H. destruct paths as [| p rest]; [reflexivity |].
  cbn [TahliaCore.grid_loop].
  assert (Hge : (i >=? rows * cols)%Z = true).
  { apply Z.geb_le. lia. }
  rewrite Hge. reflexivity.
Qed.

Lemma load_global_math S (s : S) :
  @load_global S "math" s = (Raised (NameError "math"), s).
Proof. vm_compute. reflexivity. Qed.

(** The first iteration of [circle_operation] raises before it imports
    anything. *)
Lemma circle_loop_raises env o radius n i p rest s :
  exists e,
    TahliaCore.circle_loop env o radius n i (p :: rest) s = (Raised e, s) /\
    (forall a b c,
        int_mul_float env 2 (float_3_14159 env) = Returned a ->
        float_mul_int env a i = Returned b ->
        float_div_int env b n = Returned c ->
        e = NameError "math").
Proof.
  cbn [TahliaCore.circle_loop]. rewrite bind_pure_run.
  destruct (int_mul_float env 2 (float_3_14159 env)) as [a | e1] eqn:E1.
  2:{ exists e1. split; [reflexivity | intros; discriminate]. }
  rewrite bind_pure_run.
  destruct (float_mul_int env a i) as [b | e2] eqn:E2.
  2:{ exists e2. split; [reflexivity |].
      intros a' b' c' Ha Hb. inversion Ha; subst. congruence. }
  rewrite bind_pure_run.
  destruct (float_div_int env b n) as [c | e3] eqn:E3.
  2:{ exists e3. split; [reflexivity |].
      intros a' b' c' Ha Hb Hc. inversion Ha; subst.
      rewrite E2 in Hb. inversion Hb; subst. congruence. }
  exists (NameError "math"). split; [| reflexivity].
  unfold bind at 1. rewrite load_global_math. reflexivity.
Qed.

(** ** The import methods: properties *)

(** X9.  [TahliaBridge.import_asset_blender] and
    [TahliaCore._perform_import] never raise, whatever the file system,
    the operators and the data API do: they return a result, leave the
    instance as it was, and the result is well formed: a failure
    carries no data and no names, a success records the path asked for
    and one of the five kinds of file. *)
Theorem import_never_raises
    (env : Env) (asset_path : string) (options : Options)
    (wb : TahliaBridge.W) (wc : TahliaCore.W) :
  (exists res wb',
     TahliaBridge.import_asset_blender env asset_path options wb
       = (Returned res, wb') /\
     self wb' = self wb /\ well_formed asset_path res)
  /\
  (exists res wc',
     TahliaCore._perform_import env asset_path options wc
       = (Returned res, wc') /\
     self wc' = self wc /\ well_formed asset_path res).
Proof.
  split.
  - destruct (bridge_import_asset_blender_yields env asset_path options wb)
      as (res & wb' & E & Hwf).
    exists res, wb'. split; [exact E |]. split; [| exact Hwf].
    exact (bridge_import_asset_blender_keeps_self _ _ _ _ E).
  - destruct (core_perform_import_yields env asset_path options wc)
      as (res & wc' & E & Hwf).
    exists res, wc'. split; [exact E |]. split; [| exact Hwf].
    exact (core_perform_import_keeps_self _ _ _ _ E).
Qed.

(** X10.  For a path [os.path.exists] says is not there, both
    dispatchers return the failure ["Asset file not found: <path>"]
    and call nothing else: the host is as [os.path.exists] left it. *)
Theorem import_of_missing_file
    (env : Env) (asset_path : string) (options : Options)
    (sb : TahliaBridge.t) (sc : TahliaCore.t) (b b' : bpy.t) :
  os_path_exists env asset_path b = (Returned false, b') ->
  TahliaBridge.import_asset_blender env asset_path options
    {| self := sb; host := b |}
  = (Returned (failure ("Asset file not found: " ++ asset_path)),
     {| self := sb; host := b' |})
  /\
  TahliaCore._perform_import env asset_path options {| self := sc; host := b |}
  = (Returned (failure ("Asset file not found: " ++ asset_path)),
     {| self := sc; host := b' |}).
Proof.
  intros E. split.
  - apply bridge_import_missing. exact E.
  - apply core_import_missing. exact E.
Qed.

Lemma import_of_missing_file_witness :
  TahliaBridge.import_asset_blender sample_env "/assets/missing.fbx" []
    (bridge_world two_selected)
  = (Returned (failure "Asset file not found: /assets/missing.fbx"),
     bridge_world two_selected)
  /\
  TahliaCore._perform_import sample_env "/assets/missing.fbx" []
    (core_world two_selected)
  = (Returned (failure "Asset file not found: /assets/missing.fbx"),
     core_world two_selected).
Proof.
  apply (@import_of_missing_file sample_env "/assets/missing.fbx" []
           TahliaBridge.init TahliaCore.init two_selected two_selected).
  reflexivity.
Defined.

(** X11.  The formats [get_supported_formats_blender] lists under
    ['audio'] and ['video'], and ['.3ds'], ['.stl'] and ['.ply'] of its
    ['models'], have no branch in the dispatchers: importing an
    existing file of such a format fails with
    ["Unsupported file format: <ext>"] and calls no importer. *)
Theorem advertised_formats_rejected
    (env : Env) (asset_path : string) (options : Options)
    (sb : TahliaBridge.t) (sc : TahliaCore.t) (b b' : bpy.t)
    (category : string) (exts : list string) :
  In (category, exts) TahliaBridge.get_supported_formats_blender ->
  In (str_lower env (Path_suffix env asset_path)) exts ->
  category = "audio" \/ category = "video" \/
  In (str_lower env (Path_suffix env asset_path)) [".3ds"; ".stl"; ".ply"] ->
  os_path_exists env asset_path b = (Returned true, b') ->
  TahliaBridge.import_asset_blender env asset_path options
    {| self := sb; host := b |}
  = (Returned (failure ("Unsupported file format: "
                        ++ str_lower env (Path_suffix env asset_path))),
     {| self := sb; host := b' |})
  /\
  TahliaCore._perform_import env asset_path options {| self := sc; host := b |}
  = (Returned (failure ("Unsupported file format: "
                        ++ str_lower env (Path_suffix env asset_path))),
     {| self := sc; host := b' |}).
Proof.
  intros Hc He Hk E.
  pose proof (@advertised_not_dispatched _ _ _ Hc He Hk) as Hnot.
  split.
  - apply bridge_import_unsupported; assumption.
  - apply core_import_unsupported; assumption.
Qed.

Lemma advertised_formats_rejected_witness :
  TahliaBridge.import_asset_blender sample_env "/assets/song.mp3" []
    (bridge_world two_selected)
  = (Returned (failure "Unsupported file format: .mp3"),
     bridge_world two_selected)
  /\
  TahliaCore._perform_import sample_env "/assets/song.mp3" []
    (core_world two_selected)
  = (Returned (failure "Unsupported file format: .mp3"),
     core_world two_selected).
Proof.
  apply (@advertised_formats_rejected sample_env "/assets/song.mp3" []
           TahliaBridge.init TahliaCore.init two_selected two_selected
           "audio" [".mp3"; ".wav"; ".flac"; ".aac"; ".ogg"; ".wma"; ".m4a"]).
  - simpl. tauto.
  - simpl. tauto.
  - left. reflexivity.
  - reflexivity.
Defined.

(** X12.  The two dispatchers agree: on the same host, with the same
    file system and operators, [TahliaBridge.import_asset_blender] and
    [TahliaCore._perform_import] return the same result and leave the
    same host, for every path and every options. *)
Theorem import_dispatchers_agree
    (env : Env) (asset_path : string) (options : Options)
    (wb : TahliaBridge.W) (wc : TahliaCore.W) :
  host wb = host wc ->
  fst (TahliaBridge.import_asset_blender env asset_path options wb)
  = fst (TahliaCore._perform_import env asset_path options wc)
  /\
  host (snd (TahliaBridge.import_asset_blender env asset_path options wb))
  = host (snd (TahliaCore._perform_import env asset_path options wc)).
Proof. apply import_same_on_host. Qed.

Lemma import_dispatchers_agree_witness :
  fst (TahliaBridge.import_asset_blender sample_env "/assets/tree.obj" []
         (bridge_world two_selected))
  = fst (TahliaCore._perform_import sample_env "/assets/tree.obj" []
           (core_world two_selected))
  /\
  host (snd (TahliaBridge.import_asset_blender sample_env "/assets/tree.obj" []
               (bridge_world two_selected)))
  = host (snd (TahliaCore._perform_import sample_env "/assets/tree.obj" []
                 (core_world two_selected))).
Proof.
  apply (@import_dispatchers_agree sample_env "/assets/tree.obj" []
           (bridge_world two_selected) (core_world two_selected)).
  reflexivity.
Defined.

(** X13.  What [TahliaCore.import_asset] returns does not depend on
    whether the import worked.  The import itself returns a result and
    never raises; [import_asset] drops that result and returns [True]
    when preservation is off, and what [restore_context] returns on the
    snapshot taken before the import when it is on. *)
Theorem core_import_asset_result
    (env : Env) (asset_path : string) (options : option Options)
    (w : TahliaCore.W) :
  exists res w1,
    TahliaCore._perform_import env asset_path (get_or options []) w
      = (Returned res, w1) /\
    self w1 = self w /\
    well_formed asset_path res /\
    TahliaCore.import_asset env asset_path options w =
    if TahliaCore.context_preservation (self w)
    then TahliaCore.restore_context (core_captured (host w)) w1
    else (Returned true, w1).
Proof. apply core_import_asset_run. Qed.

(** X14.  [TahliaCore.import_asset] of a file that is not there returns
    [True] and changes nothing, on a host where no call raises and
    object names are keys, with preservation on or off. *)
Theorem core_import_asset_missing_file
    (env : Env) (asset_path : string) (options : option Options)
    (w : TahliaCore.W) :
  os_path_exists env asset_path (host w) = (Returned false, host w) ->
  bpy.faults (host w) = [] ->
  NoDup (map bpy.ob_name (bpy.data_objects (host w))) ->
  TahliaCore.import_asset env asset_path options w = (Returned true, w).
Proof.
  intros Hex Hf Hnd.
  destruct (core_import_asset_run env asset_path options w)
    as (res & w1 & E & _ & _ & Hrun).
  destruct w as [s b]. cbn [host self] in *.
  pose proof (eq_trans
                (eq_sym (@core_import_missing env asset_path
                           (get_or options []) s b b Hex)) E) as E'.
  inversion E'; subst. rewrite Hrun.
  destruct (TahliaCore.context_preservation s); [| reflexivity].
  apply (@core_restore_captured {| self := s; host := b |}); assumption.
Qed.

Lemma core_import_asset_missing_file_witness :
  TahliaCore.import_asset sample_env "/assets/missing.fbx" None
    (core_world two_selected) = (Returned true, core_world two_selected).
Proof.
  apply (@core_import_asset_missing_file sample_env "/assets/missing.fbx" None
           (core_world two_selected)).
  - reflexivity.
  - reflexivity.
  - exact NoDup_two_selected_objects.
Defined.

(** ** The batch imports: properties *)

Lemma circle_loop_nothing env o radius n paths (w : TahliaCore.W) :
  exists r, TahliaCore.circle_loop env o radius n 0 paths (w, []) = (r, (w, [])).
Proof.
  destruct paths as [| p rest].
  - eexists. reflexivity.
  - destruct (circle_loop_raises env o radius n 0 p rest
                (w, [] : list Result)) as (e & E & _).
    exists (Raised e). exact E.
Qed.

(** X15.  [TahliaCore.import_assets_circle] imports nothing.  Its
    module does not import [math], so the first iteration of the loop
    raises before it reaches the import: for paths that are not empty
    the method does what [preserve_context] does around an operation
    that raises at once (with preservation off it raises, with it on
    it captures, restores and returns the empty list), and the
    exception is [NameError: name 'math' is not defined] when the
    arithmetic of the angle returns.  In every case a list it returns
    is empty. *)
Theorem import_assets_circle_imports_nothing
    (env : Env) (asset_paths : list string) (options : option Options)
    (radius : float env) (w : TahliaCore.W) :
  (forall l w',
      TahliaCore.import_assets_circle env asset_paths options radius w
        = (Returned l, w') -> l = [])
  /\
  (forall p rest, asset_paths = p :: rest ->
     exists e,
       TahliaCore.import_assets_circle env asset_paths options radius w
         = (TahliaCore.preserve_context (raise e) ;; ret []) w /\
       (forall a b c,
           int_mul_float env 2 (float_3_14159 env) = Returned a ->
           float_mul_int env a 0 = Returned b ->
           float_div_int env b (Z.of_nat (List.length asset_paths)) = Returned c ->
           e = NameError "math")).
Proof.
  unfold TahliaCore.import_assets_circle. cbv zeta. split.
  - intros l w'. rewrite core_batch_run.
    destruct (circle_loop_nothing env (get_or options []) radius
                (Z.of_nat (List.length asset_paths)) asset_paths w) as (r & E).
    rewrite E.
    destruct (TahliaCore.context_preservation (self w)).
    + intros H. inversion H. reflexivity.
    + destruct r; intros H; inversion H. reflexivity.
  - intros p rest ->.
    destruct (circle_loop_raises env (get_or options []) radius
                (Z.of_nat (List.length (p :: rest))) 0 p rest
                (w, [] : list Result)) as (e & E & He).
    exists e. split; [| exact He].
    rewrite <- core_batch_outer. apply core_batch_ext.
    rewrite E. reflexivity.
Qed.

Lemma import_assets_circle_imports_nothing_witness :
  TahliaCore.import_assets_circle sample_env ["/assets/tree.obj"] None 10%Z
    (core_off two_selected)
  = (Raised (NameError "math"), core_off two_selected).
Proof.
  destruct (proj2 (@import_assets_circle_imports_nothing sample_env
                     ["/assets/tree.obj"] None 10%Z (core_off two_selected))
              "/assets/tree.obj" [] eq_refl) as (e & E & He).
  rewrite E, (He _ _ _ eq_refl eq_refl eq_refl). reflexivity.
Defined.

(** X16.  [TahliaCore.import_assets_grid] never has more results than
    the grid has cells, and a grid without cells ([rows * cols <= 0],
    which covers [cols = 0]) imports nothing and divides by nothing:
    the method then does what [preserve_context] does around an
    operation that does nothing.  The results it returns are, in
    order, well-formed results for the first paths. *)
Theorem import_assets_grid_bounds
    (env : Env) (asset_paths : list string) (options : option Options)
    (rows cols : Z) (spacing : float env) (w : TahliaCore.W) :
  ((rows * cols <= 0)%Z ->
   TahliaCore.import_assets_grid env asset_paths options rows cols spacing w
     = (TahliaCore.preserve_context (ret tt) ;; ret []) w)
  /\
  (forall l w',
      TahliaCore.import_assets_grid env asset_paths options rows cols spacing w
        = (Returned l, w') ->
      (Z.of_nat (List.length l) <= Z.max 0 (rows * cols))%Z /\
      Forall2 well_formed (firstn (List.length l) asset_paths) l).
Proof.
  unfold TahliaCore.import_assets_grid. cbv zeta. split.
  - intros Hrc. rewrite <- core_batch_outer. apply core_batch_ext.
    rewrite grid_loop_no_room by lia. reflexivity.
  - intros l w'. rewrite core_batch_run.
    destruct (TahliaCore.grid_loop env (get_or options []) rows cols spacing 0
                asset_paths (w, [])) as [r [w1 l1]] eqn:E.
    apply grid_loop_gathers in E; [| lia].
    destruct E as (added & El & Hall & _ & Hlen). simpl in El. subst l1.
    rewrite Z.sub_0_r in Hlen.
    assert (Hl : added = l ->
                 (Z.of_nat (List.length l) <= Z.max 0 (rows * cols))%Z /\
                 Forall2 well_formed (firstn (List.length l) asset_paths) l).
    { intros <-. split; assumption. }
    destruct (TahliaCore.context_preservation (self w)).
    + intros H. inversion H. apply Hl. assumption.
    + destruct r; intros H; inversion H. apply Hl. assumption.
Qed.

Lemma import_assets_grid_bounds_witness :
  TahliaCore.import_assets_grid sample_env
    ["/assets/tree.obj"; "/assets/mesh.stl"] None 3 0 5%Z
    (core_off two_selected)
  = (Returned [], core_off two_selected).
Proof.
  rewrite (proj1 (@import_assets_grid_bounds sample_env
                    ["/assets/tree.obj"; "/assets/mesh.stl"] None 3 0 5%Z
                    (core_off two_selected))).
  - reflexivity.
  - simpl. lia.
Defined.



(** X18.  The list [TahliaCore.import_assets_line] returns holds, in
    the order of the paths, one well-formed result for each path the
    loop got through; with preservation off a list is returned only
    when the loop got through all of them, so it has one result per
    path. *)
Theorem import_assets_line_results
    (env : Env) (asset_paths : list string) (options : option Options)
    (spacing : float env) (w w' : TahliaCore.W) (l : list Result) :
  TahliaCore.import_assets_line env asset_paths options spacing w
    = (Returned l, w') ->
  Forall2 well_formed (firstn (List.length l) asset_paths) l /\
  (TahliaCore.context_preservation (self w) = false ->
   List.length l = List.length asset_paths).
Proof.
  unfold TahliaCore.import_assets_line. cbv zeta. rewrite core_batch_run.
  destruct (TahliaCore.line_loop env (get_or options []) spacing 0
              asset_paths (w, [])) as [r [w1 l1]] eqn:E.
  apply line_loop_gathers in E.
  destruct E as (added & El & Hall & _ & Hlen). simpl in El. subst l1.
  destruct (TahliaCore.context_preservation (self w)).
  - intros H. inversion H; subst. split; [exact Hall | discriminate].
  - destruct r as [[] | e]; intros H; inversion H; subst.
    split; [exact Hall |]. intros _. apply Hlen. reflexivity.
Qed.

Lemma import_assets_line_results_witness :
  exists l,
    fst (TahliaCore.import_assets_line sample_env
           ["/assets/tree.obj"; "/assets/missing.fbx"] None 5%Z
           (core_off two_selected)) = Returned l /\
    Forall2 well_formed
      (firstn (List.length l) ["/assets/tree.obj"; "/assets/missing.fbx"]) l /\
    List.length l = 2%nat.
Proof.
  destruct (TahliaCore.import_assets_line sample_env
              ["/assets/tree.obj"; "/assets/missing.fbx"] None 5%Z
              (core_off two_selected)) as [[l | e] w'] eqn:E.
  - exists l. split; [reflexivity |].
    destruct (@import_assets_line_results sample_env
                ["/assets/tree.obj"; "/assets/missing.fbx"] None 5%Z
                (core_off two_selected) w' l E) as [H1 H2].
    split; [exact H1 | exact (H2 eq_refl)].
  - vm_compute in E. discriminate.
Defined.
